(** * Ableton-Hub: the project-file structural analyzer

    A shallow embedding of [tests/analyze_als_structure.py] (class
    [ALSAnalyzer]) together with the properties its design document
    states about it.

    Conventions of the embedding:
    - a Python [str] is the [string] of the UTF-8 bytes of its text;
      substring tests, splitting and comparison act on it byte by byte,
      stripping and indexing character by character;
    - [str.lower], with the interpreter's Unicode tables behind it, is a
      parameter of the embedding, like the other library calls;
    - an [xml.etree.ElementTree.Element] is the inductive [Element]:
      tag, attribute dict, optional text, list of children;
    - a Python [dict] used as a map is a [gmap]; a dict with a fixed
      set of keys is a record;
    - a Python [float] is a primitive binary64 float;
    - a loop that mutates a dict is a left fold whose step function is
      the loop body. *)

From Stdlib Require Import Strings.Ascii Strings.String.
From Stdlib Require Import Floats.PrimFloat.
From Stdlib Require Import Sorting.Sorted Sorting.Permutation.
From Stdlib Require Import QArith.Qcanon QArith.Qcabs.
From stdpp Require Import base option list strings gmap.

Local Open Scope string_scope.
Local Open Scope list_scope.

(** ** Python built-ins used by the analyzer *)

Module Py.

(** [needle in hay] for two strings. *)
Fixpoint contains (needle hay : string) : bool :=
  String.prefix needle hay ||
  match hay with
  | EmptyString => false
  | String _ rest => contains needle rest
  end.

(** [s.split(sep)] for a one-character separator: never empty. *)
Fixpoint split (sep : ascii) (s : string) : list string :=
  match s with
  | EmptyString => [EmptyString]
  | String c rest =>
      if Ascii.eqb c sep then EmptyString :: split sep rest
      else match split sep rest with
           | [] => [String c EmptyString]
           | piece :: pieces => String c piece :: pieces
           end
  end.

(** [xs[-1]] on a list of strings known to be non-empty. *)
Definition last_piece (xs : list string) : string := List.last xs EmptyString.

(** Bytes, by value. *)
Definition byte_is (c : ascii) (n : nat) : bool :=
  (Ascii.nat_of_ascii c =? n)%nat.
Definition byte_in (c : ascii) (lo hi : nat) : bool :=
  (lo <=? Ascii.nat_of_ascii c)%nat && (Ascii.nat_of_ascii c <=? hi)%nat.

(** The characters that [str.strip] removes are those of
    [str.isspace]: U+0009..U+000D and U+001C..U+0020 (one byte),
    U+0085 and U+00A0 (two bytes), U+1680, U+2000..U+200A, U+2028,
    U+2029, U+202F, U+205F and U+3000 (three bytes). *)
Definition is_space (c : ascii) : bool := byte_in c 9 13 || byte_in c 28 32.
Definition is_space2 (c d : ascii) : bool :=
  byte_is c 194 && (byte_is d 133 || byte_is d 160).
Definition is_space3 (c d e : ascii) : bool :=
  (byte_is c 225 && byte_is d 154 && byte_is e 128)
  || (byte_is c 226 && byte_is d 128
      && (byte_in e 128 138 || byte_in e 168 169 || byte_is e 175))
  || (byte_is c 226 && byte_is d 129 && byte_is e 159)
  || (byte_is c 227 && byte_is d 128 && byte_is e 128).

(** The number of bytes of the whitespace character a text starts
    with; [0] if it starts with none. *)
Definition space_width (s : list ascii) : nat :=
  match s with
  | c :: rest =>
      if is_space c then 1
      else match rest with
           | d :: rest' =>
               if is_space2 c d then 2
               else match rest' with
                    | e :: _ => if is_space3 c d e then 3 else 0
                    | [] => 0
                    end
           | [] => 0
           end
  | [] => 0
  end.

(** The same for the character a text ends with, read off the
    reversed text. *)
Definition space_width_end (r : list ascii) : nat :=
  match r with
  | e :: rest =>
      if is_space e then 1
      else match rest with
           | d :: rest' =>
               if is_space2 d e then 2
               else match rest' with
                    | c :: _ => if is_space3 c d e then 3 else 0
                    | [] => 0
                    end
           | [] => 0
           end
  | [] => 0
  end.

(** Dropping whitespace characters from the front, as long as there
    is one; [skip] counts the bytes still to drop of the character
    being dropped. *)
Fixpoint drop_spaces (width : list ascii → nat) (skip : nat) (s : list ascii)
  : list ascii :=
  match s with
  | [] => []
  | c :: rest =>
      match skip with
      | S k => drop_spaces width k rest
      | 0 =>
          match width (c :: rest) with
          | 0 => c :: rest
          | S k => drop_spaces width k rest
          end
      end
  end.

Definition lstrip (s : string) : string :=
  string_of_list_ascii (drop_spaces space_width 0 (list_ascii_of_string s)).

Definition rstrip (s : string) : string :=
  string_of_list_ascii
    (rev (drop_spaces space_width_end 0 (rev (list_ascii_of_string s)))).

(** [s.strip()]. *)
Definition strip (s : string) : string := rstrip (lstrip s).

(** [s[1:]]: the text after the first character, which is a lead byte
    and the continuation bytes (0x80..0xBF) that follow it. *)
Fixpoint drop_continuation (s : string) : string :=
  match s with
  | EmptyString => EmptyString
  | String c rest => if byte_in c 128 191 then drop_continuation rest else s
  end.

Definition after_first_char (s : string) : string :=
  match s with
  | EmptyString => EmptyString
  | String _ rest => drop_continuation rest
  end.

(** [len(s) > 1 and s[1] == ch] for an ASCII character [ch]. *)
Definition char_at_1_is (ch : ascii) (s : string) : bool :=
  match after_first_char s with
  | EmptyString => false
  | String c _ => Ascii.eqb c ch
  end.

(** [s.startswith(p)]. *)
Definition startswith (p s : string) : bool := String.prefix p s.

(** Truth value of a string: the empty string is falsy. *)
Definition truthy (s : string) : bool :=
  match s with EmptyString => false | _ => true end.

(** Truth value of an optional string: [None] and [""] are falsy. *)
Definition truthy_opt (o : option string) : bool :=
  match o with Some s => truthy s | None => false end.

(** [a or b] on optional strings. *)
Definition or_ (a b : option string) : option string :=
  if truthy_opt a then a else b.

(** Truth value of a float: [0.0] and [-0.0] are falsy, NaN is truthy. *)
Definition truthy_float (x : float) : bool := negb (PrimFloat.eqb x 0%float).

Definition truthy_float_opt (o : option float) : bool :=
  match o with Some x => truthy_float x | None => false end.

End Py.

(** ** The document tree *)

#[warnings="-register-all"]
Inductive Element : Type :=
  mkElement (tag : string) (attrib : gmap string string)
            (text : option string) (children : list Element).

Definition tag (e : Element) : string :=
  match e with mkElement t _ _ _ => t end.
Definition attrib (e : Element) : gmap string string :=
  match e with mkElement _ a _ _ => a end.
Definition text (e : Element) : option string :=
  match e with mkElement _ _ x _ => x end.
Definition children (e : Element) : list Element :=
  match e with mkElement _ _ _ cs => cs end.

(** [elem.get(key)]. *)
Definition get (e : Element) (key : string) : option string := attrib e !! key.

(** [elem.get(key, default)]. *)
Definition get_default (e : Element) (key default : string) : string :=
  match get e key with Some v => v | None => default end.

(** [elem.iter()]: the element itself, then its descendants, in
    document order. *)
Fixpoint iter (e : Element) : list Element :=
  match e with
  | mkElement _ _ _ cs => e :: flat_map iter cs
  end.

(** [elem.find('.//name')]: the first proper descendant, in document
    order, whose tag is exactly [name]. *)
Definition find_descendant (name : string) (e : Element) : option Element :=
  List.find (fun d => String.eqb (tag d) name) (flat_map iter (children e)).

(** [tag.split('}')[-1] if '}' in tag else tag]. *)
Definition local_name (t : string) : string :=
  if Py.contains "}" t then Py.last_piece (Py.split "}" t) else t.

(** ** Per-bucket results of the extractor

    Each record is one of the dicts the analyzer builds; fields carry
    the dict's keys. *)

(** The dict built by [_extract_track_info]. *)
Record track_info := {
  track_type : string;
  track_id : string;
  track_attributes : gmap string string;
  track_name : option string;
  track_devices : list string;
  track_clips : list string;
  track_automation : list string;
  track_device_count : nat
}.

(** The dict built by [_extract_tracks]. *)
Record tracks := {
  audio_tracks : list track_info;
  midi_tracks : list track_info;
  return_tracks : list track_info;
  group_tracks : list track_info;
  master_track : option track_info;
  total_count : nat
}.

(** The dict built by [_extract_devices]. [device_types] is kept as
    the set the loop fills; the final [sorted(list(...))] lists that
    set in a canonical order. [by_category] stays the empty dict. *)
Record devices := {
  device_types : gset string;
  device_names : list string;
  device_count : nat
}.

(** The dict built by [_extract_plugins]. *)
Record plugins := {
  vst_plugins : list string;
  au_plugins : list string;
  plugin_paths : list string;
  plugin_count : nat
}.

(** The dict built by [_extract_samples]. *)
Record samples := {
  sample_paths : list string;
  sample_count : nat;
  relative_paths : list string;
  absolute_paths : list string
}.

(** The dict built by [_extract_clips]. *)
Record clips := {
  audio_clips : nat;
  midi_clips : nat;
  clip_names : list string;
  clip_count : nat
}.

(** ** [_extract_track_info] *)

(** The name loop: the first element of the track whose tag mentions
    [Name] and whose value is non-blank wins. *)
Fixpoint track_name_loop (elems : list Element) : option string :=
  match elems with
  | [] => None
  | name_elem :: rest =>
      if Py.contains "Name" (tag name_elem) || Py.contains "UserName" (tag name_elem)
      then
        match Py.or_ (get name_elem "Value") (text name_elem) with
        | Some name_val =>
            if Py.truthy name_val && Py.truthy (Py.strip name_val)
            then Some (Py.strip name_val)
            else track_name_loop rest
        | None => track_name_loop rest
        end
      else track_name_loop rest
  end.

Definition track_device_step (device_count : nat) (child : Element) : nat :=
  if Py.contains "DeviceChain" (tag child) || Py.contains "Devices" (tag child)
  then device_count + length (children child)
  else device_count.

Definition _extract_track_info (track_elem : Element) (track_type : string)
  : track_info :=
  {| track_type := track_type;
     track_id := get_default track_elem "Id" "";
     track_attributes := attrib track_elem;
     track_name := track_name_loop (iter track_elem);
     track_devices := [];
     track_clips := [];
     track_automation := [];
     track_device_count := fold_left track_device_step (iter track_elem) 0 |}.

(** ** [_extract_tracks] *)

Definition tracks_init : tracks :=
  {| audio_tracks := []; midi_tracks := []; return_tracks := [];
     group_tracks := []; master_track := None; total_count := 0 |}.

(** The body of the loop over [root.iter()]. *)
Definition tracks_step (t : tracks) (elem : Element) : tracks :=
  let tg := local_name (tag elem) in
  if String.eqb tg "AudioTrack" then
    {| audio_tracks := audio_tracks t ++ [_extract_track_info elem "audio"];
       midi_tracks := midi_tracks t; return_tracks := return_tracks t;
       group_tracks := group_tracks t; master_track := master_track t;
       total_count := total_count t + 1 |}
  else if String.eqb tg "MidiTrack" then
    {| audio_tracks := audio_tracks t;
       midi_tracks := midi_tracks t ++ [_extract_track_info elem "midi"];
       return_tracks := return_tracks t;
       group_tracks := group_tracks t; master_track := master_track t;
       total_count := total_count t + 1 |}
  else if String.eqb tg "ReturnTrack" then
    {| audio_tracks := audio_tracks t; midi_tracks := midi_tracks t;
       return_tracks := return_tracks t ++ [_extract_track_info elem "return"];
       group_tracks := group_tracks t; master_track := master_track t;
       total_count := total_count t + 1 |}
  else if String.eqb tg "GroupTrack" then
    {| audio_tracks := audio_tracks t; midi_tracks := midi_tracks t;
       return_tracks := return_tracks t;
       group_tracks := group_tracks t ++ [_extract_track_info elem "group"];
       master_track := master_track t;
       total_count := total_count t + 1 |}
  else if String.eqb tg "MasterTrack" then
    {| audio_tracks := audio_tracks t; midi_tracks := midi_tracks t;
       return_tracks := return_tracks t; group_tracks := group_tracks t;
       master_track := Some (_extract_track_info elem "master");
       total_count := total_count t |}
  else t.

Definition _extract_tracks (root : Element) : tracks :=
  fold_left tracks_step (iter root) tracks_init.

(** ** [_extract_devices] *)

(** The inner loop: the first element under the device whose tag
    mentions [UserName] and whose [Value] is non-empty. *)
Fixpoint device_name_loop (elems : list Element) : option string :=
  match elems with
  | [] => None
  | name_elem :: rest =>
      if Py.contains "UserName" (tag name_elem) then
        match get name_elem "Value" with
        | Some name => if Py.truthy name then Some name else device_name_loop rest
        | None => device_name_loop rest
        end
      else device_name_loop rest
  end.

Definition is_device_tag (tg : string) : bool :=
  Py.contains "Device" tg && negb (String.eqb tg "DeviceChain").

Definition devices_init : devices :=
  {| device_types := ∅; device_names := []; device_count := 0 |}.

Definition devices_step (d : devices) (elem : Element) : devices :=
  let tg := local_name (tag elem) in
  if is_device_tag tg then
    {| device_types := device_types d ∪ {[ tg ]};
       device_names :=
         match device_name_loop (iter elem) with
         | Some name => device_names d ++ [name]
         | None => device_names d
         end;
       device_count := device_count d + 1 |}
  else d.

Definition _extract_devices (root : Element) : devices :=
  fold_left devices_step (iter root) devices_init.

(** ** [_extract_plugins] *)

Definition is_plugin_tag (tg : string) : bool :=
  Py.contains "PluginDevice" tg || Py.contains "VstPlugin" tg
  || Py.contains "AuPlugin" tg.

Definition plugins_init : plugins :=
  {| vst_plugins := []; au_plugins := []; plugin_paths := []; plugin_count := 0 |}.

(** The inner loop over the plugin's subtree; it has no [break]. *)
Definition plugin_path_step (lower : string → string) (p : plugins)
    (path_elem : Element) : plugins :=
  if Py.contains "Path" (tag path_elem) then
    match get path_elem "Value" with
    | Some path_val =>
        if Py.truthy path_val then
          let low := lower path_val in
          {| vst_plugins :=
               if Py.contains ".vst" low || Py.contains ".dll" low
               then vst_plugins p ++ [path_val] else vst_plugins p;
             au_plugins :=
               if Py.contains ".vst" low || Py.contains ".dll" low
               then au_plugins p
               else if Py.contains ".component" low || Py.contains ".au" low
               then au_plugins p ++ [path_val] else au_plugins p;
             plugin_paths := plugin_paths p ++ [path_val];
             plugin_count := plugin_count p |}
        else p
    | None => p
    end
  else p.

Definition plugins_step (lower : string → string) (p : plugins)
    (elem : Element) : plugins :=
  let tg := local_name (tag elem) in
  if is_plugin_tag tg then
    fold_left (plugin_path_step lower) (iter elem)
      {| vst_plugins := vst_plugins p; au_plugins := au_plugins p;
         plugin_paths := plugin_paths p; plugin_count := plugin_count p + 1 |}
  else p.

Definition _extract_plugins (lower : string → string) (root : Element)
  : plugins :=
  fold_left (plugins_step lower) (iter root) plugins_init.

(** ** [_extract_samples] *)

Definition is_sample_ref_tag (tg : string) : bool :=
  Py.contains "FileRef" tg || Py.contains "SampleRef" tg
  || Py.contains "OriginalFileRef" tg.

Definition samples_init : samples :=
  {| sample_paths := []; sample_count := 0;
     relative_paths := []; absolute_paths := [] |}.

(** The inner loop over the direct children of a reference element. *)
Definition sample_child_step (s : samples) (child : Element) : samples :=
  if Py.contains "Path" (tag child) || Py.contains "RelativePath" (tag child) then
    match Py.or_ (get child "Value") (text child) with
    | Some path_val =>
        if Py.truthy path_val then
          let is_abs := Py.startswith "/" path_val || Py.contains ":" path_val in
          {| sample_paths := sample_paths s ++ [path_val];
             sample_count := sample_count s + 1;
             relative_paths :=
               if is_abs then relative_paths s else relative_paths s ++ [path_val];
             absolute_paths :=
               if is_abs then absolute_paths s ++ [path_val] else absolute_paths s |}
        else s
    | None => s
    end
  else s.

Definition samples_step (s : samples) (elem : Element) : samples :=
  if is_sample_ref_tag (local_name (tag elem))
  then fold_left sample_child_step (children elem) s
  else s.

Definition _extract_samples (root : Element) : samples :=
  fold_left samples_step (iter root) samples_init.

(** ** [_extract_clips] *)

(** The name loop of a clip: as for tracks, the first non-blank value
    of an element whose tag mentions [Name]. *)
Fixpoint clip_name_loop (elems : list Element) : option string :=
  match elems with
  | [] => None
  | name_elem :: rest =>
      if Py.contains "Name" (tag name_elem) then
        match Py.or_ (get name_elem "Value") (text name_elem) with
        | Some name =>
            if Py.truthy name && Py.truthy (Py.strip name)
            then Some (Py.strip name)
            else clip_name_loop rest
        | None => clip_name_loop rest
        end
      else clip_name_loop rest
  end.

Definition clips_init : clips :=
  {| audio_clips := 0; midi_clips := 0; clip_names := []; clip_count := 0 |}.

Definition clips_step (c : clips) (elem : Element) : clips :=
  let tg := local_name (tag elem) in
  let is_audio := Py.contains "AudioClip" tg in
  let is_midi := negb is_audio && Py.contains "MidiClip" tg in
  {| audio_clips := if is_audio then audio_clips c + 1 else audio_clips c;
     midi_clips := if is_midi then midi_clips c + 1 else midi_clips c;
     clip_names :=
       if Py.contains "Clip" tg then
         match clip_name_loop (iter elem) with
         | Some name => clip_names c ++ [name]
         | None => clip_names c
         end
       else clip_names c;
     clip_count := if is_audio || is_midi then clip_count c + 1 else clip_count c |}.

Definition _extract_clips (root : Element) : clips :=
  fold_left clips_step (iter root) clips_init.

(** ** [_extract_automation] *)

Record automation := {
  has_automation : bool;
  automation_lanes : nat;
  automation_points : nat
}.

Definition automation_init : automation :=
  {| has_automation := false; automation_lanes := 0; automation_points := 0 |}.

Definition automation_step (a : automation) (elem : Element) : automation :=
  let tg := local_name (tag elem) in
  {| has_automation := Py.contains "Automation" tg || has_automation a;
     automation_lanes :=
       if Py.contains "AutomationLane" tg
       then automation_lanes a + 1 else automation_lanes a;
     automation_points :=
       if Py.contains "AutomationPoint" tg
       then automation_points a + 1 else automation_points a |}.

Definition _extract_automation (root : Element) : automation :=
  fold_left automation_step (iter root) automation_init.

(** ** [_extract_export_info] *)

(** One entry of [export_logs]. *)
Record export_log := {
  log_tag : string;
  log_attributes : gmap string string;
  log_children : gmap string (option string)
}.

Record export_info := {
  export_logs : list export_log;
  render_settings : gmap string string;
  export_directory : option string;
  export_count : nat
}.

Definition export_info_init : export_info :=
  {| export_logs := []; render_settings := ∅;
     export_directory := None; export_count := 0 |}.

(** [{child.tag: (child.get('Value') or child.text) for child in elem}] *)
Definition log_children_of (elem : Element) : gmap string (option string) :=
  fold_left
    (fun m child => <[ tag child := Py.or_ (get child "Value") (text child) ]> m)
    (children elem) ∅.

Definition is_export_log_tag (tag_lower : string) : bool :=
  Py.contains "exportlog" tag_lower || Py.contains "exporthistory" tag_lower.

Definition is_render_settings_tag (tag_lower : string) : bool :=
  Py.contains "audiorendersettings" tag_lower
  || Py.contains "rendersettings" tag_lower.

Definition render_child_step (lower : string → string) (x : export_info)
    (child : Element) : export_info :=
  let key := local_name (tag child) in
  match Py.or_ (get child "Value") (text child) with
  | Some value =>
      if Py.truthy value then
        {| export_logs := export_logs x;
           render_settings := <[ key := value ]> (render_settings x);
           export_directory :=
             if Py.contains "path" (lower key) || Py.contains "dir" (lower key)
                || Py.contains "folder" (lower key)
             then Some value else export_directory x;
           export_count := export_count x |}
      else x
  | None => x
  end.

Definition export_info_step (lower : string → string) (x : export_info)
    (elem : Element) : export_info :=
  let tag_lower := lower (tag elem) in
  let x1 :=
    if is_export_log_tag tag_lower then
      {| export_logs :=
           export_logs x ++
           [ {| log_tag := tag elem; log_attributes := attrib elem;
                log_children := log_children_of elem |} ];
         render_settings := render_settings x;
         export_directory := export_directory x;
         export_count := export_count x + 1 |}
    else x in
  if is_render_settings_tag tag_lower
  then fold_left (render_child_step lower) (children elem) x1
  else x1.

Definition _extract_export_info (lower : string → string) (root : Element)
  : export_info :=
  fold_left (export_info_step lower) (iter root) export_info_init.

(** ** [_extract_backup_info] *)

(** One entry of [backup_references]. *)
Record backup_reference := {
  ref_tag : string;
  ref_attributes : gmap string string;
  ref_text : option string
}.

Record backup_info := {
  backup_references : list backup_reference;
  backup_count : nat
}.

Definition backup_info_init : backup_info :=
  {| backup_references := []; backup_count := 0 |}.

Definition backup_info_step (lower : string → string) (b : backup_info)
    (elem : Element) : backup_info :=
  if Py.contains "backup" (lower (tag elem)) then
    {| backup_references :=
         backup_references b ++
         [ {| ref_tag := tag elem; ref_attributes := attrib elem;
              ref_text := text elem |} ];
       backup_count := backup_count b + 1 |}
  else b.

Definition _extract_backup_info (lower : string → string) (root : Element)
  : backup_info :=
  fold_left (backup_info_step lower) (iter root) backup_info_init.

(** ** [_extract_preferences] *)

(** [elem.get('Value') or elem.text or elem.attrib]: a string when one
    of the first two is non-empty, the attribute dict otherwise. *)
Definition preference_value (elem : Element) : string + gmap string string :=
  match Py.or_ (get elem "Value") (text elem) with
  | Some v => if Py.truthy v then inl v else inr (attrib elem)
  | None => inr (attrib elem)
  end.

Record preferences := {
  settings : gmap string (string + gmap string string);
  preferences_ : gmap string (string + gmap string string)
}.

Definition preferences_init : preferences :=
  {| settings := ∅; preferences_ := ∅ |}.

Definition preferences_step (p : preferences) (elem : Element) : preferences :=
  let tg := local_name (tag elem) in
  if Py.contains "Settings" tg then
    {| settings := <[ tg := preference_value elem ]> (settings p);
       preferences_ := preferences_ p |}
  else if Py.contains "Preference" tg then
    {| settings := settings p;
       preferences_ := <[ tg := preference_value elem ]> (preferences_ p) |}
  else p.

Definition _extract_preferences (root : Element) : preferences :=
  fold_left preferences_step (iter root) preferences_init.

(** ** [_extract_metadata] *)

Record metadata := {
  root_tag : string;
  root_attributes : gmap string string;
  ableton_version : string;
  major_version : string;
  minor_version : string;
  liveset_attributes : option (gmap string string)
}.

Definition _extract_metadata (root : Element) : metadata :=
  {| root_tag := tag root;
     root_attributes := attrib root;
     ableton_version := get_default root "Creator" "Unknown";
     major_version := get_default root "MajorVersion" "Unknown";
     minor_version := get_default root "MinorVersion" "Unknown";
     liveset_attributes :=
       attrib <$> List.find (fun elem => Py.contains "LiveSet" (tag elem))
                            (children root) |}.

(** ** Exceptions

    Only subclasses of [Exception] are represented: they are what the
    library calls of the analyzer raise, and what [except Exception]
    catches. [str(e)] is [exn_message]. *)

Record exn := { exn_class : string; exn_message : string }.

Inductive result (A : Type) : Type :=
| Ok (a : A)
| Raise (e : exn).
Arguments Ok {A} a.
Arguments Raise {A} e.

(** Sequencing: the first exception raised ends the computation. *)
#[global] Instance result_bind : MBind result :=
  fun A B k r =>
    match r with
    | Ok a => k a
    | Raise e => Raise e
    end.

(** A loop whose body may raise. *)
Fixpoint foldM {A B} (body : A → B → result A) (xs : list B) (a : A) : result A :=
  match xs with
  | [] => Ok a
  | x :: rest => a' ← body a x; foldM body rest a'
  end.

(** What the interpreter raises when the call stack is exhausted. The
    class is fixed; the text depends on where the interpreter notices
    ("maximum recursion depth exceeded", with or without a suffix such
    as " in comparison") and is left to the runtime. *)
Definition RecursionError (message : string) : exn :=
  {| exn_class := "RecursionError"; exn_message := message |}.

(** ** [_analyze_structure] *)

Record structure := {
  top_level_elements : list string;
  element_counts : gmap string nat;
  max_depth : nat;
  total_elements : nat
}.

Definition structure_init : structure :=
  {| top_level_elements := []; element_counts := ∅;
     max_depth := 0; total_elements := 0 |}.

(** What one activation of [count_elements] does before it visits the
    children. *)
Definition count_visit (st : structure) (elem : Element) (depth : nat) : structure :=
  let tg := local_name (tag elem) in
  {| top_level_elements := top_level_elements st;
     element_counts :=
       <[ tg := default 0 (element_counts st !! tg) + 1 ]> (element_counts st);
     max_depth := max (max_depth st) depth;
     total_elements := total_elements st + 1 |}.

(** The nested recursive function [count_elements]. Each activation
    takes one frame of the call stack; [frames] is the number of
    frames still available, and a call with none left raises
    [RecursionError]. *)
Fixpoint count_elements (message : string) (frames : nat) (elem : Element)
    (depth : nat) (st : structure) : result structure :=
  match frames with
  | 0 => Raise (RecursionError message)
  | S frames' =>
      foldM (fun st' child =>
               count_elements message frames' child (depth + 1) st')
            (children elem) (count_visit st elem depth)
  end.

Definition top_level_step (message : string) (frames : nat) (st : structure)
    (child : Element) : result structure :=
  count_elements message frames child 1
    {| top_level_elements := top_level_elements st ++ [local_name (tag child)];
       element_counts := element_counts st;
       max_depth := max_depth st;
       total_elements := total_elements st |}.

Definition _analyze_structure (message : string) (frames : nat)
    (root : Element) : result structure :=
  foldM (top_level_step message frames) (children root) structure_init.

(** ** Buckets that parse numbers or paths *)

Record project_info := {
  project_name : option string;
  annotation : option string;
  tempo : option float;
  time_signature : option string;
  arrangement_length : option float;
  scenes : list string;
  scene_count : nat
}.

Record timing_info := {
  timing_arrangement_length : option float;
  loop_start : option string;
  loop_end : option string;
  start_marker : option string;
  end_marker : option string
}.

Record file_references := {
  all_paths : list string;
  file_absolute_paths : list string;
  file_relative_paths : list string;
  file_types : gmap string nat
}.

(** The value of [result['extractable_data']]. *)
Record extractable_data := {
  data_tracks : tracks;
  data_devices : devices;
  data_plugins : plugins;
  data_samples : samples;
  data_clips : clips;
  data_automation : automation;
  data_export_info : export_info;
  data_backup_info : backup_info;
  data_project_info : project_info;
  data_timing_info : timing_info;
  data_file_references : file_references;
  data_preferences : preferences
}.

(** The dict returned by [analyze_file]. A key that still holds the
    empty dict it was created with, or is missing, is [None]. The
    key [elements] is never filled and is left out. *)
Record analysis := {
  file_path : string;
  file_size : nat;
  modified_date : option string;
  analysis_metadata : option metadata;
  analysis_structure : option structure;
  analysis_data : option extractable_data;
  error : option string;
  traceback : option string
}.

(** The entries of the dict built by [_compare_files]. *)
Record track_change := {
  track_change_backup : string; change_tracks : nat; change_main_tracks : nat
}.
Record device_change := {
  device_change_backup : string; change_devices : nat; change_main_devices : nat
}.
Record plugin_change := {
  plugin_change_backup : string; change_plugins : nat; change_main_plugins : nat
}.
Record timing_change := {
  timing_change_backup : string; change_tempo : float; change_main_tempo : float
}.

Record comparison := {
  version_changes : list string;
  track_changes : list track_change;
  device_changes : list device_change;
  plugin_changes : list plugin_change;
  timing_changes : list timing_change
}.

(** What [os.stat] reports and the analyzer reads. Timestamps are the
    rational values of the floats the interpreter returns. *)
Record stat_result := { st_size : nat; st_mtime : Qc }.

(** ** The analyzer over its runtime

    The interpreter, the libraries and the filesystem are parameters:
    the analyzer is embedded once, for every behaviour they can have. *)

Section Analyzer.

(** [s.lower()]. *)
Variable lower : string → string.
(** [float(s)]; [None] stands for [ValueError]. *)
Variable float_of_string : string → option float.
(** [Path(s).suffix]. *)
Variable path_suffix : string → string.
(** [gzip.open(path, 'rb').read()]. *)
Variable gzip_read : string → result string.
(** [ET.fromstring(data)]. *)
Variable fromstring : string → result Element.
(** [traceback.format_exc()] for the exception being handled. *)
Variable format_exc : exn → string.
(** [datetime.fromtimestamp(t).isoformat()]; [fromtimestamp] raises
    [ValueError], [OverflowError] or [OSError] for a time it cannot
    represent. *)
Variable isoformat : Qc → result string.
(** The text of the interpreter's [RecursionError], and the call-stack
    frames left when [_analyze_structure] starts recursing. *)
Variable recursion_message : string.
Variable recursion_budget : nat.

(** [path.stat()]; it raises [OSError] for a path that is not there. *)
Variable stat : string → result stat_result.
(** [path.exists()] and [path.is_file()]: they answer [False] for a
    path that is not there and re-raise any other [OSError] (a name
    that is too long, for one). *)
Variable path_exists : string → result bool.
Variable is_file : string → result bool.
(** [path.parent], [path.name], [dir / name]. *)
Variable parent : string → string.
Variable name_of : string → string.
Variable joinpath : string → string → string.
(** [dir.glob('*.als')] and [dir.rglob('*.als')], run to the end; they
    raise what listing a directory raises. *)
Variable glob_als : string → result (list string).
Variable rglob_als : string → result (list string).

(** *** [_extract_project_info] *)

Definition tempo_step (tempo : option float) (elem : Element) : option float :=
  if Py.contains "Tempo" (tag elem) then
    match find_descendant "Manual" elem with
    | Some manual =>
        match get manual "Value" with
        | Some tempo_val =>
            if Py.truthy tempo_val then
              match float_of_string tempo_val with
              | Some x => Some x
              | None => tempo
              end
            else tempo
        | None => tempo
        end
    | None => tempo
    end
  else tempo.

Definition time_signature_step (ts : option string) (elem : Element)
  : option string :=
  if Py.contains "TimeSignature" (tag elem) then
    match find_descendant "Numerator" elem, find_descendant "Denominator" elem with
    | Some numerator, Some denominator =>
        Some (get_default numerator "Value" "4" +:+ "/"
              +:+ get_default denominator "Value" "4")
    | _, _ => ts
    end
  else ts.

Definition annotation_step (ann : option string) (elem : Element)
  : option string :=
  if Py.contains "Annotation" (tag elem) then
    let annotation := Py.or_ (get elem "Value") (text elem) in
    if Py.truthy_opt annotation then annotation else ann
  else ann.

(** The name loop of a scene: the first element whose tag mentions
    [Name] decides, whatever its value. *)
Fixpoint scene_name_loop (elems : list Element) : option string :=
  match elems with
  | [] => None
  | name_elem :: rest =>
      if Py.contains "Name" (tag name_elem)
      then Py.or_ (get name_elem "Value") (text name_elem)
      else scene_name_loop rest
  end.

Definition scenes_step (acc : list string * nat) (elem : Element)
  : list string * nat :=
  if Py.contains "Scene" (tag elem) then
    match scene_name_loop (iter elem) with
    | Some scene_name =>
        if Py.truthy scene_name
        then (acc.1 ++ [scene_name], acc.2 + 1)
        else (acc.1, acc.2 + 1)
    | None => (acc.1, acc.2 + 1)
    end
  else acc.

Definition _extract_project_info (root : Element) : project_info :=
  let sc := fold_left scenes_step (iter root) ([], 0) in
  {| project_name := None;
     annotation := fold_left annotation_step (iter root) None;
     tempo := fold_left tempo_step (iter root) None;
     time_signature := fold_left time_signature_step (iter root) None;
     arrangement_length := None;
     scenes := sc.1;
     scene_count := sc.2 |}.

(** *** [_extract_timing_info] *)

Definition timing_info_init : timing_info :=
  {| timing_arrangement_length := None; loop_start := None; loop_end := None;
     start_marker := None; end_marker := None |}.

Definition timing_info_step (t : timing_info) (elem : Element) : timing_info :=
  let tg := local_name (tag elem) in
  {| timing_arrangement_length :=
       if Py.contains "ArrangementLength" tg then
         match get elem "Value" with
         | Some length =>
             if Py.truthy length then
               match float_of_string length with
               | Some x => Some x
               | None => timing_arrangement_length t
               end
             else timing_arrangement_length t
         | None => timing_arrangement_length t
         end
       else timing_arrangement_length t;
     loop_start :=
       if Py.contains "LoopStart" tg then get elem "Value" else loop_start t;
     loop_end :=
       if Py.contains "LoopEnd" tg then get elem "Value" else loop_end t;
     start_marker :=
       if Py.contains "StartMarker" tg then get elem "Value" else start_marker t;
     end_marker :=
       if Py.contains "EndMarker" tg then get elem "Value" else end_marker t |}.

Definition _extract_timing_info (root : Element) : timing_info :=
  fold_left timing_info_step (iter root) timing_info_init.

(** *** [_extract_file_references] *)

Definition file_references_init : file_references :=
  {| all_paths := []; file_absolute_paths := []; file_relative_paths := [];
     file_types := ∅ |}.

Definition file_ref_child_step (f : file_references) (child : Element)
  : file_references :=
  if Py.contains "Path" (tag child) || Py.contains "FileRef" (tag child)
     || Py.contains "RelativePath" (tag child) then
    match Py.or_ (get child "Value") (text child) with
    | Some path_val =>
        if Py.truthy path_val && Py.truthy (Py.strip path_val) then
          let is_abs :=
            Py.startswith "/" path_val || Py.char_at_1_is ":" path_val in
          let ext := lower (path_suffix path_val) in
          {| all_paths := all_paths f ++ [path_val];
             file_absolute_paths :=
               if is_abs then file_absolute_paths f ++ [path_val]
               else file_absolute_paths f;
             file_relative_paths :=
               if is_abs then file_relative_paths f
               else file_relative_paths f ++ [path_val];
             file_types :=
               if Py.truthy ext
               then <[ ext := default 0 (file_types f !! ext) + 1 ]> (file_types f)
               else file_types f |}
        else f
    | None => f
    end
  else f.

Definition file_references_step (f : file_references) (elem : Element)
  : file_references :=
  fold_left file_ref_child_step (children elem) f.

Definition _extract_file_references (root : Element) : file_references :=
  fold_left file_references_step (iter root) file_references_init.

(** *** [analyze_file] *)

Definition extract_all (root : Element) : extractable_data :=
  {| data_tracks := _extract_tracks root;
     data_devices := _extract_devices root;
     data_plugins := _extract_plugins lower root;
     data_samples := _extract_samples root;
     data_clips := _extract_clips root;
     data_automation := _extract_automation root;
     data_export_info := _extract_export_info lower root;
     data_backup_info := _extract_backup_info lower root;
     data_project_info := _extract_project_info root;
     data_timing_info := _extract_timing_info root;
     data_file_references := _extract_file_references root;
     data_preferences := _extract_preferences root |}.

Definition set_metadata (r : analysis) (m : metadata) : analysis :=
  {| file_path := file_path r; file_size := file_size r;
     modified_date := modified_date r; analysis_metadata := Some m;
     analysis_structure := analysis_structure r;
     analysis_data := analysis_data r;
     error := error r; traceback := traceback r |}.

Definition set_structure (r : analysis) (s : structure) : analysis :=
  {| file_path := file_path r; file_size := file_size r;
     modified_date := modified_date r; analysis_metadata := analysis_metadata r;
     analysis_structure := Some s;
     analysis_data := analysis_data r;
     error := error r; traceback := traceback r |}.

Definition set_data (r : analysis) (d : extractable_data) : analysis :=
  {| file_path := file_path r; file_size := file_size r;
     modified_date := modified_date r; analysis_metadata := analysis_metadata r;
     analysis_structure := analysis_structure r;
     analysis_data := Some d;
     error := error r; traceback := traceback r |}.

Definition set_error (r : analysis) (e : exn) : analysis :=
  {| file_path := file_path r; file_size := file_size r;
     modified_date := modified_date r; analysis_metadata := analysis_metadata r;
     analysis_structure := analysis_structure r;
     analysis_data := analysis_data r;
     error := Some (exn_message e); traceback := Some (format_exc e) |}.

(** The body of the [try] block: the dict as it stands when the block
    is left, and the exception that left it, if any. The update of
    [self.unique_tags] touches no key of the dict and is left out. *)
Definition analyze_file_try (als_path : string) (result : analysis)
  : analysis * option exn :=
  match gzip_read als_path with
  | Raise e => (result, Some e)
  | Ok xml_data =>
      match fromstring xml_data with
      | Raise e => (result, Some e)
      | Ok root =>
          let result := set_metadata result (_extract_metadata root) in
          match _analyze_structure recursion_message recursion_budget root with
          | Raise e => (result, Some e)
          | Ok s =>
              (set_data (set_structure result s) (extract_all root), None)
          end
      end
  end.

(** The dict literal is evaluated before the [try] statement is
    entered: what [exists], [stat] or [fromtimestamp] raise there
    leaves [analyze_file]. *)
Definition analyze_file (als_path : string) : result analysis :=
  size ← (path_exists als_path ≫= λ found : bool,
          if found then st ← stat als_path; Ok (st_size st) else Ok 0);
  mdate ← (path_exists als_path ≫= λ found : bool,
           if found
           then st ← stat als_path; date ← isoformat (st_mtime st);
                Ok (Some date)
           else Ok None);
  let result :=
    {| file_path := als_path; file_size := size; modified_date := mdate;
       analysis_metadata := None; analysis_structure := None;
       analysis_data := None; error := None; traceback := None |} in
  match analyze_file_try als_path result with
  | (result, None) => Ok result
  | (result, Some e) => Ok (set_error result e)
  end.

(** *** [_compare_files] *)

(** [r.get('extractable_data', {}).get('tracks', {}).get('total_count', 0)]
    and its three siblings. *)
Definition tracks_of (r : analysis) : nat :=
  match analysis_data r with Some d => total_count (data_tracks d) | None => 0 end.
Definition devices_of (r : analysis) : nat :=
  match analysis_data r with Some d => device_count (data_devices d) | None => 0 end.
Definition plugins_of (r : analysis) : nat :=
  match analysis_data r with Some d => plugin_count (data_plugins d) | None => 0 end.
Definition tempo_of (r : analysis) : option float :=
  match analysis_data r with Some d => tempo (data_project_info d) | None => None end.

(** [backup_tempo and main_tempo and abs(backup_tempo - main_tempo) > 0.1] *)
#[warnings="-inexact-float"]
Definition tempo_changed (backup_tempo main_tempo : option float) : bool :=
  match backup_tempo, main_tempo with
  | Some b, Some m =>
      Py.truthy_float b && Py.truthy_float m
      && PrimFloat.ltb 0.1%float (PrimFloat.abs (PrimFloat.sub b m))
  | _, _ => false
  end.

Definition comparison_init : comparison :=
  {| version_changes := []; track_changes := []; device_changes := [];
     plugin_changes := []; timing_changes := [] |}.

(** The body of the loop over the backups. *)
Definition compare_step (main : analysis) (c : comparison) (backup : analysis)
  : comparison :=
  {| version_changes := version_changes c;
     track_changes :=
       if bool_decide (tracks_of backup ≠ tracks_of main) then
         track_changes c ++
         [ {| track_change_backup := file_path backup;
              change_tracks := tracks_of backup;
              change_main_tracks := tracks_of main |} ]
       else track_changes c;
     device_changes :=
       if bool_decide (devices_of backup ≠ devices_of main) then
         device_changes c ++
         [ {| device_change_backup := file_path backup;
              change_devices := devices_of backup;
              change_main_devices := devices_of main |} ]
       else device_changes c;
     plugin_changes :=
       if bool_decide (plugins_of backup ≠ plugins_of main) then
         plugin_changes c ++
         [ {| plugin_change_backup := file_path backup;
              change_plugins := plugins_of backup;
              change_main_plugins := plugins_of main |} ]
       else plugin_changes c;
     timing_changes :=
       match tempo_of backup, tempo_of main with
       | Some b, Some m =>
           if tempo_changed (Some b) (Some m) then
             timing_changes c ++
             [ {| timing_change_backup := file_path backup;
                  change_tempo := b; change_main_tempo := m |} ]
           else timing_changes c
       | _, _ => timing_changes c
       end |}.

Definition _compare_files (main : analysis) (backups : list analysis)
  : comparison :=
  fold_left (compare_step main) backups comparison_init.

(** *** [find_backup_files] *)

(** [sorted(xs, key=..., reverse=True)] on a list already paired with
    its keys: a stable sort, larger keys first. *)
Fixpoint insert_newest_first (x : Qc * string) (sorted : list (Qc * string))
  : list (Qc * string) :=
  match sorted with
  | [] => [x]
  | y :: rest =>
      if decide (x.1 < y.1)%Qc then y :: insert_newest_first x rest
      else x :: y :: rest
  end.

Fixpoint sort_newest_first (xs : list (Qc * string)) : list (Qc * string) :=
  match xs with
  | [] => []
  | x :: rest => insert_newest_first x (sort_newest_first rest)
  end.

(** The sort key [p.stat().st_mtime]. *)
Definition mtime_key (p : string) : result Qc :=
  st ← stat p; Ok (st_mtime st).

(** The keys are computed for every path before any comparison. *)
Definition with_keys (paths : list string) : result (list (Qc * string)) :=
  foldM (fun keyed p => k ← mtime_key p; Ok (keyed ++ [(k, p)])) paths [].

(** The second loop: files found recursively whose name marks them as
    a backup, unless already listed. *)
Definition rglob_step (backups : list string) (als_file : string) : list string :=
  if Py.contains "backup" (lower (name_of als_file))
     || Py.contains "[" (name_of als_file) then
    if bool_decide (als_file ∈ backups) then backups
    else backups ++ [als_file]
  else backups.

(** The candidates, in discovery order, before sorting. *)
Definition backup_candidates (project_path : string) : result (list string) :=
  is_file project_path ≫= λ single : bool,
  let project_dir := if single then parent project_path else project_path in
  let backup_dir := joinpath project_dir "Backup" in
  path_exists backup_dir ≫= λ found : bool,
  backups ← (if found then glob_als backup_dir else Ok []);
  als_files ← rglob_als project_dir;
  Ok (fold_left rglob_step als_files backups).

Definition find_backup_files (project_path : string) : result (list string) :=
  backups ← backup_candidates project_path;
  keyed ← with_keys backups;
  Ok (map snd (sort_newest_first keyed)).

(** *** [analyze_project]

    The analyzer object keeps [self.main_file] from one call to the
    next, and [analyze_project] assigns it only when it finds a main
    file: [self_main_file] is its value when the call starts ([None]
    for an analyzer that was just constructed). When the call returns,
    [self.main_file] is the [main_file] of the result. *)

Record project_results := {
  project_folder : string;
  main_file : option string;
  backup_files : list string;
  main_analysis : option analysis;
  backup_analyses : list analysis;
  comparison_result : option comparison
}.

Definition choose_main_file (self_main_file : option string)
    (project_path : string) : result (string * option string) :=
  is_file project_path ≫= λ single : bool,
  if single && String.eqb (lower (path_suffix project_path)) ".als"
  then Ok (parent project_path, Some project_path)
  else
    let project_dir := project_path in
    let main_als := joinpath project_dir (name_of project_dir +:+ ".als") in
    path_exists main_als ≫= λ found : bool,
    if found then Ok (project_dir, Some main_als)
    else
      als_files ← glob_als project_dir;
      Ok (project_dir,
          match als_files with
          | first :: _ => Some first
          | [] => self_main_file
          end).

Definition analyze_project (self_main_file : option string)
    (project_path : string) : result project_results :=
  choose_main_file self_main_file project_path
    ≫= λ '((project_dir, main) : string * option string),
  main_an ← match main with
            | Some f =>
                path_exists f ≫= λ found : bool,
                if found then a ← analyze_file f; Ok (Some a) else Ok None
            | None => Ok None
            end;
  backups ← find_backup_files project_path;
  analyses ← foldM (fun done backup =>
                      a ← analyze_file backup; Ok (done ++ [a])) backups [];
  Ok {| project_folder := project_dir;
        main_file := main;
        backup_files := backups;
        main_analysis := main_an;
        backup_analyses := analyses;
        comparison_result :=
          match main_an, analyses with
          | Some m, _ :: _ => Some (_compare_files m analyses)
          | _, _ => None
          end |}.

End Analyzer.

(** ** The similarity score

    [services/similarity_analyzer.py], which the recommendations panel
    calls, is not part of the sources at hand; the score is modelled
    from section 4.4 of the design document. Scores are rationals. *)

Module Similarity.

(** Modelled from the spec: the part of a project feature record that
    [SimilarityAnalyzer] (missing) reads: the set of plugin paths, the
    set of device types, the tempo (or absent), the track counts by
    kind, and the arrangement length (or absent). *)
Record features := {
  plugins : gset string;
  device_types : gset string;
  tempo : option Qc;
  audio_tracks : nat;
  midi_tracks : nat;
  return_tracks : nat;
  group_tracks : nat;
  arrangement_length : option Qc
}.

(** Modelled from the spec: the optional [weights] argument of the
    missing [similarity], one weight per dimension. *)
Record weights := {
  w_plugins : Qc;
  w_devices : Qc;
  w_tempo : Qc;
  w_structure : Qc;
  w_length : Qc
}.

Section Score.

(** Modelled from the spec: the two "decaying functions of the
    absolute difference" of the missing analyzer, for tempo and for
    arrangement length. The document fixes neither, so they are
    parameters. *)
Variable tempo_decay : Qc → Qc.
Variable length_decay : Qc → Qc.

(** Modelled from the spec: the overlap dimension of the missing
    analyzer, [|A∩B| / |A∪B|], defined as 0 when both sets are empty. *)
Definition jaccard (A B : gset string) : Qc :=
  if decide (A ∪ B = ∅) then 0%Qc
  else (Qc_of_Z (Z.of_nat (size (A ∩ B))) / Qc_of_Z (Z.of_nat (size (A ∪ B))))%Qc.

(** Modelled from the spec: a decaying function applied to the absolute
    difference of two optional quantities, as the missing analyzer
    does for tempo and arrangement length; a dimension with an absent
    side contributes 0. *)
Definition proximity (decay : Qc → Qc) (x y : option Qc) : Qc :=
  match x, y with
  | Some a, Some b => decay (Qcabs (a - b))
  | _, _ => 0%Qc
  end.

Definition track_total (f : features) : nat :=
  audio_tracks f + midi_tracks f + return_tracks f + group_tracks f.

(** Modelled from the spec: the share of one track kind in a record's
    track-type mix, for the missing analyzer's structural dimension. *)
Definition ratio (count : nat) (f : features) : Qc :=
  if decide (track_total f = 0) then 0%Qc
  else (Qc_of_Z (Z.of_nat count) / Qc_of_Z (Z.of_nat (track_total f)))%Qc.

(** Modelled from the spec: the structural dimension of the missing
    analyzer, the normalized difference of the audio/midi/return/group
    ratios. *)
Definition structural_proximity (a b : features) : Qc :=
  (1 - (Qcabs (ratio (audio_tracks a) a - ratio (audio_tracks b) b)
        + Qcabs (ratio (midi_tracks a) a - ratio (midi_tracks b) b)
        + Qcabs (ratio (return_tracks a) a - ratio (return_tracks b) b)
        + Qcabs (ratio (group_tracks a) a - ratio (group_tracks b) b))
       / Qc_of_Z 2)%Qc.

(** Modelled from the spec: the score of the missing
    [SimilarityAnalyzer.similarity], a weighted combination of the
    per-dimension similarities. *)
Definition similarity (w : weights) (reference candidate : features) : Qc :=
  (w_plugins w * jaccard (plugins reference) (plugins candidate)
   + w_devices w * jaccard (device_types reference) (device_types candidate)
   + w_tempo w * proximity tempo_decay (tempo reference) (tempo candidate)
   + w_structure w * structural_proximity reference candidate
   + w_length w * proximity length_decay (arrangement_length reference)
                            (arrangement_length candidate))%Qc.

End Score.

End Similarity.

(** * Notions used in the statements *)

(** Replacing every tag of a document. *)
Fixpoint map_tags (f : string → string) (e : Element) : Element :=
  match e with
  | mkElement t a x cs => mkElement (f t) a x (map (map_tags f) cs)
  end.

(** The namespace-qualified form of a tag, as [ElementTree] writes it. *)
Definition qualify (uri t : string) : string := "{" +:+ uri +:+ "}" +:+ t.

(** Qualifying the tags that [choose] gives a namespace for. *)
Definition requalify (choose : string → option string) (t : string) : string :=
  match choose t with
  | Some uri => qualify uri t
  | None => t
  end.

(** The counts a tracks bucket reports. *)
Definition track_counts (t : tracks) : nat * nat * nat * nat * bool * nat :=
  (length (audio_tracks t), length (midi_tracks t), length (return_tracks t),
   length (group_tracks t), bool_decide (is_Some (master_track t)), total_count t).

Definition has_local_name (k : string) (e : Element) : bool :=
  String.eqb (local_name (tag e)) k.

(** The four kinds of track that [total_count] counts. *)
Definition is_counted_track (e : Element) : bool :=
  has_local_name "AudioTrack" e || has_local_name "MidiTrack" e
  || has_local_name "ReturnTrack" e || has_local_name "GroupTrack" e.

(** ** Buckets *)

Definition is_device_element (e : Element) : bool :=
  is_device_tag (local_name (tag e)).

Definition is_plugin_element (e : Element) : bool :=
  is_plugin_tag (local_name (tag e)).

(** ** Loading a file *)

Section Loading.

Variable gzip_read : string → result string.
Variable fromstring : string → result Element.
Variable recursion_message : string.
Variable recursion_budget : nat.

(** The three places where the [try] block can be left early, and the
    exception each one raises. *)
Definition load_failure (als_path : string) : option exn :=
  match gzip_read als_path with
  | Raise e => Some e
  | Ok xml_data =>
      match fromstring xml_data with
      | Raise e => Some e
      | Ok root =>
          match _analyze_structure recursion_message recursion_budget root with
          | Raise e => Some e
          | Ok _ => None
          end
      end
  end.

(** The document, once decompressed and parsed. *)
Definition loaded_document (als_path : string) : option Element :=
  match gzip_read als_path with
  | Raise _ => None
  | Ok xml_data =>
      match fromstring xml_data with
      | Raise _ => None
      | Ok root => Some root
      end
  end.

End Loading.

(** What the dict literal at the head of [analyze_file] reads from the
    filesystem: the size and the formatted modification time of a
    path that exists, [0] and no date for one that does not. *)
Section Facts.

Variable isoformat : Qc → result string.
Variable stat : string → result stat_result.
Variable path_exists : string → result bool.

Definition file_facts (als_path : string) : result (nat * option string) :=
  match path_exists als_path with
  | Raise e => Raise e
  | Ok false => Ok (0, None)
  | Ok true =>
      match stat als_path with
      | Raise e => Raise e
      | Ok st =>
          match isoformat (st_mtime st) with
          | Raise e => Raise e
          | Ok date => Ok (st_size st, Some date)
          end
      end
  end.

End Facts.

(** ** Tempo changes *)

(** Both tempos are present and non-zero, and they differ by more than
    the tolerance. *)
#[warnings="-inexact-float"]
Definition tempo_differs (main backup : analysis) : Prop :=
  ∃ m b, tempo_of main = Some m ∧ tempo_of backup = Some b
         ∧ PrimFloat.eqb m 0%float = false ∧ PrimFloat.eqb b 0%float = false
         ∧ PrimFloat.ltb 0.1%float (PrimFloat.abs (PrimFloat.sub b m)) = true.

(** The tempo entries that one backup gives rise to. *)
Definition tempo_entries (main backup : analysis) : list timing_change :=
  timing_changes (_compare_files main [backup]).

(** ** Shape of a document *)

(** Number of elements on the longest path from [e] down to a leaf. *)
Fixpoint height (e : Element) : nat :=
  match e with
  | mkElement _ _ _ cs => S (list_max (map height cs))
  end.

(** Nesting depth of a document below its root: the root's children
    are at depth 1. *)
Definition nesting_depth (root : Element) : nat :=
  list_max (map height (children root)).

(** The elements below the root, in document order. *)
Definition descendants (root : Element) : list Element :=
  flat_map iter (children root).

(** Counting one more element under its local name. *)
Definition tally (m : gmap string nat) (e : Element) : gmap string nat :=
  <[ local_name (tag e) := default 0 (m !! local_name (tag e)) + 1 ]> m.

(** Per-tag counts of a sequence of elements, taken one after the
    other. *)
Definition tag_counts (elems : list Element) : gmap string nat :=
  fold_left tally elems ∅.

(** The state after a whole forest at depth [d] has been counted. *)
Definition after_forest (cs : list Element) (d : nat) (st : structure)
  : structure :=
  {| top_level_elements := top_level_elements st;
     element_counts := fold_left tally (flat_map iter cs) (element_counts st);
     max_depth :=
       max (max_depth st) (list_max (map (λ c, d + (height c - 1)) cs));
     total_elements := total_elements st + length (flat_map iter cs) |}.

(** A document that is one path of [n] nested groups above a leaf. *)
Fixpoint chain (n : nat) : Element :=
  match n with
  | 0 => mkElement "Leaf" ∅ None []
  | S k => mkElement "Group" ∅ None [chain k]
  end.

(** ** Recency *)

(** Order of two keyed paths in a list sorted newest first. *)
Definition by_key_descending (a b : Qc * string) : Prop := (b.1 ≤ a.1)%Qc.

Section Recency.

Variable stat : string → result stat_result.

(** [a] may be listed before [b]: the filesystem reports a
    modification time for both, and that of [a] is not the earlier
    one. *)
Definition newest_first (a b : string) : Prop :=
  ∃ sa sb, stat a = Ok sa ∧ stat b = Ok sb ∧ (st_mtime sb ≤ st_mtime sa)%Qc.

(** A time paired with a path whose modification time it is. *)
Definition keyed_by_mtime (kp : Qc * string) : Prop :=
  ∃ st, stat kp.2 = Ok st ∧ st_mtime st = kp.1.

End Recency.

(** ** Textual values *)

(** The rule as the design document words it: the [Value] attribute
    if present, else the text content, else absent. *)
Definition spec_text_value (e : Element) : option string :=
  match get e "Value" with
  | Some v => Some v
  | None => text e
  end.

(** The rule the code applies with [elem.get('Value') or elem.text]:
    the [Value] attribute if present and non-empty, else the text
    content, else absent. *)
Definition resolved_value (e : Element) : option string :=
  match get e "Value" with
  | Some v => if Py.truthy v then Some v else text e
  | None => text e
  end.

(** A value that is kept only if it is a non-empty string. *)
Definition nonempty (o : option string) : option string :=
  match o with
  | Some v => if Py.truthy v then Some v else None
  | None => None
  end.

(** A value that is kept, stripped, only if it is not blank. *)
Definition nonblank (o : option string) : option string :=
  match o with
  | Some v => if Py.truthy (Py.strip v) then Some (Py.strip v) else None
  | None => None
  end.

Definition annotation_candidate (e : Element) : option string :=
  if Py.contains "Annotation" (tag e) then nonempty (resolved_value e) else None.

Definition track_name_candidate (e : Element) : option string :=
  if Py.contains "Name" (tag e) || Py.contains "UserName" (tag e)
  then nonblank (resolved_value e) else None.

Definition clip_name_candidate (e : Element) : option string :=
  if Py.contains "Name" (tag e) then nonblank (resolved_value e) else None.

(** The name a clip-like element contributes to [clip_names]. *)
Definition clip_name_of (e : Element) : option string :=
  if Py.contains "Clip" (local_name (tag e))
  then head (omap clip_name_candidate (iter e)) else None.

(** The name a scene-like element contributes to [scenes]: the value
    of the first element under it whose tag mentions [Name]. *)
Definition scene_name_of (e : Element) : option string :=
  if Py.contains "Scene" (tag e) then
    nonempty (head (List.filter (λ n, Py.contains "Name" (tag n)) (iter e))
              ≫= resolved_value)
  else None.

(** The tempo a tempo-like element contributes: the [Value] attribute
    of its first [Manual] descendant, parsed; the text of [Manual] is
    not looked at. *)
Definition tempo_candidate (float_of_string : string → option float)
    (e : Element) : option float :=
  if Py.contains "Tempo" (tag e) then
    manual ← find_descendant "Manual" e;
    tempo_val ← get manual "Value";
    if Py.truthy tempo_val then float_of_string tempo_val else None
  else None.

(** ** Notions for the remaining buckets *)

(** The whitespace characters of Unicode as Python has them, each as
    the bytes of its UTF-8 form. *)
Definition whitespace : list (list ascii) :=
  map (map Ascii.ascii_of_nat)
    [ [9]; [10]; [11]; [12]; [13]; [28]; [29]; [30]; [31]; [32];
      [194; 133]; [194; 160]; [225; 154; 128];
      [226; 128; 128]; [226; 128; 129]; [226; 128; 130]; [226; 128; 131];
      [226; 128; 132]; [226; 128; 133]; [226; 128; 134]; [226; 128; 135];
      [226; 128; 136]; [226; 128; 137]; [226; 128; 138];
      [226; 128; 168]; [226; 128; 169]; [226; 128; 175];
      [226; 129; 159]; [227; 128; 128] ].

(** A name with nothing to strip: it is not empty, and no whitespace
    character stands at its start or at its end. *)
Definition trimmed (n : string) : Prop :=
  n ≠ ""
  ∧ Forall (λ w, ¬ (w `prefix_of` list_ascii_of_string n)
                 ∧ ¬ (w `suffix_of` list_ascii_of_string n)) whitespace.

(** A text made of whitespace characters only. *)
Definition blank (s : string) : Prop :=
  ∃ ws, Forall (λ w, w ∈ whitespace) ws
        ∧ list_ascii_of_string s = concat ws.

(** The test of [_extract_samples] for an absolute path. *)
Definition is_absolute_sample (p : string) : bool :=
  Py.startswith "/" p || Py.contains ":" p.

(** The test of [_extract_file_references] for an absolute path. *)
Definition is_absolute_reference (p : string) : bool :=
  Py.startswith "/" p || Py.char_at_1_is ":" p.

(** The two format tests of [_extract_plugins], as the [if]/[elif]
    orders them. *)
Definition is_vst_path (lower : string → string) (p : string) : bool :=
  Py.contains ".vst" (lower p) || Py.contains ".dll" (lower p).
Definition is_au_path (lower : string → string) (p : string) : bool :=
  negb (is_vst_path lower p)
  && (Py.contains ".component" (lower p) || Py.contains ".au" (lower p)).

(** Elements that the clips bucket looks at. *)
Definition is_audio_clip (e : Element) : bool :=
  Py.contains "AudioClip" (local_name (tag e)).
Definition is_midi_clip (e : Element) : bool :=
  negb (is_audio_clip e) && Py.contains "MidiClip" (local_name (tag e)).
Definition is_clip_like (e : Element) : bool :=
  Py.contains "Clip" (local_name (tag e)).

(** A render-setting key that also sets the export directory. *)
Definition is_directory_key (lower : string → string) (key : string) : bool :=
  Py.contains "path" (lower key) || Py.contains "dir" (lower key)
  || Py.contains "folder" (lower key).

(** The sum of the counts of a per-tag dict. *)
Definition count_total (m : gmap string nat) : nat :=
  map_fold (λ _ v acc, v + acc) 0 m.

(** A file name that marks a backup for the recursive search. *)
Definition is_backup_name (lower : string → string) (name : string) : bool :=
  Py.contains "backup" (lower name) || Py.contains "[" name.

(** ** A concrete runtime and concrete documents

    Used to run the embedding: every hypothesis of the theorems above
    is met here, and the limits of the design document's sentences
    are shown here. *)

Module Demo.

Definition node (t : string) (cs : list Element) : Element :=
  mkElement t ∅ None cs.

Definition valued (t v : string) : Element :=
  mkElement t {[ "Value" := v ]} None [].

Definition with_text (t x : string) : Element :=
  mkElement t ∅ (Some x) [].

(** A small Live set: two tracks and a master, an unnamed effect rack,
    one plugin that records two paths, a tempo. *)
Definition set_document (tempo_value : string) : Element :=
  mkElement "Ableton"
    {[ "Creator" := "Ableton Live 11.0"; "MajorVersion" := "5" ]} None
    [ node "LiveSet"
        [ node "Tracks"
            [ mkElement "AudioTrack" {[ "Id" := "8" ]} None
                [ node "Name" [ valued "EffectiveName" " Drums " ];
                  node "DeviceChain"
                    [ node "Devices"
                        [ node "AudioEffectGroupDevice" [];
                          node "PluginDevice"
                            [ valued "Path" "C:/Plugins/Serum.dll";
                              valued "Path" "/Library/Audio/Serum.component" ] ] ] ];
              mkElement "{urn:live}MidiTrack" {[ "Id" := "9" ]} None
                [ node "Name" [ with_text "EffectiveName" "Keys" ] ] ];
          node "MasterTrack"
            [ node "Tempo" [ valued "Manual" tempo_value ] ] ] ].

(** A set whose tempo is written as the text of [Manual], and whose
    annotation has an empty [Value] attribute next to its text. *)
Definition text_only_document : Element :=
  node "Ableton"
    [ node "LiveSet"
        [ node "MasterTrack"
            [ node "Tempo" [ with_text "Manual" "120" ] ];
          mkElement "Annotation" {[ "Value" := "" ]} (Some "rough mix") [] ] ].

(** [str.lower] on the text of the demo folder, which is ASCII:
    the letters A to Z are moved to a to z. *)
Definition lower_char (c : ascii) : ascii :=
  let n := Ascii.nat_of_ascii c in
  if (65 <=? n)%nat && (n <=? 90)%nat then Ascii.ascii_of_nat (n + 32) else c.

Fixpoint lower (s : string) : string :=
  match s with
  | EmptyString => EmptyString
  | String c rest => String (lower_char c) (lower rest)
  end.

(** [float] on the few numerals the documents use. *)
#[warnings="-inexact-float"]
Definition float_of_string (s : string) : option float :=
  if String.eqb s "0" then Some 0%float
  else if String.eqb s "120" then Some 120%float
  else if String.eqb s "120.05" then Some 120.05%float
  else if String.eqb s "125" then Some 125%float
  else None.

(** [Path(s).suffix] for the names used here: what follows the last
    dot of the last path component. *)
Definition path_suffix (s : string) : string :=
  match Py.split "." (Py.last_piece (Py.split "/" s)) with
  | _ :: piece :: pieces => "." +:+ Py.last_piece (piece :: pieces)
  | _ => ""
  end.

(** The files of the project folder. The payload of a file is stood
    for by its name. *)
Definition gzip_read (p : string) : result string :=
  if String.eqb p "Song/corrupt.als" || String.eqb p "Song/future.als" then
    Raise {| exn_class := "BadGzipFile";
             exn_message := "Not a gzipped file (b'PK')" |}
  else Ok p.

Definition fromstring (xml_data : string) : result Element :=
  if String.eqb xml_data "Song/malformed.als" then
    Raise {| exn_class := "ParseError";
             exn_message := "syntax error: line 1, column 0" |}
  else if String.eqb xml_data "Song/Song.als" then Ok (set_document "120")
  else if String.eqb xml_data "Song/Backup/Song [2024-03-01].als"
  then Ok (set_document "120.05")
  else if String.eqb xml_data "Song/Backup/Song [2024-02-01].als"
  then Ok (set_document "125")
  else if String.eqb xml_data "Song/silent.als" then Ok (set_document "0")
  else if String.eqb xml_data "Song/text.als" then Ok text_only_document
  else Ok (node "Ableton" []).

Definition format_exc (e : exn) : string :=
  "Traceback (most recent call last): " +:+ exn_class e +:+ ": "
  +:+ exn_message e.

(** The last second of the year 9999, the latest time a [datetime]
    holds. *)
Definition latest_datetime : Qc := Qc_of_Z 253402300799.

(** [datetime.fromtimestamp(t).isoformat()] at the times of the folder,
    read in UTC: three files were written in 2024, the others carry the
    time 0; [fromtimestamp] refuses the time of [Song/future.als], which
    lies in the year 33658. *)
Definition isoformat (t : Qc) : result string :=
  if decide (latest_datetime < t)%Qc then
    Raise {| exn_class := "ValueError";
             exn_message := "year 33658 is out of range" |}
  else if decide (t = Qc_of_Z 1711000000) then Ok "2024-03-21T05:46:40"
  else if decide (t = Qc_of_Z 1709294400) then Ok "2024-03-01T12:00:00"
  else if decide (t = Qc_of_Z 1706788800) then Ok "2024-02-01T12:00:00"
  else Ok "1970-01-01T00:00:00".

Definition recursion_message : string :=
  "maximum recursion depth exceeded in comparison".
Definition recursion_budget : nat := 900.

(** The files are the paths that end in [.als]; the folder [Empty]
    holds none. *)
Definition is_file (p : string) : result bool :=
  Ok (String.eqb (path_suffix p) ".als").

(** [path.name] and [path.parent]: the last component, and the rest. *)
Definition name_of (p : string) : string :=
  Py.last_piece (Py.split "/" p).
Definition parent (p : string) : string :=
  String.substring 0 (String.length p - String.length (name_of p) - 1) p.
Definition stat (p : string) : result stat_result :=
  if String.eqb p "Song/Backup/Song [2024-03-01].als"
  then Ok {| st_size := 2048; st_mtime := Qc_of_Z 1709294400 |}
  else if String.eqb p "Song/Backup/Song [2024-02-01].als"
  then Ok {| st_size := 2040; st_mtime := Qc_of_Z 1706788800 |}
  else if String.eqb p "Song/Backup" then Ok {| st_size := 0; st_mtime := 0%Qc |}
  else if String.eqb p "Song/Song.als"
  then Ok {| st_size := 2050; st_mtime := Qc_of_Z 1711000000 |}
  else if String.eqb p "Song/future.als"
  then Ok {| st_size := 64; st_mtime := Qc_of_Z 1000000000000 |}
  else if String.eqb (path_suffix p) ".als" && negb (Py.startswith "Empty/" p)
  then Ok {| st_size := 100; st_mtime := 0%Qc |}
  else Raise {| exn_class := "FileNotFoundError";
                exn_message := "[Errno 2] No such file or directory" |}.

(** No name of the folder is too long: [exists] tells whether [stat]
    succeeds. *)
Definition path_exists (p : string) : result bool :=
  Ok (match stat p with Ok _ => true | Raise _ => false end).

Definition joinpath (dir name : string) : string := dir +:+ "/" +:+ name.
Definition glob_als (dir : string) : result (list string) :=
  if String.eqb dir "Song/Backup" then
    Ok [ "Song/Backup/Song [2024-02-01].als";
         "Song/Backup/Song [2024-03-01].als" ]
  else if String.eqb dir "Song" then Ok [ "Song/Song.als" ]
  else Ok [].
Definition rglob_als (dir : string) : result (list string) :=
  if String.eqb dir "Song" then
    Ok [ "Song/Song.als"; "Song/Backup/Song [2024-02-01].als";
         "Song/Backup/Song [2024-03-01].als" ]
  else Ok [].

Definition analyze : string → result analysis :=
  analyze_file lower float_of_string path_suffix gzip_read fromstring
    format_exc isoformat recursion_message recursion_budget stat path_exists.

Definition extract : Element → extractable_data :=
  extract_all lower float_of_string path_suffix.

(** The dict expected for a file of that size and date that loads as
    [root]. *)
Definition record_of (als_path : string) (size : nat) (date : string)
    (root : Element) : analysis :=
  {| file_path := als_path; file_size := size;
     modified_date := Some date;
     analysis_metadata := Some (_extract_metadata root);
     analysis_structure :=
       match _analyze_structure recursion_message recursion_budget root with
       | Ok s => Some s
       | Raise _ => None
       end;
     analysis_data := Some (extract root);
     error := None; traceback := None |}.

Definition song_record : analysis :=
  record_of "Song/Song.als" 2050 "2024-03-21T05:46:40" (set_document "120").
Definition march_backup_record : analysis :=
  record_of "Song/Backup/Song [2024-03-01].als" 2048 "2024-03-01T12:00:00"
    (set_document "120.05").
Definition february_backup_record : analysis :=
  record_of "Song/Backup/Song [2024-02-01].als" 2040 "2024-02-01T12:00:00"
    (set_document "125").
Definition silent_record : analysis :=
  record_of "Song/silent.als" 100 "1970-01-01T00:00:00" (set_document "0").

Definition bad_gzip : exn :=
  {| exn_class := "BadGzipFile"; exn_message := "Not a gzipped file (b'PK')" |}.
Definition bad_markup : exn :=
  {| exn_class := "ParseError";
     exn_message := "syntax error: line 1, column 0" |}.
Definition bad_time : exn :=
  {| exn_class := "ValueError"; exn_message := "year 33658 is out of range" |}.

(** The demo folder, analyzed by an analyzer whose [main_file] is
    [self_main_file]. *)
Definition analyze_folder
  : option string → string → result project_results :=
  analyze_project lower float_of_string path_suffix gzip_read fromstring
    format_exc isoformat recursion_message recursion_budget stat path_exists
    is_file parent name_of joinpath glob_als rglob_als.

Definition find_backups : string → result (list string) :=
  find_backup_files lower stat path_exists is_file parent name_of joinpath
    glob_als rglob_als.

End Demo.

(** The local names of a document's elements, in document order. *)
Definition local_names (root : Element) : list string :=
  map (λ e, local_name (tag e)) (iter root).

(** The fields of the buckets that are decided by local names alone. *)
Definition local_name_counts (lower : string → string) (root : Element)
  : nat * gset string * nat * (nat * nat * nat) * (bool * nat * nat) :=
  (device_count (_extract_devices root),
   device_types (_extract_devices root),
   plugin_count (_extract_plugins lower root),
   (audio_clips (_extract_clips root), midi_clips (_extract_clips root),
    clip_count (_extract_clips root)),
   (has_automation (_extract_automation root),
    automation_lanes (_extract_automation root),
    automation_points (_extract_automation root))).

Section Discovery.

Variable path_exists : string → result bool.
Variable is_file : string → result bool.
Variable parent : string → string.
Variable joinpath : string → string → string.
Variable glob_als : string → result (list string).

(** The folder [find_backup_files] searches, when [is_file] answers
    [single] for the path. *)
Definition project_dir_of (single : bool) (project_path : string) : string :=
  if single then parent project_path else project_path.

(** What the first loop of [find_backup_files] lists in the project
    folder [dir]: the [.als] files directly in its [Backup] folder, if
    there is one. *)
Definition backup_folder_files (dir : string) : result (list string) :=
  match path_exists (joinpath dir "Backup") with
  | Raise e => Raise e
  | Ok true => glob_als (joinpath dir "Backup")
  | Ok false => Ok []
  end.

End Discovery.

(** The record [analyze_file] gives for the file of the demo folder
    that is not a gzip archive. *)
Definition demo_corrupt_record : analysis :=
  {| file_path := "Song/corrupt.als"; file_size := 100;
     modified_date := Some "1970-01-01T00:00:00";
     analysis_metadata := None; analysis_structure := None;
     analysis_data := None;
     error := Some "Not a gzipped file (b'PK')";
     traceback := Some (Demo.format_exc Demo.bad_gzip) |}.

(** The time signature a signature-like element contributes: it needs
    both a [Numerator] and a [Denominator] descendant; a [Value]
    attribute that is missing reads as 4. *)
Definition time_signature_candidate (e : Element) : option string :=
  if Py.contains "TimeSignature" (tag e) then
    numerator ← find_descendant "Numerator" e;
    denominator ← find_descendant "Denominator" e;
    Some (get_default numerator "Value" "4" +:+ "/"
          +:+ get_default denominator "Value" "4")
  else None.

(** The arrangement length an element contributes to the timing
    bucket: its [Value] attribute, when it parses. *)
Definition arrangement_length_candidate
    (float_of_string : string → option float) (e : Element) : option float :=
  if Py.contains "ArrangementLength" (local_name (tag e)) then
    length ← get e "Value";
    if Py.truthy length then float_of_string length else None
  else None.

(** The elements the backup bucket selects: by the whole tag,
    lower-cased, namespace included. *)
Definition is_backup_element (lower : string → string) (e : Element) : bool :=
  Py.contains "backup" (lower (tag e)).

(** A referenced path that has an extension, and one whose extension
    is [ext]. *)
Definition has_extension (lower path_suffix : string → string) (p : string)
  : bool :=
  Py.truthy (lower (path_suffix p)).
Definition has_extension_of (lower path_suffix : string → string)
    (ext p : string) : bool :=
  String.eqb (lower (path_suffix p)) ext.

(** The track records of one kind, in document order. *)
Definition listed_tracks (kind name : string) (root : Element)
  : list track_info :=
  map (λ e, _extract_track_info e kind)
      (List.filter (has_local_name name) (iter root)).

(** * Properties *)

(** ** The document tree *)

Lemma Element_induction (P : Element → Prop) :
  (∀ t a x cs, Forall P cs → P (mkElement t a x cs)) → ∀ e, P e.
Proof.
  intros step. fix IH 1. intros [t a x cs]. apply step.
  induction cs as [|c cs IHcs]; constructor; [apply IH | exact IHcs].
Qed.

Lemma iter_unfold e : iter e = e :: flat_map iter (children e).
Proof. by destruct e. Qed.

Lemma flat_map_map {A B C} (f : B → list C) (g : A → B) (l : list A) :
  flat_map f (map g l) = flat_map (λ a, f (g a)) l.
Proof. induction l as [|a l IH]; simpl; [done | by rewrite IH]. Qed.

Lemma map_flat_map {A B C} (f : A → list B) (g : B → C) (l : list A) :
  map g (flat_map f l) = flat_map (λ a, map g (f a)) l.
Proof. induction l as [|a l IH]; simpl; [done | by rewrite map_app, IH]. Qed.

Lemma flat_map_Forall_ext {A B} (f g : A → list B) (l : list A) :
  Forall (λ a, f a = g a) l → flat_map f l = flat_map g l.
Proof. induction 1 as [|a l Ha _ IH]; simpl; [done | by rewrite Ha, IH]. Qed.

Lemma iter_map_tags f e : iter (map_tags f e) = map (map_tags f) (iter e).
Proof.
  induction e as [t a x cs IH] using Element_induction. simpl. f_equal.
  rewrite flat_map_map, map_flat_map. by apply flat_map_Forall_ext.
Qed.

Lemma tag_map_tags f e : tag (map_tags f e) = f (tag e).
Proof. by destruct e. Qed.

(** ** Namespace prefixes *)

Lemma split_nonempty sep s : Py.split sep s ≠ [].
Proof.
  destruct s as [|c s]; simpl; [done |].
  destruct (Ascii.eqb c sep); [done |]. by destruct (Py.split sep s).
Qed.

(** Splitting two strings joined by the separator gives the pieces of
    the first followed by the pieces of the second. *)
Lemma split_joined sep a b :
  Py.split sep (a +:+ String sep b) = Py.split sep a ++ Py.split sep b.
Proof.
  induction a as [|c a IH]; simpl.
  - by rewrite Ascii.eqb_refl.
  - rewrite IH. destruct (Ascii.eqb c sep); [done |].
    pose proof (split_nonempty sep a). by destruct (Py.split sep a).
Qed.

Lemma last_app_nonempty {A} (l1 l2 : list A) d :
  l2 ≠ [] → List.last (l1 ++ l2) d = List.last l2 d.
Proof.
  intros Hne. induction l1 as [|x l1 IH]; [done |].
  simpl. rewrite IH. by destruct (l1 ++ l2) eqn:E; [apply app_eq_nil in E as [_ ?] |].
Qed.

Lemma prefix_empty s : String.prefix EmptyString s = true.
Proof. by destruct s. Qed.

Lemma split_without_separator sep s :
  Py.contains (String sep EmptyString) s = false → Py.split sep s = [s].
Proof.
  induction s as [|c s IH]; simpl; [done |].
  destruct (Ascii.ascii_dec sep c) as [->|Hne]; simpl;
    [by rewrite prefix_empty |].
  intros Hc. rewrite (IH Hc).
  destruct (Ascii.eqb_spec c sep) as [->|_]; [done | done].
Qed.

(** The conditional in the source is redundant: the local name is
    always the last piece. *)
Lemma local_name_last_piece t :
  local_name t = Py.last_piece (Py.split "}" t).
Proof.
  unfold local_name. destruct (Py.contains "}" t) eqn:E; [done |].
  by rewrite (split_without_separator _ _ E).
Qed.

Lemma local_name_qualify uri t : local_name (qualify uri t) = local_name t.
Proof.
  rewrite !local_name_last_piece. unfold qualify, Py.last_piece.
  replace ("{" +:+ uri +:+ "}" +:+ t) with (("{" +:+ uri) +:+ String "}" t).
  - rewrite split_joined. apply last_app_nonempty, split_nonempty.
  - reflexivity.
Qed.

Lemma local_name_requalify choose t :
  local_name (requalify choose t) = local_name t.
Proof.
  unfold requalify. destruct (choose t); [apply local_name_qualify | done].
Qed.

(** ** The tracks bucket *)

Lemma last_snoc_filter {A} (p : A → bool) (l : list A) (x : A) :
  last (List.filter p (l ++ [x])) =
  if p x then Some x else last (List.filter p l).
Proof.
  rewrite List.filter_app. simpl. destruct (p x).
  - apply last_snoc.
  - by rewrite app_nil_r.
Qed.

(** One round of the loop of [_extract_tracks]. *)
Lemma tracks_step_fields (t : tracks) (e : Element) :
  audio_tracks (tracks_step t e) = audio_tracks t ++
    map (λ e, _extract_track_info e "audio")
        (List.filter (has_local_name "AudioTrack") [e])
  ∧ midi_tracks (tracks_step t e) = midi_tracks t ++
    map (λ e, _extract_track_info e "midi")
        (List.filter (has_local_name "MidiTrack") [e])
  ∧ return_tracks (tracks_step t e) = return_tracks t ++
    map (λ e, _extract_track_info e "return")
        (List.filter (has_local_name "ReturnTrack") [e])
  ∧ group_tracks (tracks_step t e) = group_tracks t ++
    map (λ e, _extract_track_info e "group")
        (List.filter (has_local_name "GroupTrack") [e])
  ∧ master_track (tracks_step t e) =
    (if has_local_name "MasterTrack" e
     then Some (_extract_track_info e "master") else master_track t)
  ∧ total_count (tracks_step t e) =
    total_count t + length (List.filter is_counted_track [e]).
Proof.
  unfold tracks_step, is_counted_track, has_local_name.
  cbv zeta. simpl List.filter.
  destruct (String.eqb_spec (local_name (tag e)) "AudioTrack") as [H|_];
    [rewrite H; simpl; rewrite ?app_nil_r; repeat split; lia |].
  destruct (String.eqb_spec (local_name (tag e)) "MidiTrack") as [H|_];
    [rewrite H; simpl; rewrite ?app_nil_r; repeat split; lia |].
  destruct (String.eqb_spec (local_name (tag e)) "ReturnTrack") as [H|_];
    [rewrite H; simpl; rewrite ?app_nil_r; repeat split; lia |].
  destruct (String.eqb_spec (local_name (tag e)) "GroupTrack") as [H|_];
    [rewrite H; simpl; rewrite ?app_nil_r; repeat split; lia |].
  destruct (String.eqb_spec (local_name (tag e)) "MasterTrack") as [H|_];
    rewrite ?H; simpl; rewrite ?app_nil_r; repeat split; lia.
Qed.

(** The loop of [_extract_tracks], from any starting dict: every list
    grows by the infos of the elements of its kind, in document order,
    the counter by the number of elements of the four counted kinds,
    and the master slot holds the last master element seen. *)
Lemma tracks_loop (l : list Element) (t0 : tracks) :
  let t := fold_left tracks_step l t0 in
  audio_tracks t = audio_tracks t0 ++
    map (λ e, _extract_track_info e "audio")
        (List.filter (has_local_name "AudioTrack") l)
  ∧ midi_tracks t = midi_tracks t0 ++
    map (λ e, _extract_track_info e "midi")
        (List.filter (has_local_name "MidiTrack") l)
  ∧ return_tracks t = return_tracks t0 ++
    map (λ e, _extract_track_info e "return")
        (List.filter (has_local_name "ReturnTrack") l)
  ∧ group_tracks t = group_tracks t0 ++
    map (λ e, _extract_track_info e "group")
        (List.filter (has_local_name "GroupTrack") l)
  ∧ master_track t =
    match last (List.filter (has_local_name "MasterTrack") l) with
    | Some e => Some (_extract_track_info e "master")
    | None => master_track t0
    end
  ∧ total_count t = total_count t0 + length (List.filter is_counted_track l).
Proof.
  induction l as [|e l IH] using rev_ind; simpl.
  - rewrite !app_nil_r. repeat split; lia.
  - rewrite last_snoc_filter, fold_left_app, !List.filter_app, !map_app.
    simpl fold_left.
    destruct IH as (Ha & Hm & Hr & Hg & Hmaster & Htotal).
    destruct (tracks_step_fields (fold_left tracks_step l t0) e)
      as (Sa & Sm & Sr & Sg & Smaster & Stotal).
    rewrite Sa, Sm, Sr, Sg, Smaster, Stotal, Ha, Hm, Hr, Hg, Hmaster, Htotal.
    rewrite !length_app, <- !app_assoc.
    destruct (has_local_name "MasterTrack" e); repeat split; lia.
Qed.

(** The four counted kinds exclude one another. *)
Lemma counted_tracks_split (l : list Element) :
  length (List.filter is_counted_track l) =
  length (List.filter (has_local_name "AudioTrack") l)
  + length (List.filter (has_local_name "MidiTrack") l)
  + length (List.filter (has_local_name "ReturnTrack") l)
  + length (List.filter (has_local_name "GroupTrack") l).
Proof.
  induction l as [|e l IH]; [done |].
  cbn [List.filter]. unfold is_counted_track, has_local_name in *.
  destruct (String.eqb_spec (local_name (tag e)) "AudioTrack") as [H|_];
    [rewrite ?H; simpl; lia |].
  destruct (String.eqb_spec (local_name (tag e)) "MidiTrack") as [H|_];
    [rewrite ?H; simpl; lia |].
  destruct (String.eqb_spec (local_name (tag e)) "ReturnTrack") as [H|_];
    [rewrite ?H; simpl; lia |].
  destruct (String.eqb_spec (local_name (tag e)) "GroupTrack") as [H|_];
    [rewrite ?H; simpl; lia |].
  simpl; lia.
Qed.

Lemma master_is_not_counted (e : Element) :
  has_local_name "MasterTrack" e && is_counted_track e = false.
Proof.
  unfold is_counted_track, has_local_name.
  destruct (String.eqb_spec (local_name (tag e)) "MasterTrack") as [H|_];
    [by rewrite H | done].
Qed.

(** C10: in the tracks bucket, [total_count] is the sum of the lengths
    of the audio, midi, return and group lists; it is the number of
    elements of those four kinds, so a [MasterTrack] element, which is
    of none of them, never adds to it, and is reported through
    [master_track] alone (the last one seen). *)
Theorem tracks_total_count (root : Element) :
  let t := _extract_tracks root in
  total_count t =
    length (audio_tracks t) + length (midi_tracks t)
    + length (return_tracks t) + length (group_tracks t)
  ∧ total_count t = length (List.filter is_counted_track (iter root))
  ∧ (∀ e, has_local_name "MasterTrack" e && is_counted_track e = false)
  ∧ master_track t =
      (λ e, _extract_track_info e "master") <$>
      last (List.filter (has_local_name "MasterTrack") (iter root)).
Proof.
  destruct (tracks_loop (iter root) tracks_init)
    as (Ha & Hm & Hr & Hg & Hmaster & Htotal).
  fold (_extract_tracks root) in *. simpl in *.
  repeat split.
  - rewrite Htotal, Ha, Hm, Hr, Hg, !length_map. apply counted_tracks_split.
  - exact Htotal.
  - apply master_is_not_counted.
  - rewrite Hmaster.
    by destruct (last (List.filter (has_local_name "MasterTrack") (iter root))).
Qed.

(** ** Namespace invariance of the track counts *)

Lemma last_piece_without_separator sep s :
  Py.contains (String sep EmptyString) (Py.last_piece (Py.split sep s)) = false.
Proof.
  unfold Py.last_piece. induction s as [|c s IH]; [done |].
  pose proof (split_nonempty sep s) as Hne. simpl Py.split.
  destruct (Ascii.eqb_spec c sep) as [->|Hc].
  - change ("" :: Py.split sep s) with ([""] ++ Py.split sep s).
    by rewrite last_app_nonempty.
  - destruct (Py.split sep s) as [|piece [|piece' pieces]] eqn:E; [done | |].
    + simpl in *. rewrite IH.
      destruct (Ascii.ascii_dec sep c) as [->|_]; [done |]. by destruct piece.
    + exact IH.
Qed.

Lemma local_name_idempotent t : local_name (local_name t) = local_name t.
Proof.
  rewrite (local_name_last_piece t). unfold local_name at 1.
  by rewrite last_piece_without_separator.
Qed.

Lemma filter_length_map_tags f k (l : list Element) :
  (∀ t, local_name (f t) = local_name t) →
  length (List.filter (has_local_name k) (map (map_tags f) l)) =
  length (List.filter (has_local_name k) l).
Proof.
  intros Hf. induction l as [|e l IH]; [done |].
  cbn [map List.filter].
  assert (has_local_name k (map_tags f e) = has_local_name k e) as ->
    by (unfold has_local_name; by rewrite tag_map_tags, Hf).
  destruct (has_local_name k e); cbn [length]; by rewrite IH.
Qed.

Lemma last_is_Some_length {A} (l : list A) :
  bool_decide (is_Some (last l)) = negb (length l =? 0)%nat.
Proof.
  destruct l as [|x l] using rev_ind; [done |].
  rewrite last_snoc, length_app. simpl.
  replace (length l + 1 =? 0)%nat with false by (symmetry; apply Nat.eqb_neq; lia).
  reflexivity.
Qed.

(** What the tracks bucket counts, in terms of local names only. *)
Lemma track_counts_by_local_name (root : Element) :
  track_counts (_extract_tracks root) =
  (length (List.filter (has_local_name "AudioTrack") (iter root)),
   length (List.filter (has_local_name "MidiTrack") (iter root)),
   length (List.filter (has_local_name "ReturnTrack") (iter root)),
   length (List.filter (has_local_name "GroupTrack") (iter root)),
   negb (length (List.filter (has_local_name "MasterTrack") (iter root)) =? 0)%nat,
   length (List.filter (has_local_name "AudioTrack") (iter root))
   + length (List.filter (has_local_name "MidiTrack") (iter root))
   + length (List.filter (has_local_name "ReturnTrack") (iter root))
   + length (List.filter (has_local_name "GroupTrack") (iter root))).
Proof.
  destruct (tracks_loop (iter root) tracks_init)
    as (Ha & Hm & Hr & Hg & Hmaster & Htotal).
  fold (_extract_tracks root) in *. simpl in *.
  unfold track_counts.
  rewrite Ha, Hm, Hr, Hg, Htotal, Hmaster, !length_map, counted_tracks_split.
  rewrite <- last_is_Some_length.
  by destruct (last (List.filter (has_local_name "MasterTrack") (iter root))).
Qed.

Lemma track_counts_map_tags f (root : Element) :
  (∀ t, local_name (f t) = local_name t) →
  track_counts (_extract_tracks (map_tags f root)) =
  track_counts (_extract_tracks root).
Proof.
  intros Hf. rewrite !track_counts_by_local_name, iter_map_tags.
  by rewrite !filter_length_map_tags.
Qed.

(** C6: tag matching is namespace-invariant for the track counts:
    rewriting any choice of tags of a document to a namespace-qualified
    form ([{uri}Name], any namespace per tag), or stripping every tag
    down to its local name, leaves all the counts of the tracks bucket
    (the four list lengths, the master flag and [total_count]) as they
    were. *)
Theorem track_counts_namespace_invariant :
  (∀ choose root,
     track_counts (_extract_tracks (map_tags (requalify choose) root)) =
     track_counts (_extract_tracks root))
  ∧ (∀ root,
       track_counts (_extract_tracks (map_tags local_name root)) =
       track_counts (_extract_tracks root)).
Proof.
  split; intros.
  - apply track_counts_map_tags, local_name_requalify.
  - apply track_counts_map_tags, local_name_idempotent.
Qed.

(** ** Loops as folds *)

Section Folds.
Context {A B : Type} (body : A → B → A).

(** A property kept by the loop body holds when the loop ends. *)
Lemma loop_invariant (P : A → Prop) (xs : list B) (a : A) :
  P a → (∀ a x, P a → P (body a x)) → P (fold_left body xs a).
Proof.
  intros Ha Hstep. revert a Ha.
  induction xs as [|x xs IH]; intros a Ha; simpl; [done |].
  apply IH, Hstep, Ha.
Qed.

(** A counter that the body bumps exactly on the items selected by
    [p] ends as the number of selected items. *)
Lemma loop_counter (counter : A → nat) (p : B → bool) (xs : list B) (a : A) :
  (∀ a x, counter (body a x) = counter a + (if p x then 1 else 0)) →
  counter (fold_left body xs a) = counter a + length (List.filter p xs).
Proof.
  intros Hstep. revert a.
  induction xs as [|x xs IH]; intros a; simpl; [lia |].
  rewrite IH, Hstep. destruct (p x); simpl; lia.
Qed.

End Folds.

(** ** Counts and lists of the buckets *)

Section BucketCounts.

Variable lower : string → string.

Lemma device_count_spec (root : Element) :
  device_count (_extract_devices root) =
  length (List.filter is_device_element (iter root)).
Proof.
  unfold _extract_devices.
  rewrite (loop_counter devices_step device_count is_device_element); [done |].
  intros d e. unfold devices_step, is_device_element.
  destruct (is_device_tag (local_name (tag e))); simpl; lia.
Qed.

Lemma device_names_bound (root : Element) :
  (length (device_names (_extract_devices root)) ≤
   device_count (_extract_devices root))%nat.
Proof.
  unfold _extract_devices.
  apply (loop_invariant devices_step
           (λ d, (length (device_names d) ≤ device_count d)%nat)); [done |].
  intros d e Hd. unfold devices_step.
  destruct (is_device_tag (local_name (tag e))); [| done].
  simpl. destruct (device_name_loop (iter e)); rewrite ?length_app; simpl; lia.
Qed.

Lemma plugin_path_loop_count (xs : list Element) (p : plugins) :
  plugin_count (fold_left (plugin_path_step lower) xs p) = plugin_count p.
Proof.
  apply (loop_invariant (plugin_path_step lower)
           (λ q, plugin_count q = plugin_count p)); [done |].
  intros q e Hq. unfold plugin_path_step.
  destruct (Py.contains "Path" (tag e)); [| done].
  destruct (get e "Value") as [v|]; [| done].
  by destruct (Py.truthy v).
Qed.

Lemma plugin_count_spec (root : Element) :
  plugin_count (_extract_plugins lower root) =
  length (List.filter is_plugin_element (iter root)).
Proof.
  unfold _extract_plugins.
  rewrite (loop_counter (plugins_step lower) plugin_count is_plugin_element); [done |].
  intros p e. unfold plugins_step, is_plugin_element.
  destruct (is_plugin_tag (local_name (tag e))); [| lia].
  by rewrite plugin_path_loop_count.
Qed.

(** A path is filed under at most one format. *)
Lemma plugin_partitions_bound (root : Element) :
  (length (vst_plugins (_extract_plugins lower root))
   + length (au_plugins (_extract_plugins lower root)) ≤
   length (plugin_paths (_extract_plugins lower root)))%nat.
Proof.
  set (inv := λ p : plugins,
         (length (vst_plugins p) + length (au_plugins p)
          ≤ length (plugin_paths p))%nat).
  assert (Hpath : ∀ p e, inv p → inv (plugin_path_step lower p e)).
  { intros p e Hp. unfold inv, plugin_path_step in *.
    destruct (Py.contains "Path" (tag e)); [| done].
    destruct (get e "Value") as [v|]; [| done].
    destruct (Py.truthy v); [| done]. simpl.
    destruct (Py.contains ".vst" (lower v) || Py.contains ".dll" (lower v));
      [rewrite !length_app; simpl; lia |].
    destruct (Py.contains ".component" (lower v)
              || Py.contains ".au" (lower v));
      rewrite !length_app; simpl; lia. }
  unfold _extract_plugins.
  apply (loop_invariant (plugins_step lower) inv); [unfold inv; simpl; lia |].
  intros p e Hp. unfold plugins_step.
  destruct (is_plugin_tag (local_name (tag e))); [| done].
  apply (loop_invariant (plugin_path_step lower) inv); [exact Hp | exact Hpath].
Qed.

Lemma sample_count_spec (root : Element) :
  let s := _extract_samples root in
  sample_count s = length (sample_paths s)
  ∧ length (sample_paths s) =
    length (absolute_paths s) + length (relative_paths s).
Proof.
  set (inv := λ s : samples,
         sample_count s = length (sample_paths s)
         ∧ length (sample_paths s) =
           length (absolute_paths s) + length (relative_paths s)).
  assert (Hchild : ∀ s c, inv s → inv (sample_child_step s c)).
  { intros s c [H1 H2]. unfold inv, sample_child_step.
    destruct (Py.contains "Path" (tag c) || Py.contains "RelativePath" (tag c));
      [| done].
    destruct (Py.or_ (get c "Value") (text c)) as [v|]; [| done].
    destruct (Py.truthy v); [| done]. simpl.
    destruct (Py.startswith "/" v || Py.contains ":" v);
      rewrite !length_app; simpl; lia. }
  apply (loop_invariant samples_step inv); [done |].
  intros s e Hs. unfold samples_step.
  destruct (is_sample_ref_tag (local_name (tag e))); [| done].
  apply (loop_invariant sample_child_step inv); [exact Hs | exact Hchild].
Qed.

Lemma export_count_spec (root : Element) :
  export_count (_extract_export_info lower root) =
  length (export_logs (_extract_export_info lower root)).
Proof.
  set (inv := λ x : export_info, export_count x = length (export_logs x)).
  assert (Hchild : ∀ x c, inv x → inv (render_child_step lower x c)).
  { intros x c Hx. unfold inv, render_child_step.
    destruct (Py.or_ (get c "Value") (text c)) as [v|]; [| done].
    by destruct (Py.truthy v). }
  apply (loop_invariant (export_info_step lower) inv); [done |].
  intros x e Hx. unfold export_info_step.
  assert (inv (if is_export_log_tag (lower (tag e)) then
                 {| export_logs :=
                      export_logs x ++
                      [ {| log_tag := tag e; log_attributes := attrib e;
                           log_children := log_children_of e |} ];
                    render_settings := render_settings x;
                    export_directory := export_directory x;
                    export_count := export_count x + 1 |}
               else x)) as Hx1.
  { destruct (is_export_log_tag (lower (tag e))); [| done].
    unfold inv in *. simpl. rewrite length_app. simpl. lia. }
  cbv zeta.
  destruct (is_render_settings_tag (lower (tag e))); [| exact Hx1].
  apply (loop_invariant (render_child_step lower) inv); [exact Hx1 | exact Hchild].
Qed.

Lemma backup_count_spec (root : Element) :
  backup_count (_extract_backup_info lower root) =
  length (backup_references (_extract_backup_info lower root)).
Proof.
  apply (loop_invariant (backup_info_step lower)
           (λ b, backup_count b = length (backup_references b))); [done |].
  intros b e Hb. unfold backup_info_step.
  destruct (Py.contains "backup" (lower (tag e))); [| done].
  simpl. rewrite length_app. simpl. lia.
Qed.

Lemma clip_count_spec (root : Element) :
  clip_count (_extract_clips root) =
  audio_clips (_extract_clips root) + midi_clips (_extract_clips root).
Proof.
  apply (loop_invariant clips_step
           (λ c, clip_count c = audio_clips c + midi_clips c)); [done |].
  intros c e Hc. unfold clips_step. simpl.
  destruct (Py.contains "AudioClip" (local_name (tag e))); simpl; [lia |].
  destruct (Py.contains "MidiClip" (local_name (tag e))); lia.
Qed.

Lemma scene_count_bound float_of_string (root : Element) :
  (length (scenes (_extract_project_info float_of_string root)) ≤
   scene_count (_extract_project_info float_of_string root))%nat.
Proof.
  simpl.
  apply (loop_invariant scenes_step (λ acc, (length acc.1 ≤ acc.2)%nat)); [done |].
  intros acc e Hacc. unfold scenes_step.
  destruct (Py.contains "Scene" (tag e)); [| done].
  destruct (scene_name_loop (iter e)) as [n|]; simpl; [| lia].
  destruct (Py.truthy n); simpl; rewrite ?length_app; simpl; lia.
Qed.

End BucketCounts.

(** ** Single-file analysis *)

Section AnalyzeFile.

Variable lower : string → string.
Variable float_of_string : string → option float.
Variable path_suffix : string → string.
Variable gzip_read : string → result string.
Variable fromstring : string → result Element.
Variable format_exc : exn → string.
Variable isoformat : Qc → result string.
Variable recursion_message : string.
Variable recursion_budget : nat.
Variable stat : string → result stat_result.
Variable path_exists : string → result bool.

Local Abbreviation analyze :=
  (analyze_file lower float_of_string path_suffix gzip_read fromstring format_exc
     isoformat recursion_message recursion_budget stat path_exists).
Local Abbreviation extract := (extract_all lower float_of_string path_suffix).
Local Abbreviation failure_of :=
  (load_failure gzip_read fromstring recursion_message recursion_budget).
Local Abbreviation document_of := (loaded_document gzip_read fromstring).
Local Abbreviation facts_of := (file_facts isoformat stat path_exists).

(** What the [try] block leaves behind, whatever dict it started
    from: the exception that left it, if any, and the keys it had
    filled by then. *)
Lemma analyze_file_try_cases (als_path : string) (r0 : analysis) :
  let out :=
    analyze_file_try lower float_of_string path_suffix gzip_read fromstring
      recursion_message recursion_budget als_path r0 in
  out.2 = failure_of als_path
  ∧ file_path out.1 = file_path r0
  ∧ file_size out.1 = file_size r0
  ∧ modified_date out.1 = modified_date r0
  ∧ error out.1 = error r0 ∧ traceback out.1 = traceback r0
  ∧ analysis_data out.1 =
      match failure_of als_path with
      | Some _ => analysis_data r0
      | None => extract <$> document_of als_path
      end.
Proof.
  unfold analyze_file_try, load_failure, loaded_document.
  destruct (gzip_read als_path) as [xml_data|e1]; simpl; [| done].
  destruct (fromstring xml_data) as [root|e2]; simpl; [| done].
  by destruct (_analyze_structure recursion_message recursion_budget root).
Qed.

(** [analyze_file] raises exactly when reading the size or the date of
    the file raises, and then with that exception. Otherwise it
    returns a dict: its [error] and [traceback] keys are set exactly
    when the [try] block was left by an exception, and
    [extractable_data] is filled exactly when it was not. *)
Lemma analyze_file_cases (als_path : string) :
  match facts_of als_path with
  | Raise e => analyze als_path = Raise e
  | Ok facts =>
      ∃ r, analyze als_path = Ok r
        ∧ file_path r = als_path
        ∧ file_size r = facts.1 ∧ modified_date r = facts.2
        ∧ error r = exn_message <$> failure_of als_path
        ∧ traceback r = format_exc <$> failure_of als_path
        ∧ analysis_data r =
            match failure_of als_path with
            | Some _ => None
            | None => extract <$> document_of als_path
            end
  end.
Proof.
  unfold analyze_file, file_facts.
  destruct (path_exists als_path) as [[|]|e0]; simpl; [| | done].
  - destruct (stat als_path) as [st|e1]; simpl; [| done].
    destruct (isoformat (st_mtime st)) as [date|e2]; simpl; [| done].
    match goal with
    | |- context [analyze_file_try _ _ _ _ _ _ _ _ ?r0] =>
        pose proof (analyze_file_try_cases als_path r0) as Htry
    end.
    cbv zeta in Htry. destruct (analyze_file_try _ _ _ _ _ _ _ _ _) as [r left].
    simpl in Htry. destruct Htry as (-> & Hp & Hs & Hd & He & Ht & Hdata).
    destruct (failure_of als_path) as [e|]; eexists; (split; [reflexivity |]);
      simpl; rewrite ?Hp, ?Hs, ?Hd, ?He, ?Ht, ?Hdata; by repeat split.
  - match goal with
    | |- context [analyze_file_try _ _ _ _ _ _ _ _ ?r0] =>
        pose proof (analyze_file_try_cases als_path r0) as Htry
    end.
    cbv zeta in Htry. destruct (analyze_file_try _ _ _ _ _ _ _ _ _) as [r left].
    simpl in Htry. destruct Htry as (-> & Hp & Hs & Hd & He & Ht & Hdata).
    destruct (failure_of als_path) as [e|]; eexists; (split; [reflexivity |]);
      simpl; rewrite ?Hp, ?Hs, ?Hd, ?He, ?Ht, ?Hdata; by repeat split.
Qed.

(** The dict that [analyze_file] returned. *)
Lemma analyze_file_returned (als_path : string) (r : analysis) :
  analyze als_path = Ok r →
  file_path r = als_path
  ∧ facts_of als_path = Ok (file_size r, modified_date r)
  ∧ error r = exn_message <$> failure_of als_path
  ∧ traceback r = format_exc <$> failure_of als_path
  ∧ analysis_data r =
      match failure_of als_path with
      | Some _ => None
      | None => extract <$> document_of als_path
      end.
Proof.
  intros Hr. pose proof (analyze_file_cases als_path) as Hcases.
  destruct (facts_of als_path) as [[size date]|e]; [| congruence].
  destruct Hcases as (r' & Hr' & Hp & Hs & Hd & He & Ht & Hdata).
  rewrite Hr in Hr'. injection Hr' as <-. simpl in Hs, Hd.
  by rewrite Hs, Hd.
Qed.

(** C7, as the code has it: reading a container does not fail with a
    typed error. Once the size and the date of the file have been
    read, [analyze_file] returns a dict; when decompression fails, or
    parsing fails, or the structure pass exhausts the call stack, the
    dict carries the message of that exception in [error] and its
    traceback in [traceback], and carries neither otherwise. The two
    failure modes are reported through the same two fields. *)
Theorem failures_are_recorded_not_raised (als_path : string)
    (facts : nat * option string) :
  facts_of als_path = Ok facts →
  ∃ r, analyze als_path = Ok r
    ∧ match gzip_read als_path with
      | Raise e =>
          error r = Some (exn_message e) ∧ traceback r = Some (format_exc e)
      | Ok xml_data =>
          match fromstring xml_data with
          | Raise e =>
              error r = Some (exn_message e)
              ∧ traceback r = Some (format_exc e)
          | Ok root =>
              match _analyze_structure recursion_message recursion_budget root with
              | Raise e =>
                  error r = Some (exn_message e)
                  ∧ traceback r = Some (format_exc e)
              | Ok _ => error r = None ∧ traceback r = None
              end
          end
      end.
Proof.
  intros Hfacts. pose proof (analyze_file_cases als_path) as Hcases.
  rewrite Hfacts in Hcases.
  destruct Hcases as (r & Hr & _ & _ & _ & Herr & Htb & _).
  exists r. split; [exact Hr |]. unfold load_failure in *.
  destruct (gzip_read als_path) as [xml_data|e1]; [| done].
  destruct (fromstring xml_data) as [root|e2]; [| done].
  by destruct (_analyze_structure recursion_message recursion_budget root).
Qed.

(** C1, as the code has it: in the record of a successfully analyzed
    file, the counters that are bumped together with an append equal
    the length of their list ([sample_count], [export_count],
    [backup_count], and [total_count] against the four track lists);
    [device_count] and [plugin_count] count the device and plugin
    elements of the document, while [device_names] holds only the
    devices that carry a non-empty user name (so it is no longer than
    [device_count]) and [plugin_paths] holds every non-empty path found
    under a plugin element, each filed under at most one format; the
    scene names are no more than [scene_count]. *)
Theorem count_fields_of_analysis (als_path : string) (r : analysis)
    (d : extractable_data) :
  analyze als_path = Ok r →
  analysis_data r = Some d →
  ∃ root,
    document_of als_path = Some root ∧ d = extract root
    ∧ sample_count (data_samples d) = length (sample_paths (data_samples d))
    ∧ export_count (data_export_info d) =
        length (export_logs (data_export_info d))
    ∧ backup_count (data_backup_info d) =
        length (backup_references (data_backup_info d))
    ∧ total_count (data_tracks d) =
        length (audio_tracks (data_tracks d))
        + length (midi_tracks (data_tracks d))
        + length (return_tracks (data_tracks d))
        + length (group_tracks (data_tracks d))
    ∧ device_count (data_devices d) =
        length (List.filter is_device_element (iter root))
    ∧ (length (device_names (data_devices d)) ≤ device_count (data_devices d))%nat
    ∧ plugin_count (data_plugins d) =
        length (List.filter is_plugin_element (iter root))
    ∧ (length (vst_plugins (data_plugins d))
       + length (au_plugins (data_plugins d))
       ≤ length (plugin_paths (data_plugins d)))%nat
    ∧ (length (scenes (data_project_info d))
       ≤ scene_count (data_project_info d))%nat.
Proof.
  intros Hr Hd.
  destruct (analyze_file_returned als_path r Hr) as (_ & _ & _ & _ & Hdata).
  rewrite Hd in Hdata.
  destruct (failure_of als_path); [done |].
  destruct (document_of als_path) as [root|]; [| done].
  injection Hdata as ->. exists root.
  destruct (tracks_loop (iter root) tracks_init)
    as (Ha & Hm & Hr' & Hg & _ & Htotal).
  fold (_extract_tracks root) in *. simpl in Ha, Hm, Hr', Hg, Htotal.
  repeat split.
  - exact (proj1 (sample_count_spec root)).
  - exact (export_count_spec lower root).
  - exact (backup_count_spec lower root).
  - simpl. rewrite Htotal, Ha, Hm, Hr', Hg, !length_map.
    apply counted_tracks_split.
  - exact (device_count_spec root).
  - exact (device_names_bound root).
  - exact (plugin_count_spec lower root).
  - exact (plugin_partitions_bound lower root).
  - exact (scene_count_bound float_of_string root).
Qed.

End AnalyzeFile.

(** The runtime behaves as set up. *)
Example demo_song_loads : Demo.analyze "Song/Song.als" = Ok Demo.song_record.
Proof. vm_compute. reflexivity. Qed.

Example demo_silent_loads :
  Demo.analyze "Song/silent.als" = Ok Demo.silent_record.
Proof. vm_compute. reflexivity. Qed.

Example demo_backups_load :
  Demo.analyze "Song/Backup/Song [2024-03-01].als" = Ok Demo.march_backup_record
  ∧ Demo.analyze "Song/Backup/Song [2024-02-01].als"
    = Ok Demo.february_backup_record.
Proof. split; vm_compute; reflexivity. Qed.

(** ** Single-file analysis on the concrete files *)

(** [Song/corrupt.als] is not a gzip archive: its size and date are
    read, and the record carries the library's message. *)
Lemma failures_are_recorded_not_raised_witness :
  file_facts Demo.isoformat Demo.stat Demo.path_exists "Song/corrupt.als" =
    Ok (100, Some "1970-01-01T00:00:00")
  ∧ Demo.gzip_read "Song/corrupt.als" = Raise Demo.bad_gzip
  ∧ ∃ r, Demo.analyze "Song/corrupt.als" = Ok r
         ∧ error r = Some (exn_message Demo.bad_gzip)
         ∧ traceback r = Some (Demo.format_exc Demo.bad_gzip).
Proof.
  split; [vm_compute; reflexivity |]. split; [reflexivity |].
  apply (failures_are_recorded_not_raised Demo.lower Demo.float_of_string
           Demo.path_suffix Demo.gzip_read Demo.fromstring Demo.format_exc
           Demo.isoformat Demo.recursion_message Demo.recursion_budget
           Demo.stat Demo.path_exists "Song/corrupt.als"
           (100, Some "1970-01-01T00:00:00")).
  vm_compute. reflexivity.
Defined.

(** C4: [Song/future.als] exists and is not a gzip archive, and its
    modification time lies beyond the year 9999. [analyze_file] formats
    that time before it enters its [try] block, so the [ValueError] of
    [datetime.fromtimestamp] reaches the caller and no record, with or
    without an [error] field, is returned. *)
Theorem corrupt_file_with_far_date_raises :
  Demo.path_exists "Song/future.als" = Ok true
  ∧ Demo.stat "Song/future.als" =
      Ok {| st_size := 64; st_mtime := Qc_of_Z 1000000000000 |}
  ∧ Demo.isoformat (Qc_of_Z 1000000000000) = Raise Demo.bad_time
  ∧ Demo.gzip_read "Song/future.als" = Raise Demo.bad_gzip
  ∧ Demo.analyze "Song/future.als" = Raise Demo.bad_time
  ∧ ¬ (∃ r, Demo.analyze "Song/future.als" = Ok r).
Proof.
  assert (Demo.analyze "Song/future.als" = Raise Demo.bad_time) as Hraise
    by (vm_compute; reflexivity).
  split; [vm_compute; reflexivity |]. split; [vm_compute; reflexivity |].
  split; [vm_compute; reflexivity |]. split; [vm_compute; reflexivity |].
  split; [exact Hraise |].
  intros [r Hr]. rewrite Hraise in Hr. discriminate Hr.
Qed.

(** The same for a file that decompresses and does not parse. *)
Example malformed_file_yields_error :
  ∃ r, Demo.analyze "Song/malformed.als" = Ok r
       ∧ error r = Some "syntax error: line 1, column 0".
Proof. eexists. split; vm_compute; reflexivity. Qed.

(** C7, as the design document states it, fails: the archive of
    [Song/corrupt.als] does not decompress and the payload of
    [Song/malformed.als] does not parse, yet reading either one raises
    nothing, so no [CorruptArchiveError] and no
    [MalformedDocumentError]. *)
Lemma typed_errors_counterexample :
  Demo.gzip_read "Song/corrupt.als" = Raise Demo.bad_gzip
  ∧ ¬ (∃ e, Demo.analyze "Song/corrupt.als" = Raise e
            ∧ exn_class e = "CorruptArchiveError")
  ∧ (Demo.gzip_read "Song/malformed.als" = Ok "Song/malformed.als"
     ∧ Demo.fromstring "Song/malformed.als" = Raise Demo.bad_markup)
  ∧ ¬ (∃ e, Demo.analyze "Song/malformed.als" = Raise e
            ∧ exn_class e = "MalformedDocumentError").
Proof.
  split; [reflexivity |]. split; [by intros (e & He & _) |].
  split; [by split |]. by intros (e & He & _).
Qed.

(** [Song/Song.als] is analyzed successfully, and its record has the
    counts the theorem gives. *)
Lemma count_fields_of_analysis_witness :
  Demo.analyze "Song/Song.als" = Ok Demo.song_record
  ∧ analysis_data Demo.song_record
    = Some (Demo.extract (Demo.set_document "120"))
  ∧ ∃ root,
      loaded_document Demo.gzip_read Demo.fromstring "Song/Song.als" = Some root
      ∧ Demo.extract (Demo.set_document "120") = Demo.extract root
      ∧ device_count (data_devices (Demo.extract (Demo.set_document "120"))) =
          length (List.filter is_device_element (iter root)).
Proof.
  split; [exact demo_song_loads |]. split; [reflexivity |].
  destruct (count_fields_of_analysis Demo.lower Demo.float_of_string
              Demo.path_suffix Demo.gzip_read Demo.fromstring Demo.format_exc
              Demo.isoformat Demo.recursion_message Demo.recursion_budget
              Demo.stat Demo.path_exists "Song/Song.als" Demo.song_record
              (Demo.extract (Demo.set_document "120")))
    as (root & Hroot & Hd & _ & _ & _ & _ & Hdev & _).
  - vm_compute. reflexivity.
  - reflexivity.
  - exists root. by repeat split.
Defined.

(** C1, as the design document states it, fails on the analysis of
    [Song/Song.als], which succeeds: three elements are counted as
    devices and none has a user name, and the one plugin records two
    paths. *)
Lemma count_equals_length_counterexample :
  Demo.analyze "Song/Song.als" = Ok Demo.song_record
  ∧ error Demo.song_record = None
  ∧ (∃ d, analysis_data Demo.song_record = Some d
          ∧ device_count (data_devices d) = 3
          ∧ length (device_names (data_devices d)) = 0
          ∧ plugin_count (data_plugins d) = 1
          ∧ length (plugin_paths (data_plugins d)) = 2).
Proof.
  split; [exact demo_song_loads |]. split; [reflexivity |].
  eexists. split; [reflexivity |]. repeat split; vm_compute; reflexivity.
Qed.


(** ** The comparator *)

Lemma timing_changes_step (main : analysis) (c : comparison) (backup : analysis) :
  timing_changes (compare_step main c backup) =
  timing_changes c ++ tempo_entries main backup.
Proof.
  unfold tempo_entries, _compare_files. simpl.
  destruct (tempo_of backup) as [b|], (tempo_of main) as [m|];
    rewrite ?app_nil_r; try done.
  match goal with |- context [if ?cond then _ else _] => destruct cond end;
    by rewrite ?app_nil_r.
Qed.

Lemma timing_changes_loop (main : analysis) (backups : list analysis)
    (c : comparison) :
  timing_changes (fold_left (compare_step main) backups c) =
  timing_changes c ++ flat_map (tempo_entries main) backups.
Proof.
  revert c. induction backups as [|backup backups IH]; intros c; simpl.
  - by rewrite app_nil_r.
  - by rewrite IH, timing_changes_step, app_assoc.
Qed.

Lemma tempo_entries_cases (main backup : analysis) :
  (tempo_differs main backup →
   ∃ m b, tempo_of main = Some m ∧ tempo_of backup = Some b
          ∧ tempo_entries main backup =
            [ {| timing_change_backup := file_path backup;
                 change_tempo := b; change_main_tempo := m |} ])
  ∧ (¬ tempo_differs main backup → tempo_entries main backup = []).
Proof.
  unfold tempo_entries, _compare_files, tempo_differs. simpl.
  destruct (tempo_of backup) as [b|] eqn:Eb, (tempo_of main) as [m|] eqn:Em;
    try (split; [by intros (? & ? & ? & ? & _) | done]).
  unfold tempo_changed, Py.truthy_float.
  destruct (PrimFloat.eqb b 0) eqn:Hb, (PrimFloat.eqb m 0) eqn:Hm; simpl;
    try (split; [intros (? & ? & [= <-] & [= <-] & ? & ? & _); congruence
                | done]).
  destruct (PrimFloat.ltb _ _) eqn:Hlt.
  - split; [intros _; by exists m, b |].
    intros Hno. destruct Hno. by exists m, b.
  - split; [| done].
    intros (? & ? & [= <-] & [= <-] & _ & _ & Hlt'). congruence.
Qed.

(** C3, as the code has it: the comparator emits, per backup and in
    the order of the backups, one tempo-changed entry when both tempos
    are present and non-zero and their absolute difference exceeds 0.1
    BPM, and none otherwise (a tempo of zero is treated as absent).
    With a main tempo of 120.0, a backup at 120.05 gives no entry and a
    backup at 125.0 gives exactly one. *)
Theorem tempo_change_entries (main : analysis) (backups : list analysis) :
  timing_changes (_compare_files main backups) =
    flat_map (tempo_entries main) backups
  ∧ (∀ backup,
       (tempo_differs main backup →
        ∃ m b, tempo_of main = Some m ∧ tempo_of backup = Some b
               ∧ tempo_entries main backup =
                 [ {| timing_change_backup := file_path backup;
                      change_tempo := b; change_main_tempo := m |} ])
       ∧ (¬ tempo_differs main backup → tempo_entries main backup = []))
  ∧ tempo_of Demo.song_record = Some 120%float
  ∧ tempo_entries Demo.song_record Demo.march_backup_record = []
  ∧ tempo_entries Demo.song_record Demo.february_backup_record =
      [ {| timing_change_backup := "Song/Backup/Song [2024-02-01].als";
           change_tempo := 125%float; change_main_tempo := 120%float |} ].
Proof.
  split; [apply (timing_changes_loop main backups comparison_init) |].
  split; [intros backup; apply tempo_entries_cases |].
  repeat split; vm_compute; reflexivity.
Qed.

(** The backup of the second scenario is the one at 120.05. *)
#[warnings="-inexact-float"]
Example demo_march_tempo :
  tempo_of Demo.march_backup_record = Some 120.05%float.
Proof. vm_compute. reflexivity. Qed.

(** C3, as the design document states it, fails for a tempo of zero:
    both tempos are present and 125 BPM apart, and no entry is
    emitted. *)
#[warnings="-inexact-float"]
Lemma tempo_presence_counterexample :
  tempo_of Demo.silent_record = Some 0%float
  ∧ tempo_of Demo.february_backup_record = Some 125%float
  ∧ PrimFloat.ltb 0.1%float
      (PrimFloat.abs (PrimFloat.sub 125%float 0%float)) = true
  ∧ timing_changes
      (_compare_files Demo.silent_record [Demo.february_backup_record]) = [].
Proof. repeat split; vm_compute; reflexivity. Qed.

(** ** Symmetry of the similarity score *)

Lemma jaccard_symmetric (A B : gset string) :
  Similarity.jaccard A B = Similarity.jaccard B A.
Proof.
  unfold Similarity.jaccard.
  by rewrite (union_comm_L A B), (intersection_comm_L A B).
Qed.

Lemma proximity_symmetric (decay : Qc → Qc) (x y : option Qc) :
  Similarity.proximity decay x y = Similarity.proximity decay y x.
Proof.
  destruct x as [a|], y as [b|]; simpl; try done.
  by rewrite Qcabs_Qcminus.
Qed.

Lemma structural_proximity_symmetric (a b : Similarity.features) :
  Similarity.structural_proximity a b = Similarity.structural_proximity b a.
Proof.
  unfold Similarity.structural_proximity.
  by rewrite (Qcabs_Qcminus (Similarity.ratio (Similarity.audio_tracks a) a)),
    (Qcabs_Qcminus (Similarity.ratio (Similarity.midi_tracks a) a)),
    (Qcabs_Qcminus (Similarity.ratio (Similarity.return_tracks a) a)),
    (Qcabs_Qcminus (Similarity.ratio (Similarity.group_tracks a) a)).
Qed.

(** C2: the numeric similarity score is symmetric: for every pair of
    feature records, every choice of weights and every pair of decay
    functions, [similarity(A, B) = similarity(B, A)]. *)
Theorem similarity_symmetric (tempo_decay length_decay : Qc → Qc)
    (w : Similarity.weights) (a b : Similarity.features) :
  Similarity.similarity tempo_decay length_decay w a b =
  Similarity.similarity tempo_decay length_decay w b a.
Proof.
  unfold Similarity.similarity.
  rewrite (jaccard_symmetric (Similarity.plugins a)),
    (jaccard_symmetric (Similarity.device_types a)),
    (proximity_symmetric tempo_decay (Similarity.tempo a)),
    (proximity_symmetric length_decay (Similarity.arrangement_length a)),
    (structural_proximity_symmetric a b).
  reflexivity.
Qed.

(** The score is not constant: two records that share one plugin of
    three score 1/3 under overlap-only weighting. *)
Example similarity_overlap_only :
  let decay := λ d : Qc, (1 - d)%Qc in
  let w := {| Similarity.w_plugins := 1%Qc; Similarity.w_devices := 0%Qc;
              Similarity.w_tempo := 0%Qc; Similarity.w_structure := 0%Qc;
              Similarity.w_length := 0%Qc |} in
  let a := {| Similarity.plugins := {[ "X.vst"; "Y.vst" ]};
              Similarity.device_types := ∅; Similarity.tempo := None;
              Similarity.audio_tracks := 1; Similarity.midi_tracks := 0;
              Similarity.return_tracks := 0; Similarity.group_tracks := 0;
              Similarity.arrangement_length := None |} in
  let b := {| Similarity.plugins := {[ "Y.vst"; "Z.vst" ]};
              Similarity.device_types := ∅; Similarity.tempo := None;
              Similarity.audio_tracks := 1; Similarity.midi_tracks := 0;
              Similarity.return_tracks := 0; Similarity.group_tracks := 0;
              Similarity.arrangement_length := None |} in
  Similarity.similarity decay decay w a b = (Qc_of_Z 1 / Qc_of_Z 3)%Qc.
Proof. apply Qc_is_canon. vm_compute. reflexivity. Qed.

(** ** The structure pass and the call stack *)

Section StructurePass.

Variable message : string.

Lemma height_unfold e : height e = S (list_max (map height (children e))).
Proof. by destruct e. Qed.

Lemma height_chain n : height (chain n) = S n.
Proof. induction n as [|n IH]; simpl; [done | rewrite IH; lia]. Qed.

Lemma children_depth (cs : list Element) (d : nat) :
  max d (list_max (map (λ c, d + 1 + (height c - 1)) cs)) =
  d + list_max (map height cs).
Proof.
  induction cs as [|c cs IH]; simpl; [lia |].
  pose proof (height_unfold c). lia.
Qed.

(** Counting an element and then the forest of its children is
    counting the one-element forest made of it. *)
Lemma after_children (e : Element) (d : nat) (st : structure) :
  after_forest (children e) (d + 1) (count_visit st e d) =
  after_forest [e] d st.
Proof.
  unfold after_forest, count_visit. simpl. rewrite app_nil_r, iter_unfold.
  f_equal.
  - pose proof (children_depth (children e) d) as Hd.
    rewrite height_unfold. simpl. lia.
  - simpl. lia.
Qed.

Lemma after_forest_cons (c : Element) (cs : list Element) (d : nat)
    (st : structure) :
  after_forest cs d (after_forest [c] d st) = after_forest (c :: cs) d st.
Proof.
  unfold after_forest. simpl. rewrite app_nil_r, fold_left_app, length_app.
  f_equal; lia.
Qed.

(** With enough frames for every tree of a forest, the recursive
    calls on it all return. *)
Lemma count_forest_returns (frames : nat) (cs : list Element) :
  Forall (λ c, ∀ d st, (height c ≤ frames)%nat →
            count_elements message frames c d st = Ok (after_forest [c] d st)) cs →
  (list_max (map height cs) ≤ frames)%nat →
  ∀ d st,
    foldM (λ st' child, count_elements message frames child d st') cs st =
    Ok (after_forest cs d st).
Proof.
  induction 1 as [|c cs Hc _ IH]; intros Hmax d st; simpl in *.
  - unfold after_forest. simpl. destruct st. simpl. f_equal. f_equal; lia.
  - rewrite Hc by lia. simpl. rewrite IH by lia. by rewrite after_forest_cons.
Qed.

Lemma count_elements_returns (e : Element) :
  ∀ frames d st, (height e ≤ frames)%nat →
    count_elements message frames e d st = Ok (after_forest [e] d st).
Proof.
  induction e as [t a x cs IH] using Element_induction.
  intros [|frames] d st Hh; [simpl in Hh; lia |].
  simpl in Hh. cbn [count_elements children].
  rewrite count_forest_returns.
  - by rewrite <- after_children.
  - eapply Forall_impl; [exact IH |]. intros c Hc d' st' Hle. by apply Hc.
  - lia.
Qed.

(** A forest with a tree taller than the frames left raises
    [RecursionError], whatever was counted before. *)
Lemma count_forest_overflows (frames : nat) (cs : list Element) :
  Forall (λ c, ∀ d st, (frames < height c)%nat →
            count_elements message frames c d st = Raise (RecursionError message)) cs →
  (frames < list_max (map height cs))%nat →
  ∀ d st,
    foldM (λ st' child, count_elements message frames child d st') cs st =
    Raise (RecursionError message).
Proof.
  induction 1 as [|c cs Hc _ IH]; intros Hmax d st; simpl in *; [lia |].
  destruct (decide (height c ≤ frames)%nat) as [Hle|Hgt].
  - rewrite count_elements_returns by exact Hle. simpl. apply IH. lia.
  - rewrite Hc by lia. done.
Qed.

Lemma count_elements_overflows (e : Element) :
  ∀ frames d st, (frames < height e)%nat →
    count_elements message frames e d st = Raise (RecursionError message).
Proof.
  induction e as [t a x cs IH] using Element_induction.
  intros [|frames] d st Hh; [done |].
  simpl in Hh. cbn [count_elements children].
  apply count_forest_overflows; [| lia].
  eapply Forall_impl; [exact IH |]. intros c Hc d' st' Hlt. by apply Hc.
Qed.

Lemma foldM_cons {A B} (body : A → B → result A) (x : B) (xs : list B) (a : A) :
  foldM body (x :: xs) a = body a x ≫= foldM body xs.
Proof. reflexivity. Qed.

Lemma top_level_step_unfold (frames : nat) (st : structure) (c : Element) :
  top_level_step message frames st c =
  count_elements message frames c 1
    {| top_level_elements := top_level_elements st ++ [local_name (tag c)];
       element_counts := element_counts st;
       max_depth := max_depth st;
       total_elements := total_elements st |}.
Proof. reflexivity. Qed.

(** The loop of [_analyze_structure] over the top-level elements. *)
Lemma top_level_returns (frames : nat) (cs : list Element) :
  (list_max (map height cs) ≤ frames)%nat →
  ∀ st,
    foldM (top_level_step message frames) cs st =
    Ok {| top_level_elements :=
            top_level_elements st ++ map (λ c, local_name (tag c)) cs;
          element_counts :=
            fold_left tally (flat_map iter cs) (element_counts st);
          max_depth := max (max_depth st) (list_max (map height cs));
          total_elements := total_elements st + length (flat_map iter cs) |}.
Proof.
  induction cs as [|c cs IH]; intros Hmax st; simpl in Hmax.
  - simpl. rewrite app_nil_r. destruct st. simpl. f_equal. f_equal; lia.
  - rewrite foldM_cons, top_level_step_unfold.
    rewrite count_elements_returns by lia.
    simpl. rewrite IH by lia. simpl.
    rewrite app_nil_r, fold_left_app, length_app, <- app_assoc. simpl.
    pose proof (height_unfold c). f_equal. f_equal; lia.
Qed.

Lemma top_level_overflows (frames : nat) (cs : list Element) :
  (frames < list_max (map height cs))%nat →
  ∀ st, foldM (top_level_step message frames) cs st = Raise (RecursionError message).
Proof.
  induction cs as [|c cs IH]; intros Hmax st; simpl in Hmax; [lia |].
  rewrite foldM_cons, top_level_step_unfold.
  destruct (decide (height c ≤ frames)%nat) as [Hle|Hgt].
  - rewrite count_elements_returns by exact Hle. simpl. apply IH. lia.
  - by rewrite count_elements_overflows by lia.
Qed.

(** What the per-tag dict holds for a tag. *)
Lemma tally_loop (k : string) (elems : list Element) (m : gmap string nat) :
  default 0 (fold_left tally elems m !! k) =
  default 0 (m !! k) + length (List.filter (has_local_name k) elems).
Proof.
  revert m. induction elems as [|e elems IH]; intros m; simpl; [lia |].
  rewrite IH. unfold tally at 1, has_local_name at 2.
  destruct (String.eqb_spec (local_name (tag e)) k) as [Hk|Hne].
  - rewrite Hk, lookup_insert_eq. simpl. lia.
  - rewrite lookup_insert_ne by exact Hne. lia.
Qed.

(** C9, as the code has it: the structure pass is a recursive function
    whose call-stack depth is the nesting depth of the document. With
    at least that many frames available it terminates and returns the
    top-level tags, the per-tag counts, the maximal depth and the
    number of elements below the root; with fewer it raises
    [RecursionError]. *)
Theorem structure_pass_recursion (frames : nat) (root : Element) :
  ((nesting_depth root ≤ frames)%nat →
   _analyze_structure message frames root =
   Ok {| top_level_elements := map (λ c, local_name (tag c)) (children root);
         element_counts := tag_counts (descendants root);
         max_depth := nesting_depth root;
         total_elements := length (descendants root) |})
  ∧ ((frames < nesting_depth root)%nat →
     _analyze_structure message frames root = Raise (RecursionError message))
  ∧ (∀ k, default 0 (tag_counts (descendants root) !! k) =
          length (List.filter (has_local_name k) (descendants root))).
Proof.
  unfold _analyze_structure, nesting_depth, tag_counts, descendants.
  split; [| split].
  - intros Hle. by rewrite top_level_returns.
  - intros Hlt. by apply top_level_overflows.
  - intros k. by rewrite tally_loop.
Qed.

End StructurePass.

(** On the demo set, which nests seven levels below its root. *)
Example demo_structure_pass :
  nesting_depth (Demo.set_document "120") = 7
  ∧ _analyze_structure Demo.recursion_message 6 (Demo.set_document "120") =
      Raise (RecursionError Demo.recursion_message)
  ∧ ∃ s, _analyze_structure Demo.recursion_message 7 (Demo.set_document "120")
         = Ok s
         ∧ max_depth s = 7 ∧ total_elements s = 17.
Proof.
  split; [reflexivity |]. split; [reflexivity |].
  eexists. split; [vm_compute; reflexivity |]. by split.
Qed.

(** A document loaded from a file and nested deeper than the frames
    left is reported through the [error] field of its record, once the
    size and the date of the file have been read. *)
Lemma deep_document_is_recorded
    (lower : string → string)
    (float_of_string : string → option float) (path_suffix : string → string)
    (gzip_read : string → result string) (fromstring : string → result Element)
    (format_exc : exn → string) (isoformat : Qc → result string)
    (recursion_message : string) (recursion_budget : nat)
    (stat : string → result stat_result) (path_exists : string → result bool)
    (als_path : string) (root : Element) (facts : nat * option string) :
  file_facts isoformat stat path_exists als_path = Ok facts →
  loaded_document gzip_read fromstring als_path = Some root →
  (recursion_budget < nesting_depth root)%nat →
  ∃ r, analyze_file lower float_of_string path_suffix gzip_read fromstring
         format_exc isoformat recursion_message recursion_budget stat
         path_exists als_path = Ok r
       ∧ error r = Some recursion_message
       ∧ analysis_data r = None.
Proof.
  intros Hfacts Hroot Hdeep.
  pose proof (analyze_file_cases lower float_of_string path_suffix gzip_read
                fromstring format_exc isoformat recursion_message
                recursion_budget stat path_exists als_path) as Hcases.
  rewrite Hfacts in Hcases.
  destruct Hcases as (r & Hr & _ & _ & _ & Herr & _ & Hdata).
  exists r. split; [exact Hr |].
  assert (load_failure gzip_read fromstring recursion_message recursion_budget
            als_path = Some (RecursionError recursion_message)) as Hfail.
  { unfold load_failure, loaded_document in *.
    destruct (gzip_read als_path) as [xml_data|]; [| done].
    destruct (fromstring xml_data) as [root'|]; [| done].
    injection Hroot as ->.
    unfold _analyze_structure. by rewrite top_level_overflows. }
  rewrite Hfail in Herr, Hdata. by split.
Qed.

Lemma structure_depth_of_chain (message : string) (bound : nat) :
  _analyze_structure message bound (mkElement "Ableton" ∅ None [chain bound]) =
  Raise (RecursionError message).
Proof.
  unfold _analyze_structure. apply top_level_overflows.
  simpl. rewrite height_chain. lia.
Qed.

(** C9, as the design document states it, fails: no number of frames
    is enough for every document. Whatever the bound, the document
    that nests one group more than the bound exhausts it. *)
Lemma bounded_stack_counterexample :
  ¬ (∃ message bound, ∀ root, ∃ s, _analyze_structure message bound root = Ok s).
Proof.
  intros (message & bound & Hall).
  destruct (Hall (mkElement "Ableton" ∅ None [chain bound])) as (s & Hs).
  rewrite structure_depth_of_chain in Hs. discriminate.
Qed.


(** ** Backup discovery *)

Lemma insert_newest_first_head (x y : Qc * string) (l : list (Qc * string)) :
  HdRel by_key_descending y l → by_key_descending y x →
  HdRel by_key_descending y (insert_newest_first x l).
Proof.
  intros Hl Hx. destruct l as [|z l]; simpl; [by constructor |].
  destruct (decide (x.1 < z.1)%Qc); constructor; [| exact Hx].
  by inversion Hl.
Qed.

Lemma insert_newest_first_sorted (x : Qc * string) (l : list (Qc * string)) :
  Sorted by_key_descending l →
  Sorted by_key_descending (insert_newest_first x l).
Proof.
  induction 1 as [|y l Hl IH Hy]; simpl; [by repeat constructor |].
  destruct (decide (x.1 < y.1)%Qc) as [Hlt|Hge].
  - constructor; [exact IH |].
    apply insert_newest_first_head; [exact Hy |].
    by apply Qclt_le_weak.
  - constructor; [by constructor |]. constructor.
    by apply Qcnot_lt_le.
Qed.

Lemma sort_newest_first_sorted (l : list (Qc * string)) :
  Sorted by_key_descending (sort_newest_first l).
Proof.
  induction l as [|x l IH]; simpl; [constructor |].
  by apply insert_newest_first_sorted.
Qed.

Lemma insert_newest_first_perm (x : Qc * string) (l : list (Qc * string)) :
  Permutation (insert_newest_first x l) (x :: l).
Proof.
  induction l as [|y l IH]; simpl; [done |].
  destruct (decide (x.1 < y.1)%Qc); [| done].
  rewrite IH. apply perm_swap.
Qed.

Lemma sort_newest_first_perm (l : list (Qc * string)) :
  Permutation (sort_newest_first l) l.
Proof.
  induction l as [|x l IH]; simpl; [done |].
  by rewrite insert_newest_first_perm, IH.
Qed.

Section Backups.

Variable lower : string → string.
Variable float_of_string : string → option float.
Variable path_suffix : string → string.
Variable gzip_read : string → result string.
Variable fromstring : string → result Element.
Variable format_exc : exn → string.
Variable isoformat : Qc → result string.
Variable recursion_message : string.
Variable recursion_budget : nat.
Variable stat : string → result stat_result.
Variable path_exists : string → result bool.
Variable is_file : string → result bool.
Variable parent : string → string.
Variable name_of : string → string.
Variable joinpath : string → string → string.
Variable glob_als : string → result (list string).
Variable rglob_als : string → result (list string).

Local Abbreviation analyze :=
  (analyze_file lower float_of_string path_suffix gzip_read fromstring format_exc
     isoformat recursion_message recursion_budget stat path_exists).
Local Abbreviation candidates :=
  (backup_candidates lower path_exists is_file parent name_of joinpath glob_als
     rglob_als).
Local Abbreviation find_backups :=
  (find_backup_files lower stat path_exists is_file parent name_of joinpath
     glob_als rglob_als).
Local Abbreviation recent := (newest_first stat).
Local Abbreviation dated := (keyed_by_mtime stat).
Local Abbreviation analyze_folder :=
  (analyze_project lower float_of_string path_suffix gzip_read fromstring
     format_exc isoformat recursion_message recursion_budget stat path_exists
     is_file parent name_of joinpath glob_als rglob_als).

(** The keys of the sort: each path is paired with the modification
    time the filesystem reports for it, and reading the keys fails
    exactly when [stat] fails for one of the paths. *)
Lemma with_keys_loop (paths : list string) (acc : list (Qc * string)) :
  match foldM (λ keyed p, k ← mtime_key stat p; Ok (keyed ++ [(k, p)]))
              paths acc with
  | Ok keyed =>
      ∃ new, keyed = acc ++ new ∧ map snd new = paths
             ∧ Forall dated new
  | Raise e => Exists (λ p, stat p = Raise e) paths
  end.
Proof.
  revert acc. induction paths as [|p paths IH]; intros acc.
  - exists []. by rewrite app_nil_r.
  - rewrite foldM_cons. destruct (stat p) as [st|e] eqn:Hst.
    + assert (mtime_key stat p = Ok (st_mtime st)) as Hk
        by (unfold mtime_key; by rewrite Hst).
      rewrite Hk. simpl.
      specialize (IH (acc ++ [(st_mtime st, p)])). revert IH.
      destruct (foldM _ paths _) as [keyed|e]; intros IH.
      * destruct IH as (new & -> & Hpaths & Hkeys).
        exists ((st_mtime st, p) :: new). rewrite <- app_assoc. simpl.
        split; [done |]. split; [by rewrite Hpaths |].
        constructor; [by exists st | exact Hkeys].
      * by apply Exists_cons_tl.
    + assert (mtime_key stat p = Raise e) as Hk
        by (unfold mtime_key; by rewrite Hst).
      rewrite Hk. simpl. by apply Exists_cons_hd.
Qed.

Lemma sorted_paths_of_sorted_keys (l : list (Qc * string)) :
  Forall dated l → Sorted by_key_descending l →
  Sorted recent (map snd l).
Proof.
  intros Hkeys Hsorted.
  induction Hsorted as [|x l Hl IH Hx]; simpl; [constructor |].
  apply Forall_cons in Hkeys as [Hxk Hlk].
  constructor; [by apply IH |].
  destruct Hx as [|y l Hxy]; simpl; constructor.
  apply Forall_cons in Hlk as [Hyk _].
  destruct Hxk as (sx & Hsx & Hx1). destruct Hyk as (sy & Hsy & Hy1).
  exists sx, sy. split; [exact Hsx |]. split; [exact Hsy |].
  rewrite Hx1, Hy1. exact Hxy.
Qed.

(** [find_backup_files]: what it returns is what discovery listed, put
    in order; it raises when discovery does, or when the modification
    time of a listed file cannot be read. *)
Lemma find_backup_files_spec (project_path : string) :
  match find_backups project_path with
  | Ok backups =>
      Sorted recent backups
      ∧ ∃ found, candidates project_path = Ok found
                 ∧ Permutation backups found
  | Raise e =>
      candidates project_path = Raise e
      ∨ ∃ found, candidates project_path = Ok found
                 ∧ Exists (λ p, stat p = Raise e) found
  end.
Proof.
  unfold find_backup_files.
  destruct (candidates project_path) as [found|e]; simpl; [| by left].
  unfold with_keys.
  pose proof (with_keys_loop found []) as Hkeys. revert Hkeys.
  destruct (foldM _ found []) as [keyed|e]; simpl; intros Hkeys.
  - destruct Hkeys as (new & Hnew & Hpaths & Hk). simpl in Hnew. subst new.
    split.
    + apply sorted_paths_of_sorted_keys; [| apply sort_newest_first_sorted].
      eapply Permutation_Forall; [| exact Hk].
      symmetry. apply sort_newest_first_perm.
    + exists found. split; [done |].
      rewrite <- Hpaths. apply Permutation_map, sort_newest_first_perm.
  - right. by exists found.
Qed.

(** The loop of [analyze_project] over the backups: one record per
    backup file, in the order of the files, each the analysis of its
    file; the loop raises when the analysis of a backup does. *)
Lemma backup_analyses_loop (backups : list string) (done : list analysis) :
  match foldM (λ done backup, a ← analyze backup; Ok (done ++ [a]))
              backups done with
  | Ok all =>
      ∃ new, all = done ++ new
             ∧ Forall2 (λ f a, analyze f = Ok a) backups new
  | Raise e => Exists (λ f, analyze f = Raise e) backups
  end.
Proof.
  revert done. induction backups as [|b backups IH]; intros done.
  - exists []. split; [by rewrite app_nil_r | constructor].
  - rewrite foldM_cons. destruct (analyze b) as [r|e] eqn:Hr; simpl.
    + specialize (IH (done ++ [r])). revert IH.
      destruct (foldM _ backups _) as [all|e]; intros IH.
      * destruct IH as (new & -> & Hnew). exists (r :: new).
        rewrite <- app_assoc. split; [done |]. by constructor.
      * by apply Exists_cons_tl.
    + by apply Exists_cons_hd.
Qed.

Lemma analyses_keep_paths (files : list string) (records : list analysis) :
  Forall2 (λ f a, analyze f = Ok a) files records →
  map file_path records = files.
Proof.
  induction 1 as [|f a files records Ha _ IH]; [done |].
  simpl. rewrite IH.
  destruct (analyze_file_returned lower float_of_string path_suffix gzip_read
              fromstring format_exc isoformat recursion_message
              recursion_budget stat path_exists f a Ha) as (-> & _).
  done.
Qed.

(** What [analyze_project] returned: the backups are the ones
    [find_backup_files] returns, each paired with its own analysis. *)
Lemma analyze_project_backups (self_main_file : option string)
    (project_path : string) (results : project_results) :
  analyze_folder self_main_file project_path = Ok results →
  find_backups project_path = Ok (backup_files results)
  ∧ Forall2 (λ f a, analyze f = Ok a)
      (backup_files results) (backup_analyses results).
Proof.
  unfold analyze_project.
  destruct (choose_main_file _ _ _ _ _ _ _ _ _ _) as [[project_dir main]|e];
    simpl; [| done].
  match goal with
  | |- context [mbind _ ?m] =>
      match type of m with
      | result (option analysis) => destruct m as [main_an|e]
      end
  end; simpl; [| done].
  destruct (find_backups project_path) as [backups|e]; simpl; [| done].
  pose proof (backup_analyses_loop backups []) as Hloop. revert Hloop.
  destruct (foldM _ backups []) as [all|e]; simpl; [| done].
  intros (new & -> & Hnew) [= <-]. by split.
Qed.

(** C8: the backup set returned by backup discovery is ordered by
    recency. [find_backup_files] returns the files it discovered (a
    permutation of what discovery listed) in an order in which the
    modification time reported by the filesystem never increases from
    one file to the next, and it raises only when discovery does or
    when the modification time of a discovered file cannot be read;
    [analyze_project] analyzes the files in that order, so the sequence
    of backup records it returns is sorted the same way. *)
Theorem backups_newest_first (project_path : string) :
  match find_backups project_path with
  | Ok backups =>
      Sorted recent backups
      ∧ ∃ found, candidates project_path = Ok found
                 ∧ Permutation backups found
  | Raise e =>
      candidates project_path = Raise e
      ∨ ∃ found, candidates project_path = Ok found
                 ∧ Exists (λ p, stat p = Raise e) found
  end
  ∧ ∀ self_main_file results,
      analyze_folder self_main_file project_path = Ok results →
      find_backups project_path = Ok (backup_files results)
      ∧ Sorted recent (backup_files results)
      ∧ map file_path (backup_analyses results) = backup_files results.
Proof.
  split; [apply find_backup_files_spec |].
  intros self_main_file results Hresults.
  destruct (analyze_project_backups _ _ _ Hresults) as [Hfind Hpairs].
  split; [exact Hfind |]. split; [| by apply analyses_keep_paths].
  pose proof (find_backup_files_spec project_path) as Hspec.
  rewrite Hfind in Hspec. by destruct Hspec.
Qed.

End Backups.

(** On the demo folder: the March backup comes before the February
    one, though discovery lists February first, and the records of
    the folder come in that order. *)
Lemma backups_newest_first_witness :
  backup_candidates Demo.lower Demo.path_exists Demo.is_file Demo.parent
    Demo.name_of Demo.joinpath Demo.glob_als Demo.rglob_als "Song/Song.als" =
    Ok [ "Song/Backup/Song [2024-02-01].als";
         "Song/Backup/Song [2024-03-01].als" ]
  ∧ Demo.find_backups "Song/Song.als" =
      Ok [ "Song/Backup/Song [2024-03-01].als";
           "Song/Backup/Song [2024-02-01].als" ]
  ∧ Sorted (newest_first Demo.stat)
      [ "Song/Backup/Song [2024-03-01].als";
        "Song/Backup/Song [2024-02-01].als" ].
Proof.
  split; [vm_compute; reflexivity |].
  assert (Demo.find_backups "Song/Song.als" =
          Ok [ "Song/Backup/Song [2024-03-01].als";
               "Song/Backup/Song [2024-02-01].als" ]) as Hfind
    by (vm_compute; reflexivity).
  split; [exact Hfind |].
  pose proof (backups_newest_first Demo.lower Demo.float_of_string
                Demo.path_suffix Demo.gzip_read Demo.fromstring
                Demo.format_exc Demo.isoformat Demo.recursion_message
                Demo.recursion_budget Demo.stat Demo.path_exists Demo.is_file
                Demo.parent Demo.name_of Demo.joinpath Demo.glob_als
                Demo.rglob_als "Song/Song.als") as [Hsorted _].
  unfold Demo.find_backups in Hfind. rewrite Hfind in Hsorted.
  exact (proj1 Hsorted).
Defined.

(** ** Resolution of textual values *)

Lemma or_resolved_value (e : Element) :
  Py.or_ (get e "Value") (text e) = resolved_value e.
Proof.
  unfold Py.or_, resolved_value, Py.truthy_opt.
  destruct (get e "Value") as [v|]; [| done]. by destruct (Py.truthy v).
Qed.

Lemma resolved_value_spec (e : Element) :
  get e "Value" ≠ Some "" → resolved_value e = spec_text_value e.
Proof.
  unfold resolved_value, spec_text_value.
  destruct (get e "Value") as [[|c v]|]; done.
Qed.

Lemma truthy_strip (v : string) :
  Py.truthy v && Py.truthy (Py.strip v) = Py.truthy (Py.strip v).
Proof. by destruct v. Qed.

Section ValueLoops.
Context {A B : Type}.

(** A loop that overwrites a slot whenever an item yields a value
    leaves the last value yielded. *)
Lemma loop_last_wins (step : option A → B → option A) (cand : B → option A)
    (xs : list B) (a : option A) :
  (∀ a x, step a x = match cand x with Some v => Some v | None => a end) →
  fold_left step xs a =
  match last (omap cand xs) with Some v => Some v | None => a end.
Proof.
  intros Hstep. revert a.
  induction xs as [|x xs IH] using rev_ind; intros a; [done |].
  rewrite fold_left_app, omap_app. simpl. rewrite Hstep.
  destruct (cand x) as [v|]; simpl.
  - by rewrite last_snoc.
  - by rewrite app_nil_r, IH.
Qed.

(** A loop that appends whatever each item yields collects the
    yields in order. *)
Lemma loop_collects {S : Type} (step : S → B → S) (names : S → list A)
    (cand : B → option A) (xs : list B) (s : S) :
  (∀ s x, names (step s x) = names s ++ option_list (cand x)) →
  names (fold_left step xs s) = names s ++ omap cand xs.
Proof.
  intros Hstep. revert s.
  induction xs as [|x xs IH]; intros s; simpl; [by rewrite app_nil_r |].
  rewrite IH, Hstep, <- app_assoc. by destruct (cand x).
Qed.

End ValueLoops.

Lemma track_name_loop_spec (elems : list Element) :
  track_name_loop elems = head (omap track_name_candidate elems).
Proof.
  induction elems as [|e elems IH]; [done |].
  simpl. unfold track_name_candidate at 1.
  destruct (Py.contains "Name" (tag e) || Py.contains "UserName" (tag e));
    [| exact IH].
  rewrite or_resolved_value. unfold nonblank.
  destruct (resolved_value e) as [v|]; [| exact IH].
  rewrite truthy_strip. by destruct (Py.truthy (Py.strip v)).
Qed.

Lemma clip_name_loop_spec (elems : list Element) :
  clip_name_loop elems = head (omap clip_name_candidate elems).
Proof.
  induction elems as [|e elems IH]; [done |].
  simpl. unfold clip_name_candidate at 1.
  destruct (Py.contains "Name" (tag e)); [| exact IH].
  rewrite or_resolved_value. unfold nonblank.
  destruct (resolved_value e) as [v|]; [| exact IH].
  rewrite truthy_strip. by destruct (Py.truthy (Py.strip v)).
Qed.

Lemma scene_name_loop_spec (elems : list Element) :
  scene_name_loop elems =
  head (List.filter (λ n, Py.contains "Name" (tag n)) elems) ≫= resolved_value.
Proof.
  induction elems as [|e elems IH]; [done |].
  simpl. destruct (Py.contains "Name" (tag e)); [| exact IH].
  simpl. apply or_resolved_value.
Qed.

Lemma clip_names_spec (root : Element) :
  clip_names (_extract_clips root) = omap clip_name_of (iter root).
Proof.
  unfold _extract_clips.
  rewrite (loop_collects clips_step clip_names clip_name_of); [done |].
  intros c e. unfold clips_step, clip_name_of. simpl.
  destruct (Py.contains "Clip" (local_name (tag e))); [| by rewrite app_nil_r].
  rewrite clip_name_loop_spec.
  by destruct (head (omap clip_name_candidate (iter e))); rewrite ?app_nil_r.
Qed.

Section ProjectInfo.
Variable float_of_string : string → option float.

Lemma scenes_spec (root : Element) :
  scenes (_extract_project_info float_of_string root) =
  omap scene_name_of (iter root).
Proof.
  simpl.
  rewrite (loop_collects scenes_step fst scene_name_of); [done |].
  intros acc e. unfold scenes_step, scene_name_of.
  destruct (Py.contains "Scene" (tag e)); [| by rewrite app_nil_r].
  rewrite scene_name_loop_spec.
  destruct (head _ ≫= resolved_value) as [n|]; simpl; [| by rewrite app_nil_r].
  by destruct (Py.truthy n); simpl; rewrite ?app_nil_r.
Qed.

Lemma annotation_spec (root : Element) :
  annotation (_extract_project_info float_of_string root) =
  last (omap annotation_candidate (iter root)).
Proof.
  simpl. rewrite (loop_last_wins annotation_step annotation_candidate).
  - by destruct (last _).
  - intros a e. unfold annotation_step, annotation_candidate.
    destruct (Py.contains "Annotation" (tag e)); [| done].
    rewrite or_resolved_value. unfold nonempty, Py.truthy_opt.
    destruct (resolved_value e) as [v|]; [| done]. by destruct (Py.truthy v).
Qed.

Lemma tempo_spec (root : Element) :
  tempo (_extract_project_info float_of_string root) =
  last (omap (tempo_candidate float_of_string) (iter root)).
Proof.
  simpl.
  rewrite (loop_last_wins (tempo_step float_of_string)
             (tempo_candidate float_of_string)).
  - by destruct (last _).
  - intros a e. unfold tempo_step, tempo_candidate.
    destruct (Py.contains "Tempo" (tag e)); [| done].
    destruct (find_descendant "Manual" e) as [manual|]; [| done]. simpl.
    destruct (get manual "Value") as [v|]; [| done]. simpl.
    destruct (Py.truthy v); [| done]. by destruct (float_of_string v).
Qed.

(** C5, as the code has it: for annotation, track name, clip name and
    scene name, the textual value of an element is its [Value]
    attribute if present and non-empty, else its text content, else
    absent (which is the design document's rule whenever the [Value]
    attribute is not the empty string); names are taken from the first
    suitable element and annotations from the last. Tempo is read from
    the [Value] attribute of the [Manual] element only. *)
Theorem value_resolution (root : Element) :
  (∀ e, Py.or_ (get e "Value") (text e) = resolved_value e)
  ∧ (∀ e, get e "Value" ≠ Some "" → resolved_value e = spec_text_value e)
  ∧ annotation (_extract_project_info float_of_string root) =
      last (omap annotation_candidate (iter root))
  ∧ (∀ track kind,
       track_name (_extract_track_info track kind) =
       head (omap track_name_candidate (iter track)))
  ∧ clip_names (_extract_clips root) = omap clip_name_of (iter root)
  ∧ scenes (_extract_project_info float_of_string root) =
      omap scene_name_of (iter root)
  ∧ tempo (_extract_project_info float_of_string root) =
      last (omap (tempo_candidate float_of_string) (iter root)).
Proof.
  split; [exact or_resolved_value |].
  split; [exact resolved_value_spec |].
  split; [exact (annotation_spec root) |].
  split; [intros track kind; apply track_name_loop_spec |].
  split; [exact (clip_names_spec root) |].
  split; [exact (scenes_spec root) | exact (tempo_spec root)].
Qed.

End ProjectInfo.

(** C5, as the design document states it, fails twice on
    [Demo.text_only_document]. The tempo is the text of [Manual]: the
    stated rule resolves it to a string that parses, and the code
    reports no tempo. The annotation has an empty [Value] attribute:
    the stated rule resolves it to the empty string, and the code
    reports the text. *)
Lemma uniform_value_rule_counterexample :
  find_descendant "Manual" Demo.text_only_document =
    Some (Demo.with_text "Manual" "120")
  ∧ spec_text_value (Demo.with_text "Manual" "120") = Some "120"
  ∧ Demo.float_of_string "120" = Some 120%float
  ∧ tempo (data_project_info (Demo.extract Demo.text_only_document)) = None
  ∧ spec_text_value
      (mkElement "Annotation" {[ "Value" := "" ]} (Some "rough mix") []) = Some ""
  ∧ annotation (data_project_info (Demo.extract Demo.text_only_document)) =
      Some "rough mix".
Proof. repeat split; vm_compute; reflexivity. Qed.

(** ** The whole pipeline on the demo folder *)

(** Analyzing the folder [Song] picks [Song/Song.als] as the main
    file, lists the March backup before the February one, and reports
    one tempo change, against the February backup. *)
Example demo_project :
  ∃ results,
    Demo.analyze_folder None "Song" = Ok results
    ∧ main_file results = Some "Song/Song.als"
    ∧ map file_path (backup_analyses results) =
        [ "Song/Backup/Song [2024-03-01].als";
          "Song/Backup/Song [2024-02-01].als" ]
    ∧ (timing_changes <$> comparison_result results) =
        Some [ {| timing_change_backup := "Song/Backup/Song [2024-02-01].als";
                  change_tempo := 125%float; change_main_tempo := 120%float |} ]
    ∧ (track_changes <$> comparison_result results) = Some [].
Proof.
  eexists. split; [vm_compute; reflexivity |]. repeat split.
Qed.

(** * Further properties of the analyzer *)

(** ** Stripping *)

Section DropSpaces.

Variable width : list ascii → nat.
Hypothesis width_nil : width [] = 0.

(** What is left has no whitespace character in front. *)
Lemma drop_spaces_width (skip : nat) (s : list ascii) :
  width (Py.drop_spaces width skip s) = 0.
Proof.
  revert skip. induction s as [|c rest IH]; intros skip; [exact width_nil |].
  cbn [Py.drop_spaces]. destruct skip as [|k]; [| apply IH].
  destruct (width (c :: rest)) as [|k] eqn:Hw; [exact Hw | apply IH].
Qed.

(** What is left is the end of the text. *)
Lemma drop_spaces_suffix (skip : nat) (s : list ascii) :
  Py.drop_spaces width skip s `suffix_of` s.
Proof.
  revert skip. induction s as [|c rest IH]; intros skip; [done |].
  cbn [Py.drop_spaces]. destruct skip as [|k].
  - destruct (width (c :: rest)) as [|k]; [done |].
    by apply suffix_cons_r.
  - by apply suffix_cons_r.
Qed.

End DropSpaces.

(** The decision trees of [space_width] and [space_width_end] see
    every whitespace character. *)
Lemma whitespace_starts :
  Forall (λ w, ∀ k, Py.space_width (w ++ k) ≠ 0) whitespace.
Proof.
  unfold whitespace.
  repeat (constructor; [intros k; vm_compute; discriminate |]). constructor.
Qed.

Lemma whitespace_ends :
  Forall (λ w, ∀ k, Py.space_width_end (rev w ++ k) ≠ 0) whitespace.
Proof.
  unfold whitespace.
  repeat (constructor; [intros k; vm_compute; discriminate |]). constructor.
Qed.

Lemma whitespace_dropped :
  Forall (λ w, ∀ k, Py.drop_spaces Py.space_width 0 (w ++ k) =
                    Py.drop_spaces Py.space_width 0 k) whitespace.
Proof.
  unfold whitespace.
  repeat (constructor; [intros k; reflexivity |]). constructor.
Qed.

(** A stripped text that is not empty is trimmed. *)
Lemma strip_trimmed (v : string) : Py.strip v ≠ "" → trimmed (Py.strip v).
Proof.
  intros Hne. split; [exact Hne |].
  unfold Py.strip, Py.rstrip, Py.lstrip.
  rewrite !list_ascii_of_string_of_list_ascii.
  set (front := Py.drop_spaces Py.space_width 0 (list_ascii_of_string v)).
  set (back := Py.drop_spaces Py.space_width_end 0 (rev front)).
  destruct (drop_spaces_suffix Py.space_width_end 0 (rev front)) as [p Hp].
  fold back in Hp.
  assert (front = rev back ++ rev p) as Hfront.
  { rewrite <- rev_app_distr, <- Hp. by rewrite rev_involutive. }
  apply Forall_forall. intros w Hw. split.
  - intros [k Hk].
    pose proof (drop_spaces_width Py.space_width eq_refl 0
                  (list_ascii_of_string v)) as Hzero.
    fold front in Hzero. rewrite Hfront, Hk, <- app_assoc in Hzero.
    revert Hzero. pose proof whitespace_starts as Hall.
    rewrite Forall_forall in Hall. by apply Hall.
  - intros [k Hk].
    pose proof (drop_spaces_width Py.space_width_end eq_refl 0 (rev front))
      as Hzero.
    fold back in Hzero.
    assert (back = rev w ++ rev k) as Hback.
    { rewrite <- rev_app_distr, <- Hk. by rewrite rev_involutive. }
    rewrite Hback in Hzero.
    revert Hzero. pose proof whitespace_ends as Hall.
    rewrite Forall_forall in Hall. by apply Hall.
Qed.

(** A text of whitespace only is stripped to nothing. *)
Lemma strip_blank (s : string) : blank s → Py.strip s = "".
Proof.
  intros (ws & Hws & Hs).
  assert (Py.lstrip s = "") as Hl.
  { unfold Py.lstrip. rewrite Hs. clear Hs.
    induction Hws as [|w ws Hw _ IH]; [done |].
    simpl concat. pose proof whitespace_dropped as Hall.
    rewrite Forall_forall in Hall. by rewrite (Hall w Hw). }
  unfold Py.strip. by rewrite Hl.
Qed.

Lemma nonblank_trimmed (o : option string) (n : string) :
  nonblank o = Some n → trimmed n.
Proof.
  unfold nonblank. destruct o as [v|]; [| done].
  destruct (Py.truthy (Py.strip v)) eqn:Hv; [| done].
  intros [= <-]. apply strip_trimmed. by destruct (Py.strip v).
Qed.

Lemma head_omap_Some {A B} (f : A → option B) (l : list A) (b : B) :
  head (omap f l) = Some b → ∃ a, a ∈ l ∧ f a = Some b.
Proof.
  induction l as [|a l IH]; [done |].
  simpl. destruct (f a) as [b'|] eqn:Hf.
  - intros [= <-]. exists a. split; [left | done].
  - intros H. destruct (IH H) as (a' & Ha' & Hfa'). exists a'.
    split; [by right | done].
Qed.

(** Items that yield a value are among the items selected by any
    test that every yielding item passes. *)
Lemma omap_length_filter {A B} (f : A → option B) (p : A → bool) (l : list A) :
  (∀ a b, f a = Some b → p a = true) →
  (length (omap f l) ≤ length (List.filter p l))%nat.
Proof.
  intros Hfp. induction l as [|a l IH]; [done |].
  cbn [omap list_omap List.filter].
  destruct (f a) as [b|] eqn:Hf.
  - rewrite (Hfp a b Hf). simpl. lia.
  - destruct (p a); simpl; lia.
Qed.

(** X1: the name [_extract_track_info] gives a track, when it gives
    one, is not empty, and no whitespace character (of the ASCII range
    or beyond it) stands at its start or at its end. *)
Theorem track_name_trimmed (track : Element) (kind n : string) :
  track_name (_extract_track_info track kind) = Some n → trimmed n.
Proof.
  simpl. rewrite track_name_loop_spec. intros H.
  destruct (head_omap_Some _ _ _ H) as (e & _ & He).
  unfold track_name_candidate in He.
  destruct (_ || _); [| done]. by apply nonblank_trimmed in He.
Qed.

(** A track whose name is written [" Drums "] in the file. *)
Lemma track_name_trimmed_witness :
  track_name
    (_extract_track_info
       (Demo.node "AudioTrack"
          [Demo.node "Name" [Demo.valued "EffectiveName" " Drums "]])
       "audio") = Some "Drums"
  ∧ trimmed "Drums".
Proof.
  split; [reflexivity |].
  apply (track_name_trimmed
           (Demo.node "AudioTrack"
              [Demo.node "Name" [Demo.valued "EffectiveName" " Drums "]])
           "audio" "Drums").
  reflexivity.
Defined.

(** X2: every name in [clip_names] is not empty and has no whitespace
    character (of the ASCII range or beyond it) at its start or at its
    end, and there are no more names than clip-like elements. *)
Theorem clip_names_trimmed (root : Element) :
  Forall trimmed (clip_names (_extract_clips root))
  ∧ (length (clip_names (_extract_clips root))
     ≤ length (List.filter is_clip_like (iter root)))%nat.
Proof.
  rewrite clip_names_spec. split.
  - apply Forall_forall. intros n Hn.
    apply list_elem_of_omap in Hn as (e & _ & He).
    unfold clip_name_of in He. destruct (Py.contains "Clip" _); [| done].
    destruct (head_omap_Some _ _ _ He) as (ne & _ & Hne).
    unfold clip_name_candidate in Hne.
    destruct (Py.contains "Name" _); [| done]. by apply nonblank_trimmed in Hne.
  - apply omap_length_filter. intros e n. unfold clip_name_of, is_clip_like.
    by destruct (Py.contains "Clip" _).
Qed.

(** ** Partitions of the path lists *)

Section FurtherBuckets.

Variable lower : string → string.

Lemma truthy_nonempty (s : string) : Py.truthy s = true → s ≠ "".
Proof. by destruct s. Qed.

(** X3: in the samples bucket, [absolute_paths] and [relative_paths]
    split [sample_paths] without reordering: the absolute ones are the
    paths that start with a slash or contain a colon, the relative
    ones are all the others; no listed path is empty. *)
Theorem samples_partition (root : Element) :
  let s := _extract_samples root in
  absolute_paths s = List.filter is_absolute_sample (sample_paths s)
  ∧ relative_paths s =
      List.filter (λ p, negb (is_absolute_sample p)) (sample_paths s)
  ∧ Forall (λ p, p ≠ "") (sample_paths s).
Proof.
  set (inv := λ s : samples,
         absolute_paths s = List.filter is_absolute_sample (sample_paths s)
         ∧ relative_paths s =
             List.filter (λ p, negb (is_absolute_sample p)) (sample_paths s)
         ∧ Forall (λ p, p ≠ "") (sample_paths s)).
  assert (Hchild : ∀ s c, inv s → inv (sample_child_step s c)).
  { intros s c (Ha & Hr & Hn). unfold inv, sample_child_step.
    destruct (_ || _); [| done].
    destruct (Py.or_ (get c "Value") (text c)) as [v|]; [| done].
    destruct (Py.truthy v) eqn:Hv; [| done]. cbn [absolute_paths
      relative_paths sample_paths].
    rewrite !List.filter_app, Ha, Hr. cbn [List.filter].
    fold (is_absolute_sample v).
    split; [| split].
    - by destruct (is_absolute_sample v); rewrite ?app_nil_r.
    - by destruct (is_absolute_sample v); rewrite ?app_nil_r.
    - apply Forall_app. split; [exact Hn |].
      constructor; [by apply truthy_nonempty | constructor]. }
  apply (loop_invariant samples_step inv); [by repeat split |].
  intros s e Hs. unfold samples_step.
  destruct (is_sample_ref_tag _); [| done].
  by apply (loop_invariant sample_child_step inv).
Qed.

(** X4: in the file-references bucket, [absolute_paths] and
    [relative_paths] split [all_paths] without reordering: the
    absolute ones start with a slash or have a colon as their second
    character; no listed path is made of whitespace only. *)
Theorem file_references_partition (path_suffix : string → string)
    (root : Element) :
  let f := _extract_file_references lower path_suffix root in
  file_absolute_paths f = List.filter is_absolute_reference (all_paths f)
  ∧ file_relative_paths f =
      List.filter (λ p, negb (is_absolute_reference p)) (all_paths f)
  ∧ Forall (λ p, ¬ blank p) (all_paths f).
Proof.
  set (inv := λ f : file_references,
         file_absolute_paths f = List.filter is_absolute_reference (all_paths f)
         ∧ file_relative_paths f =
             List.filter (λ p, negb (is_absolute_reference p)) (all_paths f)
         ∧ Forall (λ p, ¬ blank p) (all_paths f)).
  assert (Hchild : ∀ f c, inv f → inv (file_ref_child_step lower path_suffix f c)).
  { intros f c (Ha & Hr & Hn). unfold inv, file_ref_child_step.
    destruct (_ || _); [| done].
    destruct (Py.or_ (get c "Value") (text c)) as [v|]; [| done].
    destruct (Py.truthy v && Py.truthy (Py.strip v)) eqn:Hv; [| done].
    apply andb_true_iff in Hv as [_ Hv].
    cbn [file_absolute_paths file_relative_paths all_paths].
    rewrite !List.filter_app, Ha, Hr. cbn [List.filter].
    fold (is_absolute_reference v).
    split; [| split].
    - by destruct (is_absolute_reference v); rewrite ?app_nil_r.
    - by destruct (is_absolute_reference v); rewrite ?app_nil_r.
    - apply Forall_app. split; [exact Hn |].
      constructor; [| constructor].
      intros Hblank. apply strip_blank in Hblank. by rewrite Hblank in Hv. }
  apply (loop_invariant (file_references_step lower path_suffix) inv);
    [by repeat split |].
  intros f e Hf. unfold file_references_step.
  by apply (loop_invariant (file_ref_child_step lower path_suffix) inv).
Qed.

(** X5: in the plugins bucket, [vst_plugins] and [au_plugins] are
    disjoint selections of [plugin_paths], in order: the VST ones are
    the paths whose lower-cased form mentions [.vst] or [.dll], the AU
    ones are the paths that are not VST and mention [.component] or
    [.au]; no listed path is empty. *)
Theorem plugins_partition (root : Element) :
  let p := _extract_plugins lower root in
  vst_plugins p = List.filter (is_vst_path lower) (plugin_paths p)
  ∧ au_plugins p = List.filter (is_au_path lower) (plugin_paths p)
  ∧ Forall (λ v, v ≠ "") (plugin_paths p).
Proof.
  set (inv := λ p : plugins,
         vst_plugins p = List.filter (is_vst_path lower) (plugin_paths p)
         ∧ au_plugins p = List.filter (is_au_path lower) (plugin_paths p)
         ∧ Forall (λ v, v ≠ "") (plugin_paths p)).
  assert (Hpath : ∀ p e, inv p → inv (plugin_path_step lower p e)).
  { intros p e (Hv & Ha & Hn). unfold inv, plugin_path_step.
    destruct (Py.contains "Path" (tag e)); [| done].
    destruct (get e "Value") as [v|]; [| done].
    destruct (Py.truthy v) eqn:Ht; [| done].
    cbn [vst_plugins au_plugins plugin_paths].
    rewrite !List.filter_app, Hv, Ha. cbn [List.filter].
    fold (is_vst_path lower v).
    assert (is_au_path lower v =
            negb (is_vst_path lower v)
            && (Py.contains ".component" (lower v)
                || Py.contains ".au" (lower v))) as Hau by done.
    rewrite Hau.
    split; [| split].
    - by destruct (is_vst_path lower v); rewrite ?app_nil_r.
    - destruct (is_vst_path lower v); simpl; [by rewrite app_nil_r |].
      by destruct (_ || _); rewrite ?app_nil_r.
    - apply Forall_app. split; [exact Hn |].
      constructor; [by apply truthy_nonempty | constructor]. }
  apply (loop_invariant (plugins_step lower) inv); [by repeat split |].
  intros p e Hp. unfold plugins_step.
  destruct (is_plugin_tag _); [| done].
  by apply (loop_invariant (plugin_path_step lower) inv).
Qed.

(** ** The clips and devices buckets *)

Lemma audio_clips_spec (root : Element) :
  audio_clips (_extract_clips root) =
  length (List.filter is_audio_clip (iter root)).
Proof.
  unfold _extract_clips.
  rewrite (loop_counter clips_step audio_clips is_audio_clip); [done |].
  intros c e. unfold clips_step, is_audio_clip. simpl.
  destruct (Py.contains "AudioClip" _); lia.
Qed.

Lemma midi_clips_spec (root : Element) :
  midi_clips (_extract_clips root) =
  length (List.filter is_midi_clip (iter root)).
Proof.
  unfold _extract_clips.
  rewrite (loop_counter clips_step midi_clips is_midi_clip); [done |].
  intros c e. unfold clips_step, is_midi_clip, is_audio_clip. simpl.
  destruct (_ && _); lia.
Qed.

(** X6: in the clips bucket, [audio_clips] is the number of elements
    whose local name mentions [AudioClip], [midi_clips] the number of
    those that mention [MidiClip] and not [AudioClip], and [clip_count]
    is their sum. *)
Theorem clip_counts (root : Element) :
  let c := _extract_clips root in
  audio_clips c = length (List.filter is_audio_clip (iter root))
  ∧ midi_clips c = length (List.filter is_midi_clip (iter root))
  ∧ clip_count c = audio_clips c + midi_clips c.
Proof.
  split; [apply audio_clips_spec |].
  split; [apply midi_clips_spec | apply clip_count_spec].
Qed.

Lemma device_types_loop (l : list Element) (d : devices) :
  device_types (fold_left devices_step l d) =
  device_types d ∪
  list_to_set (map (λ e, local_name (tag e)) (List.filter is_device_element l)).
Proof.
  revert d. induction l as [|e l IH]; intros d; simpl.
  - by rewrite (right_id_L ∅ (∪)).
  - rewrite IH. unfold devices_step at 1, is_device_element at 2.
    destruct (is_device_tag (local_name (tag e))); [| done].
    cbn [device_types map]. by rewrite list_to_set_cons, (assoc_L (∪)).
Qed.

Lemma device_types_by_local_name (root : Element) :
  device_types (_extract_devices root) =
  list_to_set (map (λ e, local_name (tag e))
                   (List.filter is_device_element (iter root))).
Proof.
  unfold _extract_devices. rewrite device_types_loop. simpl.
  by rewrite (left_id_L ∅ (∪)).
Qed.

(** X7: in the devices bucket, [device_types] is exactly the set of
    local names of the device elements; every one of them mentions
    [Device], none is [DeviceChain], and there is a type at all
    exactly when [device_count] is not zero. *)
Theorem device_types_spec (root : Element) :
  let d := _extract_devices root in
  device_types d =
    list_to_set (map (λ e, local_name (tag e))
                     (List.filter is_device_element (iter root)))
  ∧ (∀ t, t ∈ device_types d →
          Py.contains "Device" t = true ∧ t ≠ "DeviceChain")
  ∧ (device_types d = ∅ ↔ device_count d = 0).
Proof.
  cbv zeta. rewrite device_types_by_local_name, device_count_spec. split; [done |]. split.
  - intros t Ht. apply elem_of_list_to_set, list_elem_of_fmap in Ht
      as (e & -> & He).
    apply list_elem_of_In, List.filter_In in He as [_ He].
    unfold is_device_element, is_device_tag in He.
    apply andb_true_iff in He as [Hd Hc]. split; [exact Hd |].
    intros Heq. rewrite Heq in Hc. done.
  - destruct (List.filter is_device_element (iter root)) as [|e l]; [done |].
    simpl. split; [| done]. intros Hempty.
    assert (local_name (tag e) ∈ (∅ : gset string)) as Hin
      by (rewrite <- Hempty; apply elem_of_union_l, elem_of_singleton_2;
          reflexivity).
    by apply not_elem_of_empty in Hin.
Qed.

(** ** The automation bucket *)

Lemma prefix_of_longer_needle (a b s : string) :
  String.prefix (a +:+ b) s = true → String.prefix a s = true.
Proof.
  revert s. induction a as [|x a IH]; intros s; [by rewrite prefix_empty |].
  destruct s as [|y s]; simpl; [done |].
  destruct (Ascii.ascii_dec x y); [apply IH | done].
Qed.

(** A string that mentions a word mentions every prefix of the word. *)
Lemma contains_of_longer_needle (a b s : string) :
  Py.contains (a +:+ b) s = true → Py.contains a s = true.
Proof.
  induction s as [|c s IH]; cbn [Py.contains].
  - rewrite !orb_false_r. apply prefix_of_longer_needle.
  - intros [H|H]%orb_true_iff; apply orb_true_iff.
    + left. by apply prefix_of_longer_needle in H.
    + right. by apply IH.
Qed.

Lemma has_automation_loop (l : list Element) (a : automation) :
  has_automation (fold_left automation_step l a) =
  existsb (λ e, Py.contains "Automation" (local_name (tag e))) l
  || has_automation a.
Proof.
  revert a. induction l as [|e l IH]; intros a; simpl; [done |].
  rewrite IH. simpl. by destruct (Py.contains "Automation" _), (existsb _ l).
Qed.

Lemma no_automation_no_word (l : list Element) (word : string) :
  existsb (λ e, Py.contains "Automation" (local_name (tag e))) l = false →
  List.filter
    (λ e, Py.contains ("Automation" +:+ word) (local_name (tag e))) l = [].
Proof.
  induction l as [|e l IH]; [done |].
  cbn [existsb List.filter]. intros [He Hl]%orb_false_iff.
  destruct (Py.contains ("Automation" +:+ word) _) eqn:Hw.
  - apply contains_of_longer_needle in Hw. congruence.
  - by apply IH.
Qed.

Lemma has_automation_spec (root : Element) :
  has_automation (_extract_automation root) =
  existsb (λ e, Py.contains "Automation" (local_name (tag e))) (iter root).
Proof.
  unfold _extract_automation. rewrite has_automation_loop. simpl.
  by rewrite orb_false_r.
Qed.

Lemma automation_lanes_spec (root : Element) :
  automation_lanes (_extract_automation root) =
  length (List.filter
            (λ e, Py.contains "AutomationLane" (local_name (tag e)))
            (iter root)).
Proof.
  unfold _extract_automation.
  rewrite (loop_counter automation_step automation_lanes
             (λ e, Py.contains "AutomationLane" (local_name (tag e))));
    [done |].
  intros a e. simpl. destruct (Py.contains "AutomationLane" _); lia.
Qed.

Lemma automation_points_spec (root : Element) :
  automation_points (_extract_automation root) =
  length (List.filter
            (λ e, Py.contains "AutomationPoint" (local_name (tag e)))
            (iter root)).
Proof.
  unfold _extract_automation.
  rewrite (loop_counter automation_step automation_points
             (λ e, Py.contains "AutomationPoint" (local_name (tag e))));
    [done |].
  intros a e. simpl. destruct (Py.contains "AutomationPoint" _); lia.
Qed.

(** X8: in the automation bucket, [has_automation] tells whether some
    element's local name mentions [Automation], and the two counters
    count the elements that mention [AutomationLane] and
    [AutomationPoint]; so a document reported without automation has
    no lanes and no points. *)
Theorem automation_spec (root : Element) :
  let a := _extract_automation root in
  has_automation a =
    existsb (λ e, Py.contains "Automation" (local_name (tag e))) (iter root)
  ∧ automation_lanes a =
      length (List.filter
                (λ e, Py.contains "AutomationLane" (local_name (tag e)))
                (iter root))
  ∧ automation_points a =
      length (List.filter
                (λ e, Py.contains "AutomationPoint" (local_name (tag e)))
                (iter root))
  ∧ (has_automation a = false →
     automation_lanes a = 0 ∧ automation_points a = 0).
Proof.
  cbv zeta.
  rewrite has_automation_spec, automation_lanes_spec, automation_points_spec.
  split; [done |]. split; [done |]. split; [done |].
  intros Hnone.
  pose proof (no_automation_no_word (iter root) "Lane" Hnone) as Hl.
  pose proof (no_automation_no_word (iter root) "Point" Hnone) as Hp.
  change ("Automation" +:+ "Lane") with "AutomationLane" in Hl.
  change ("Automation" +:+ "Point") with "AutomationPoint" in Hp.
  by rewrite Hl, Hp.
Qed.

(** ** The export bucket *)

(** X9: in the export bucket, an [export_directory], when there is
    one, is the value stored in [render_settings] under some key that
    mentions [path], [dir] or [folder]; and no render setting is
    empty. *)
Theorem export_directory_is_a_setting (root : Element) :
  let x := _extract_export_info lower root in
  (∀ v, export_directory x = Some v →
        ∃ key, is_directory_key lower key = true
               ∧ render_settings x !! key = Some v)
  ∧ (∀ key v, render_settings x !! key = Some v → v ≠ "").
Proof.
  set (inv := λ x : export_info,
         (∀ v, export_directory x = Some v →
               ∃ key, is_directory_key lower key = true
                      ∧ render_settings x !! key = Some v)
         ∧ (∀ key v, render_settings x !! key = Some v → v ≠ "")).
  assert (Hchild : ∀ x c, inv x → inv (render_child_step lower x c)).
  { intros x c [Hdir Hvals]. unfold inv, render_child_step.
    destruct (Py.or_ (get c "Value") (text c)) as [value|]; [| done].
    destruct (Py.truthy value) eqn:Hv; [| done].
    cbn [export_directory render_settings].
    fold (is_directory_key lower (local_name (tag c))). split.
    - intros v. destruct (is_directory_key lower (local_name (tag c))) eqn:Hk.
      + intros [= <-]. exists (local_name (tag c)).
        by rewrite lookup_insert_eq.
      + intros Hv'. destruct (Hdir v Hv') as (key & Hkey & Hlook).
        exists key. split; [exact Hkey |].
        rewrite lookup_insert_ne; [exact Hlook | congruence].
    - intros key v. destruct (decide (local_name (tag c) = key)) as [->|Hne].
      + rewrite lookup_insert_eq. intros [= <-]. by apply truthy_nonempty.
      + rewrite lookup_insert_ne by exact Hne. apply Hvals. }
  apply (loop_invariant (export_info_step lower) inv); [by split |].
  intros x e Hx. unfold export_info_step. cbv zeta.
  assert (inv (if is_export_log_tag (lower (tag e)) then
                 {| export_logs :=
                      export_logs x ++
                      [ {| log_tag := tag e; log_attributes := attrib e;
                           log_children := log_children_of e |} ];
                    render_settings := render_settings x;
                    export_directory := export_directory x;
                    export_count := export_count x + 1 |}
               else x)) as Hx1 by (by destruct (is_export_log_tag _)).
  destruct (is_render_settings_tag _); [| exact Hx1].
  by apply (loop_invariant (render_child_step lower) inv).
Qed.

(** ** The preferences bucket *)

(** X10: in the preferences bucket, every key of [settings] mentions
    [Settings], every key of [preferences] mentions [Preference] and
    not [Settings]; so no tag is filed under both. *)
Theorem preferences_keys (root : Element) :
  let p := _extract_preferences root in
  (∀ k, is_Some (settings p !! k) → Py.contains "Settings" k = true)
  ∧ (∀ k, is_Some (preferences_ p !! k) →
          Py.contains "Preference" k = true
          ∧ Py.contains "Settings" k = false)
  ∧ dom (settings p) ## dom (preferences_ p).
Proof.
  set (inv := λ p : preferences,
         (∀ k, is_Some (settings p !! k) → Py.contains "Settings" k = true)
         ∧ (∀ k, is_Some (preferences_ p !! k) →
                 Py.contains "Preference" k = true
                 ∧ Py.contains "Settings" k = false)).
  assert (Hinv : inv (_extract_preferences root)).
  { apply (loop_invariant preferences_step inv).
    - split; intros k; simpl; rewrite lookup_empty; by intros [? ?].
    - intros p e [Hs Hp]. unfold inv, preferences_step. cbv zeta.
      destruct (Py.contains "Settings" (local_name (tag e))) eqn:Hset.
      + split; [| exact Hp]. intros k. cbn [settings].
        destruct (decide (local_name (tag e) = k)) as [<-|Hne]; [done |].
        rewrite lookup_insert_ne by exact Hne. apply Hs.
      + destruct (Py.contains "Preference" (local_name (tag e))) eqn:Hpref;
          [| by split].
        split; [exact Hs |]. intros k. cbn [preferences_].
        destruct (decide (local_name (tag e) = k)) as [<-|Hne]; [done |].
        rewrite lookup_insert_ne by exact Hne. apply Hp. }
  destruct Hinv as [Hs Hp]. split; [exact Hs |]. split; [exact Hp |].
  apply elem_of_disjoint. intros k Hks Hkp.
  apply elem_of_dom in Hks, Hkp.
  destruct (Hp k Hkp) as [_ Hno]. rewrite (Hs k Hks) in Hno. done.
Qed.

(** ** The timing bucket *)

(** A slot that every selected item overwrites ends as what the last
    selected item gave it. *)
Lemma loop_last_match {S A B : Type} (step : S → B → S) (slot : S → option A)
    (p : B → bool) (f : B → option A) (xs : list B) (s : S) :
  (∀ s x, slot (step s x) = if p x then f x else slot s) →
  slot (fold_left step xs s) =
  match last (List.filter p xs) with Some x => f x | None => slot s end.
Proof.
  intros Hstep. induction xs as [|x xs IH] using rev_ind; [done |].
  rewrite fold_left_app, last_snoc_filter. simpl. rewrite Hstep.
  by destruct (p x).
Qed.

(** X11: in the timing bucket, each of the four markers is the [Value]
    attribute of the last element whose local name mentions the
    marker's name; if that element has no [Value] attribute the marker
    ends absent, whatever earlier elements carried. *)
Theorem timing_markers (float_of_string : string → option float)
    (root : Element) :
  let t := _extract_timing_info float_of_string root in
  let marker := λ name : string,
    last (List.filter (λ e, Py.contains name (local_name (tag e))) (iter root))
    ≫= λ e, get e "Value" in
  loop_start t = marker "LoopStart"
  ∧ loop_end t = marker "LoopEnd"
  ∧ start_marker t = marker "StartMarker"
  ∧ end_marker t = marker "EndMarker".
Proof.
  cbv zeta. unfold _extract_timing_info.
  rewrite (loop_last_match (timing_info_step float_of_string) loop_start
             (λ e, Py.contains "LoopStart" (local_name (tag e)))
             (λ e, get e "Value")) by done.
  rewrite (loop_last_match (timing_info_step float_of_string) loop_end
             (λ e, Py.contains "LoopEnd" (local_name (tag e)))
             (λ e, get e "Value")) by done.
  rewrite (loop_last_match (timing_info_step float_of_string) start_marker
             (λ e, Py.contains "StartMarker" (local_name (tag e)))
             (λ e, get e "Value")) by done.
  rewrite (loop_last_match (timing_info_step float_of_string) end_marker
             (λ e, Py.contains "EndMarker" (local_name (tag e)))
             (λ e, get e "Value")) by done.
  repeat split; by destruct (last _).
Qed.

End FurtherBuckets.

(** ** The structure pass *)

Lemma count_total_comm (z1 z2 y : nat) : z1 + (z2 + y) = z2 + (z1 + y).
Proof. lia. Qed.

(** Counting one more element adds one to the sum of the counts. *)
Lemma count_total_tally (m : gmap string nat) (e : Element) :
  count_total (tally m e) = S (count_total m).
Proof.
  unfold count_total, tally.
  destruct (m !! local_name (tag e)) as [v|] eqn:Hv; simpl.
  - rewrite <- insert_delete_eq.
    rewrite map_fold_insert_L;
      [| intros; apply count_total_comm | apply lookup_delete_eq].
    rewrite (map_fold_delete_L _ _ _ _ m
               (λ _ _ z1 z2 y _ _ _, count_total_comm z1 z2 y) Hv).
    lia.
  - rewrite map_fold_insert_L;
      [| intros; apply count_total_comm | exact Hv].
    lia.
Qed.

Lemma count_total_loop (l : list Element) (m : gmap string nat) :
  count_total (fold_left tally l m) = count_total m + length l.
Proof.
  revert m. induction l as [|e l IH]; intros m; simpl; [lia |].
  rewrite IH, count_total_tally. lia.
Qed.

Lemma height_le_size (e : Element) : (height e ≤ length (iter e))%nat.
Proof.
  induction e as [t a x cs IH] using Element_induction.
  simpl. apply le_n_S.
  induction IH as [|c cs Hc _ IHcs]; simpl; [lia |].
  rewrite length_app. lia.
Qed.

Lemma nesting_depth_le_size (root : Element) :
  (nesting_depth root ≤ length (descendants root))%nat.
Proof.
  unfold nesting_depth, descendants.
  induction (children root) as [|c cs IH]; simpl; [lia |].
  rewrite length_app. pose proof (height_le_size c). lia.
Qed.

(** X12: whenever the structure pass returns, its numbers agree with
    one another: the per-tag counts add up to [total_elements], there
    is one top-level tag per child of the root, and [max_depth] is at
    most [total_elements] and is zero exactly for a root without
    children. *)
Theorem structure_consistent (message : string) (frames : nat)
    (root : Element) (s : structure) :
  _analyze_structure message frames root = Ok s →
  count_total (element_counts s) = total_elements s
  ∧ length (top_level_elements s) = length (children root)
  ∧ (max_depth s ≤ total_elements s)%nat
  ∧ (max_depth s = 0 ↔ children root = []).
Proof.
  intros Hs.
  destruct (decide (nesting_depth root ≤ frames)%nat) as [Hle|Hgt].
  - unfold _analyze_structure, nesting_depth in *.
    rewrite top_level_returns in Hs by exact Hle.
    injection Hs as <-. simpl.
    rewrite count_total_loop, length_map.
    split; [done |]. split; [done |]. split.
    + apply (nesting_depth_le_size root).
    + destruct (children root) as [|c cs]; [done |].
      simpl. pose proof (height_unfold c). split; [lia | done].
  - unfold _analyze_structure, nesting_depth in *.
    rewrite top_level_overflows in Hs by lia. done.
Qed.

(** The demo set, with frames to spare. *)
Lemma structure_consistent_witness :
  let s := {| top_level_elements := ["LiveSet"];
              element_counts := tag_counts (descendants (Demo.set_document "120"));
              max_depth := 7; total_elements := 17 |} in
  _analyze_structure Demo.recursion_message 900 (Demo.set_document "120") =
    Ok s
  ∧ count_total (element_counts s) = total_elements s
  ∧ length (top_level_elements s) =
      length (children (Demo.set_document "120"))
  ∧ (max_depth s ≤ total_elements s)%nat
  ∧ (max_depth s = 0 ↔ children (Demo.set_document "120") = []).
Proof.
  split; [vm_compute; reflexivity |].
  apply (structure_consistent Demo.recursion_message 900
           (Demo.set_document "120")).
  vm_compute. reflexivity.
Defined.

(** ** The comparator on counts *)

Lemma omap_filter_map {A B} (cand : A → option B) (p : A → bool) (g : A → B)
    (l : list A) :
  (∀ a, cand a = if p a then Some (g a) else None) →
  omap cand l = map g (List.filter p l).
Proof.
  intros Hc. induction l as [|a l IH]; [done |].
  cbn [omap list_omap List.filter]. rewrite Hc.
  destruct (p a); simpl; by rewrite <- IH.
Qed.

(** X13: the comparator lists, in the order of the backups, exactly
    the backups whose track count differs from the main file's, each
    with both counts; likewise for the device and the plugin counts.
    It never fills [version_changes]. *)
Theorem count_change_entries (main : analysis) (backups : list analysis) :
  let c := _compare_files main backups in
  track_changes c =
    map (λ b, {| track_change_backup := file_path b;
                 change_tracks := tracks_of b;
                 change_main_tracks := tracks_of main |})
        (List.filter (λ b, bool_decide (tracks_of b ≠ tracks_of main)) backups)
  ∧ device_changes c =
    map (λ b, {| device_change_backup := file_path b;
                 change_devices := devices_of b;
                 change_main_devices := devices_of main |})
        (List.filter (λ b, bool_decide (devices_of b ≠ devices_of main)) backups)
  ∧ plugin_changes c =
    map (λ b, {| plugin_change_backup := file_path b;
                 change_plugins := plugins_of b;
                 change_main_plugins := plugins_of main |})
        (List.filter (λ b, bool_decide (plugins_of b ≠ plugins_of main)) backups)
  ∧ version_changes c = [].
Proof.
  cbv zeta. unfold _compare_files. repeat split.
  - rewrite <- (omap_filter_map
                 (λ b, if bool_decide (tracks_of b ≠ tracks_of main)
                       then Some {| track_change_backup := file_path b;
                                    change_tracks := tracks_of b;
                                    change_main_tracks := tracks_of main |}
                       else None)) by done.
    rewrite <- (app_nil_l (omap _ backups)).
    apply (loop_collects (compare_step main) track_changes).
    intros c b. simpl. by destruct (bool_decide _); rewrite ?app_nil_r.
  - rewrite <- (omap_filter_map
                 (λ b, if bool_decide (devices_of b ≠ devices_of main)
                       then Some {| device_change_backup := file_path b;
                                    change_devices := devices_of b;
                                    change_main_devices := devices_of main |}
                       else None)) by done.
    rewrite <- (app_nil_l (omap _ backups)).
    apply (loop_collects (compare_step main) device_changes).
    intros c b. simpl. by destruct (bool_decide _); rewrite ?app_nil_r.
  - rewrite <- (omap_filter_map
                 (λ b, if bool_decide (plugins_of b ≠ plugins_of main)
                       then Some {| plugin_change_backup := file_path b;
                                    change_plugins := plugins_of b;
                                    change_main_plugins := plugins_of main |}
                       else None)) by done.
    rewrite <- (app_nil_l (omap _ backups)).
    apply (loop_collects (compare_step main) plugin_changes).
    intros c b. simpl. by destruct (bool_decide _); rewrite ?app_nil_r.
  - by apply (loop_invariant (compare_step main) (λ c, version_changes c = [])).
Qed.

(** X14: a backup whose analysis failed has no extractable data, and
    the comparator reads it as a file with no tracks, no devices, no
    plugins and no tempo: it is listed under each count that is not
    zero in the main file, with 0 as its own count, and never under
    the tempo changes. *)
Theorem failed_backup_compares_as_empty (main backup : analysis) :
  analysis_data backup = None →
  _compare_files main [backup] =
  {| version_changes := [];
     track_changes :=
       if bool_decide (0 ≠ tracks_of main)
       then [ {| track_change_backup := file_path backup; change_tracks := 0;
                 change_main_tracks := tracks_of main |} ]
       else [];
     device_changes :=
       if bool_decide (0 ≠ devices_of main)
       then [ {| device_change_backup := file_path backup; change_devices := 0;
                 change_main_devices := devices_of main |} ]
       else [];
     plugin_changes :=
       if bool_decide (0 ≠ plugins_of main)
       then [ {| plugin_change_backup := file_path backup; change_plugins := 0;
                 change_main_plugins := plugins_of main |} ]
       else [];
     timing_changes := [] |}.
Proof.
  intros Hdata.
  assert (tracks_of backup = 0) as Ht by (unfold tracks_of; by rewrite Hdata).
  assert (devices_of backup = 0) as Hd by (unfold devices_of; by rewrite Hdata).
  assert (plugins_of backup = 0) as Hp by (unfold plugins_of; by rewrite Hdata).
  assert (tempo_of backup = None) as Hte by (unfold tempo_of; by rewrite Hdata).
  unfold _compare_files, compare_step. cbn [fold_left].
  rewrite Ht, Hd, Hp, Hte. reflexivity.
Qed.

(** The corrupt file of the demo folder, compared with the main set. *)
Lemma failed_backup_compares_as_empty_witness :
  Demo.analyze "Song/corrupt.als" = Ok demo_corrupt_record
  ∧ analysis_data demo_corrupt_record = None
  ∧ track_changes (_compare_files Demo.song_record [demo_corrupt_record]) =
      [ {| track_change_backup := "Song/corrupt.als"; change_tracks := 0;
           change_main_tracks := 2 |} ]
  ∧ timing_changes (_compare_files Demo.song_record [demo_corrupt_record]) = [].
Proof.
  split; [vm_compute; reflexivity |]. split; [reflexivity |].
  rewrite (failed_backup_compares_as_empty Demo.song_record demo_corrupt_record)
    by reflexivity.
  split; reflexivity.
Defined.

(** ** The record of a file *)

Section RecordShape.

Variable lower : string → string.
Variable float_of_string : string → option float.
Variable path_suffix : string → string.
Variable gzip_read : string → result string.
Variable fromstring : string → result Element.
Variable format_exc : exn → string.
Variable isoformat : Qc → result string.
Variable recursion_message : string.
Variable recursion_budget : nat.
Variable stat : string → result stat_result.
Variable path_exists : string → result bool.

Local Abbreviation analyze :=
  (analyze_file lower float_of_string path_suffix gzip_read fromstring format_exc
     isoformat recursion_message recursion_budget stat path_exists).
Local Abbreviation failure_of :=
  (load_failure gzip_read fromstring recursion_message recursion_budget).
Local Abbreviation document_of := (loaded_document gzip_read fromstring).
Local Abbreviation facts_of := (file_facts isoformat stat path_exists).

(** The keys of the dict that the earlier case analysis leaves out. *)
Lemma analyze_file_parts (als_path : string) (r : analysis) :
  analyze als_path = Ok r →
  analysis_metadata r = _extract_metadata <$> document_of als_path
  ∧ analysis_structure r =
      (document_of als_path ≫= λ root,
         match _analyze_structure recursion_message recursion_budget root with
         | Ok s => Some s
         | Raise _ => None
         end).
Proof.
  unfold analyze_file, analyze_file_try, loaded_document.
  destruct (path_exists als_path) as [[|]|e0]; simpl; [| | done].
  - destruct (stat als_path) as [st|e1]; simpl; [| done].
    destruct (isoformat (st_mtime st)) as [date|e2]; simpl; [| done].
    destruct (gzip_read als_path) as [xml_data|e3]; simpl;
      [| by intros [= <-]].
    destruct (fromstring xml_data) as [root|e4]; simpl; [| by intros [= <-]].
    destruct (_analyze_structure recursion_message recursion_budget root);
      simpl; by intros [= <-].
  - destruct (gzip_read als_path) as [xml_data|e3]; simpl;
      [| by intros [= <-]].
    destruct (fromstring xml_data) as [root|e4]; simpl; [| by intros [= <-]].
    destruct (_analyze_structure recursion_message recursion_budget root);
      simpl; by intros [= <-].
Qed.

(** X15: [analyze_file] reads the existence, the size and the
    modification date of the file before its [try] block: when one of
    these raises, [analyze_file] raises the same exception. Otherwise
    it returns a record for the path, with that size and date, that
    has either an error or the extracted data, never both and never
    neither. The traceback comes with the error, the structure with
    the data; the metadata is there as soon as the document was
    parsed, also when the structure pass then failed. *)
Theorem record_shape (als_path : string) :
  match facts_of als_path with
  | Raise e => analyze als_path = Raise e
  | Ok facts =>
      ∃ r, analyze als_path = Ok r
        ∧ file_path r = als_path
        ∧ file_size r = facts.1 ∧ modified_date r = facts.2
        ∧ (error r = None ↔ is_Some (analysis_data r))
        ∧ (is_Some (traceback r) ↔ is_Some (error r))
        ∧ (is_Some (analysis_structure r) ↔ is_Some (analysis_data r))
        ∧ (is_Some (analysis_metadata r) ↔ is_Some (document_of als_path))
  end.
Proof.
  pose proof (analyze_file_cases lower float_of_string path_suffix gzip_read
                fromstring format_exc isoformat recursion_message
                recursion_budget stat path_exists als_path) as Hcases.
  destruct (facts_of als_path) as [facts|e]; [| exact Hcases].
  destruct Hcases as (r & Hr & Hpath & Hsize & Hdate & Herr & Htb & Hdata).
  destruct (analyze_file_parts als_path r Hr) as (Hmeta & Hstruct).
  exists r. split; [exact Hr |]. split; [exact Hpath |].
  split; [exact Hsize |]. split; [exact Hdate |].
  rewrite Herr, Htb, Hdata, Hstruct, Hmeta.
  unfold load_failure, loaded_document.
  destruct (gzip_read als_path) as [xml_data|e1]; simpl;
    try (repeat split; try done; by intros [? ?]);
    destruct (fromstring xml_data) as [root|e2]; simpl;
    try (repeat split; try done; by intros [? ?]);
    destruct (_analyze_structure recursion_message recursion_budget root)
      as [s|e3]; simpl;
    repeat split; try done; by intros [? ?].
Qed.

End RecordShape.

(** ** Namespace invariance beyond the tracks *)

Section NamespaceInvariance.

Variable lower : string → string.

Lemma local_names_map_tags (f : string → string) (root : Element) :
  (∀ t, local_name (f t) = local_name t) →
  local_names (map_tags f root) = local_names root.
Proof.
  intros Hf. unfold local_names. rewrite iter_map_tags, map_map.
  apply map_ext. intros e. by rewrite tag_map_tags, Hf.
Qed.

Lemma filter_by_local_name (p : string → bool) (l : list Element) :
  map (λ e, local_name (tag e)) (List.filter (λ e, p (local_name (tag e))) l) =
  List.filter p (map (λ e, local_name (tag e)) l).
Proof.
  induction l as [|e l IH]; [done |].
  simpl. destruct (p (local_name (tag e))); simpl; by rewrite IH.
Qed.

Lemma count_by_local_name (p : string → bool) (root : Element) :
  length (List.filter (λ e, p (local_name (tag e))) (iter root)) =
  length (List.filter p (local_names root)).
Proof.
  unfold local_names. by rewrite <- filter_by_local_name, length_map.
Qed.

(** Every field of [(local_name_counts lower)] is a function of the local
    names. *)
Lemma local_name_counts_spec (root : Element) :
  local_name_counts lower root =
  (length (List.filter is_device_tag (local_names root)),
   list_to_set (List.filter is_device_tag (local_names root)),
   length (List.filter is_plugin_tag (local_names root)),
   (length (List.filter (Py.contains "AudioClip") (local_names root)),
    length (List.filter
              (λ t, negb (Py.contains "AudioClip" t) && Py.contains "MidiClip" t)
              (local_names root)),
    length (List.filter (Py.contains "AudioClip") (local_names root))
    + length (List.filter
                (λ t, negb (Py.contains "AudioClip" t)
                      && Py.contains "MidiClip" t)
                (local_names root))),
   (existsb (Py.contains "Automation") (local_names root),
    length (List.filter (Py.contains "AutomationLane") (local_names root)),
    length (List.filter (Py.contains "AutomationPoint") (local_names root)))).
Proof.
  unfold local_name_counts.
  rewrite clip_count_spec, audio_clips_spec, midi_clips_spec,
    has_automation_spec, automation_lanes_spec, automation_points_spec,
    device_types_by_local_name, device_count_spec, plugin_count_spec.
  rewrite <- !count_by_local_name.
  rewrite (filter_by_local_name is_device_tag).
  repeat f_equal.
  clear. unfold local_names. induction (iter root) as [|e l IH]; [done |].
  simpl. by rewrite IH.
Qed.

(** X16: the device count and set of device types, the plugin count,
    the three clip counters and the three automation fields depend on
    local names only: rewriting any choice of tags to a
    namespace-qualified form, or stripping every tag down to its local
    name, leaves them all as they were. *)
Theorem local_name_counts_namespace_invariant :
  (∀ choose root,
     local_name_counts lower (map_tags (requalify choose) root) =
     local_name_counts lower root)
  ∧ (∀ root,
       local_name_counts lower (map_tags local_name root) =
       local_name_counts lower root).
Proof.
  split; intros; rewrite !local_name_counts_spec.
  - by rewrite (local_names_map_tags _ _ (local_name_requalify choose)).
  - by rewrite (local_names_map_tags _ _ local_name_idempotent).
Qed.

End NamespaceInvariance.

(** ** What backup discovery lists *)

Section DiscoveryProperties.

Variable lower : string → string.
Variable float_of_string : string → option float.
Variable path_suffix : string → string.
Variable gzip_read : string → result string.
Variable fromstring : string → result Element.
Variable format_exc : exn → string.
Variable isoformat : Qc → result string.
Variable recursion_message : string.
Variable recursion_budget : nat.
Variable stat : string → result stat_result.
Variable path_exists : string → result bool.
Variable is_file : string → result bool.
Variable parent : string → string.
Variable name_of : string → string.
Variable joinpath : string → string → string.
Variable glob_als : string → result (list string).
Variable rglob_als : string → result (list string).

Local Abbreviation analyze :=
  (analyze_file lower float_of_string path_suffix gzip_read fromstring format_exc
     isoformat recursion_message recursion_budget stat path_exists).
Local Abbreviation candidates :=
  (backup_candidates lower path_exists is_file parent name_of joinpath glob_als
     rglob_als).
Local Abbreviation find_backups :=
  (find_backup_files lower stat path_exists is_file parent name_of joinpath
     glob_als rglob_als).
Local Abbreviation folder_files :=
  (backup_folder_files path_exists joinpath glob_als).
Local Abbreviation project_dir := (project_dir_of parent).
Local Abbreviation main_choice :=
  (choose_main_file lower path_suffix path_exists is_file parent name_of
     joinpath glob_als).
Local Abbreviation analyze_folder :=
  (analyze_project lower float_of_string path_suffix gzip_read fromstring
     format_exc isoformat recursion_message recursion_budget stat path_exists
     is_file parent name_of joinpath glob_als rglob_als).

(** The second loop of [find_backup_files]: it adds the files whose
    name marks a backup, and nothing else. *)
Lemma rglob_loop_elem (found backups : list string) (f : string) :
  f ∈ fold_left (rglob_step lower name_of) found backups ↔
  f ∈ backups ∨ (f ∈ found ∧ is_backup_name lower (name_of f) = true).
Proof.
  revert backups. induction found as [|x found IH]; intros backups; simpl.
  - split; [by left |]. intros [H|[H _]]; [done |]. by apply elem_of_nil in H.
  - rewrite IH. unfold rglob_step. fold (is_backup_name lower (name_of x)).
    destruct (is_backup_name lower (name_of x)) eqn:Hname.
    + case_bool_decide as Hin.
      * split.
        -- intros [H|[H ?]]; [by left |]. right. split; [by right | done].
        -- intros [H|[H ?]]; [by left |].
           apply elem_of_cons in H as [->|H]; [by left |]. by right.
      * rewrite elem_of_app, list_elem_of_singleton. split.
        -- intros [[H| ->]|[H ?]]; [by left | |].
           ++ right. split; [by left | done].
           ++ right. split; [by right | done].
        -- intros [H|[H ?]]; [by left; left |].
           apply elem_of_cons in H as [->|H]; [by left; right |]. by right.
    + split.
      * intros [H|[H ?]]; [by left |]. right. split; [by right | done].
      * intros [H|[H Hf]]; [by left |].
        apply elem_of_cons in H as [->|H]; [congruence |]. by right.
Qed.

(** The membership test of the second loop keeps the list free of
    duplicates. *)
Lemma rglob_loop_NoDup (found backups : list string) :
  NoDup backups → NoDup (fold_left (rglob_step lower name_of) found backups).
Proof.
  revert backups. induction found as [|x found IH]; intros backups Hnd;
    simpl; [done |].
  apply IH. unfold rglob_step.
  destruct (_ || _); [| done].
  case_bool_decide as Hin; [done |].
  apply NoDup_app. split; [done |]. split; [| apply NoDup_singleton].
  intros y Hy ->%list_elem_of_singleton. done.
Qed.

(** The three listings discovery makes when it does not raise. *)
Lemma backup_candidates_cases (project_path : string) (listed : list string) :
  candidates project_path = Ok listed →
  ∃ single folder found,
    is_file project_path = Ok single
    ∧ folder_files (project_dir single project_path) = Ok folder
    ∧ rglob_als (project_dir single project_path) = Ok found
    ∧ listed = fold_left (rglob_step lower name_of) found folder.
Proof.
  unfold backup_candidates, backup_folder_files, project_dir_of.
  destruct (is_file project_path) as [single|e0]; simpl; [| done].
  destruct (path_exists _) as [[|]|e1] eqn:Hexists; simpl; [| | done].
  - destruct (glob_als _) as [folder|e2] eqn:Hfolder; simpl; [| done].
    destruct (rglob_als _) as [found|e3] eqn:Hfound; simpl; [| done].
    intros [= <-]. exists single, folder, found.
    by rewrite Hexists, Hfolder, Hfound.
  - destruct (rglob_als _) as [found|e3] eqn:Hfound; simpl; [| done].
    intros [= <-]. exists single, [], found.
    by rewrite Hexists, Hfound.
Qed.

(** X17: what backup discovery returns. A file is among the backups
    exactly when it is an [.als] file of the [Backup] folder, or it is
    found by the recursive search and its name, lower-cased, contains
    [backup], or its name contains a bracket; a file the recursive
    search finds again is not listed twice: if the [Backup] folder's
    listing has no duplicates, neither has the result. *)
Theorem backup_discovery (project_path : string) (backups : list string) :
  find_backups project_path = Ok backups →
  ∃ single folder found,
    is_file project_path = Ok single
    ∧ folder_files (project_dir single project_path) = Ok folder
    ∧ rglob_als (project_dir single project_path) = Ok found
    ∧ (∀ f, f ∈ backups ↔
            f ∈ folder
            ∨ (f ∈ found ∧ is_backup_name lower (name_of f) = true))
    ∧ (NoDup folder → NoDup backups).
Proof.
  intros Hfind.
  pose proof (find_backup_files_spec lower stat path_exists is_file parent
                name_of joinpath glob_als rglob_als project_path) as Hspec.
  rewrite Hfind in Hspec. destruct Hspec as (_ & listed & Hlisted & Hperm).
  destruct (backup_candidates_cases _ _ Hlisted)
    as (single & folder & found & Hsingle & Hfolder & Hfound & ->).
  exists single, folder, found.
  split; [exact Hsingle |]. split; [exact Hfolder |]. split; [exact Hfound |].
  split.
  - intros f. rewrite Hperm. apply rglob_loop_elem.
  - intros Hnd. rewrite Hperm. by apply rglob_loop_NoDup.
Qed.

(** X18: the dict [analyze_project] returns, when it returns one. The
    folder and the main file are the ones chosen from the path and,
    when the folder holds no [.als] file at all, from the main file
    the analyzer had kept from an earlier call; the main analysis is
    present exactly when there is a main file and it exists, and is
    then the analysis of that file; every backup file is paired, in
    order, with its own analysis; and the comparison is present
    exactly when there is a main analysis and at least one backup,
    and is then the comparison of the main analysis with the backup
    analyses. *)
Theorem project_results_shape (self_main_file : option string)
    (project_path : string) (r : project_results) :
  analyze_folder self_main_file project_path = Ok r →
  main_choice self_main_file project_path = Ok (project_folder r, main_file r)
  ∧ (is_file project_path = Ok false →
     path_exists (joinpath project_path (name_of project_path +:+ ".als")) =
       Ok false →
     glob_als project_path = Ok [] →
     main_file r = self_main_file)
  ∧ (∀ m, main_analysis r = Some m ↔
          ∃ f, main_file r = Some f ∧ path_exists f = Ok true
               ∧ analyze f = Ok m)
  ∧ Forall2 (λ f a, analyze f = Ok a) (backup_files r) (backup_analyses r)
  ∧ comparison_result r =
      match main_analysis r, backup_files r with
      | Some m, _ :: _ => Some (_compare_files m (backup_analyses r))
      | _, _ => None
      end.
Proof.
  intros Hr.
  destruct (analyze_project_backups lower float_of_string path_suffix
              gzip_read fromstring format_exc isoformat recursion_message
              recursion_budget stat path_exists is_file parent name_of
              joinpath glob_als rglob_als _ _ _ Hr) as [Hfind Hpairs].
  revert Hr. unfold analyze_project.
  destruct (main_choice self_main_file project_path)
    as [[dir main]|e] eqn:Hchoice; simpl; [| done].
  assert (is_file project_path = Ok false →
          path_exists (joinpath project_path (name_of project_path +:+ ".als"))
            = Ok false →
          glob_als project_path = Ok [] → main = self_main_file) as Hstale.
  { intros Hsingle Hmain Hglob. revert Hchoice. unfold choose_main_file.
    rewrite Hsingle. simpl. rewrite Hmain. simpl. rewrite Hglob. simpl.
    by intros [= _ <-]. }
  assert (∀ main_an,
            match main with
            | Some f =>
                path_exists f ≫= λ found : bool,
                if found then a ← analyze f; Ok (Some a) else Ok None
            | None => Ok None
            end = Ok main_an →
            ∀ m, main_an = Some m ↔
                 ∃ f, main = Some f ∧ path_exists f = Ok true
                      ∧ analyze f = Ok m) as Hmain.
  { intros main_an. destruct main as [f|].
    - destruct (path_exists f) as [[|]|e] eqn:Hex; simpl; [| | done].
      + destruct (analyze f) as [a|e] eqn:Ha; simpl; [| done].
        intros [= <-] m. split.
        * intros [= ->]. by exists f.
        * intros (f' & [= <-] & _ & Hm). congruence.
      + intros [= <-] m. split; [done |].
        intros (f' & [= <-] & Hex' & _). congruence.
    - intros [= <-] m. split; [done |]. by intros (f' & [=] & _). }
  revert Hmain.
  match goal with
  | |- context [mbind _ ?m] =>
      match type of m with
      | result (option analysis) => destruct m as [main_an|e]
      end
  end; simpl; [| done].
  intros Hmain. specialize (Hmain main_an eq_refl).
  destruct (find_backups project_path) as [backups|e]; simpl; [| done].
  destruct (foldM _ backups []) as [all|e]; simpl; [| done].
  intros [= <-]. simpl in *.
  split; [done |]. split; [exact Hstale |]. split; [exact Hmain |].
  split; [exact Hpairs |].
  destruct main_an as [m|]; [| done].
  by destruct Hpairs.
Qed.

End DiscoveryProperties.

(** The demo folder: the main file is the one named after the folder,
    and the two backups are paired with their analyses. An analyzer
    that has analyzed it and is then given the folder [Empty], which
    holds no [.als] file, reports the main file of the demo folder
    again. *)
Lemma project_results_shape_witness :
  (∃ r, Demo.analyze_folder None "Song" = Ok r
        ∧ main_file r = Some "Song/Song.als"
        ∧ backup_files r = [ "Song/Backup/Song [2024-03-01].als";
                             "Song/Backup/Song [2024-02-01].als" ]
        ∧ Forall2 (λ f a, Demo.analyze f = Ok a)
            (backup_files r) (backup_analyses r))
  ∧ (∃ r, Demo.analyze_folder (Some "Song/Song.als") "Empty" = Ok r
          ∧ project_folder r = "Empty"
          ∧ main_file r = Some "Song/Song.als").
Proof.
  split.
  - eexists. split; [vm_compute; reflexivity |]. split; [reflexivity |].
    split; [reflexivity |].
    eapply (project_results_shape Demo.lower Demo.float_of_string
              Demo.path_suffix Demo.gzip_read Demo.fromstring Demo.format_exc
              Demo.isoformat Demo.recursion_message Demo.recursion_budget
              Demo.stat Demo.path_exists Demo.is_file Demo.parent Demo.name_of
              Demo.joinpath Demo.glob_als Demo.rglob_als None "Song").
    vm_compute. reflexivity.
  - eexists. split; [vm_compute; reflexivity |]. split; [reflexivity |].
    eapply (project_results_shape Demo.lower Demo.float_of_string
              Demo.path_suffix Demo.gzip_read Demo.fromstring Demo.format_exc
              Demo.isoformat Demo.recursion_message Demo.recursion_budget
              Demo.stat Demo.path_exists Demo.is_file Demo.parent Demo.name_of
              Demo.joinpath Demo.glob_als Demo.rglob_als
              (Some "Song/Song.als") "Empty");
      vm_compute; reflexivity.
Defined.

Lemma backup_discovery_witness :
  Demo.find_backups "Song/Song.als" =
    Ok [ "Song/Backup/Song [2024-03-01].als";
         "Song/Backup/Song [2024-02-01].als" ]
  ∧ ∃ single folder found,
      Demo.is_file "Song/Song.als" = Ok single
      ∧ backup_folder_files Demo.path_exists Demo.joinpath Demo.glob_als
          (project_dir_of Demo.parent single "Song/Song.als") = Ok folder
      ∧ Demo.rglob_als (project_dir_of Demo.parent single "Song/Song.als") =
          Ok found
      ∧ (∀ f, f ∈ [ "Song/Backup/Song [2024-03-01].als";
                    "Song/Backup/Song [2024-02-01].als" ] ↔
              f ∈ folder
              ∨ (f ∈ found
                 ∧ is_backup_name Demo.lower (Demo.name_of f) = true))
      ∧ (NoDup folder →
         NoDup [ "Song/Backup/Song [2024-03-01].als";
                 "Song/Backup/Song [2024-02-01].als" ]).
Proof.
  split; [vm_compute; reflexivity |].
  apply (backup_discovery Demo.lower Demo.stat Demo.path_exists Demo.is_file
           Demo.parent Demo.name_of Demo.joinpath Demo.glob_als
           Demo.rglob_als "Song/Song.als").
  vm_compute. reflexivity.
Defined.

(** ** Local names *)

(** X19: the local name of a tag, as every extractor takes it. It
    never contains a closing brace; a tag without one is its own local
    name; and whatever is written before a closing brace does not
    matter: a tag and the same tag behind any brace-terminated prefix
    have the same local name. *)
Theorem local_name_strips_namespace :
  (∀ t, Py.contains "}" (local_name t) = false)
  ∧ (∀ t, Py.contains "}" t = false → local_name t = t)
  ∧ (∀ before t, local_name (before +:+ "}" +:+ t) = local_name t).
Proof.
  split; [| split].
  - intros t. rewrite local_name_last_piece.
    apply last_piece_without_separator.
  - intros t Ht. unfold local_name. by rewrite Ht.
  - intros before t. rewrite !local_name_last_piece. unfold Py.last_piece.
    change ("}" +:+ t) with (String "}" t).
    rewrite split_joined. apply last_app_nonempty, split_nonempty.
Qed.

(** ** The track lists *)

(** X20: each of the four track lists holds, in document order, one
    record per element of its kind, made by [_extract_track_info] with
    the kind's type; and no record, the master's included, ever has
    devices, clips or automation listed: those three stay empty. *)
Theorem track_lists (root : Element) :
  let t := _extract_tracks root in
  audio_tracks t = listed_tracks "audio" "AudioTrack" root
  ∧ midi_tracks t = listed_tracks "midi" "MidiTrack" root
  ∧ return_tracks t = listed_tracks "return" "ReturnTrack" root
  ∧ group_tracks t = listed_tracks "group" "GroupTrack" root
  ∧ Forall (λ i, track_devices i = [] ∧ track_clips i = []
                 ∧ track_automation i = [])
      (audio_tracks t ++ midi_tracks t ++ return_tracks t ++ group_tracks t
       ++ option_list (master_track t)).
Proof.
  destruct (tracks_loop (iter root) tracks_init)
    as (Ha & Hm & Hr & Hg & Hmaster & _).
  fold (_extract_tracks root) in *. simpl in *. unfold listed_tracks.
  rewrite Ha, Hm, Hr, Hg, Hmaster.
  split; [done |]. split; [done |]. split; [done |]. split; [done |].
  rewrite !Forall_app.
  repeat split;
    try (apply Forall_forall; intros i (e & -> & _)%list_elem_of_fmap; done).
  destruct (last _); simpl; [by constructor | constructor].
Qed.

(** ** Time signature and arrangement length *)

Lemma contains_of_prefix (n s : string) :
  String.prefix n s = true → Py.contains n s = true.
Proof. intros H. destruct s; cbn [Py.contains]; by rewrite H. Qed.

Lemma contains_app_r (n a b : string) :
  Py.contains n b = true → Py.contains n (a +:+ b) = true.
Proof.
  intros H. induction a as [|c a IH]; simpl; [done |].
  rewrite IH. apply orb_true_r.
Qed.

(** A slot of the loop state that an item overwrites whenever it
    yields a value ends as the last value yielded. *)
Lemma loop_slot_last_wins {S A B : Type} (step : S → B → S)
    (slot : S → option A) (cand : B → option A) (xs : list B) (s : S) :
  (∀ s x, slot (step s x) =
          match cand x with Some v => Some v | None => slot s end) →
  slot (fold_left step xs s) =
  match last (omap cand xs) with Some v => Some v | None => slot s end.
Proof.
  intros Hstep. induction xs as [|x xs IH] using rev_ind; [done |].
  rewrite fold_left_app, omap_app. simpl. rewrite Hstep.
  destruct (cand x) as [v|]; simpl.
  - by rewrite last_snoc.
  - by rewrite app_nil_r, IH.
Qed.

(** X21: the time signature is the one given by the last element whose
    tag mentions [TimeSignature] and that has both a [Numerator] and a
    [Denominator] below it; an element that lacks one of the two
    leaves the earlier value in place. A time signature that is
    reported always has a slash. *)
Theorem time_signature_spec (float_of_string : string → option float)
    (root : Element) :
  let p := _extract_project_info float_of_string root in
  time_signature p = last (omap time_signature_candidate (iter root))
  ∧ (∀ s, time_signature p = Some s → Py.contains "/" s = true).
Proof.
  cbv zeta.
  assert (time_signature (_extract_project_info float_of_string root) =
          last (omap time_signature_candidate (iter root))) as Hts.
  { simpl. rewrite (loop_last_wins time_signature_step time_signature_candidate).
    - by destruct (last _).
    - intros a e. unfold time_signature_step, time_signature_candidate.
      destruct (Py.contains "TimeSignature" (tag e)); [| done].
      destruct (find_descendant "Numerator" e) as [n|]; [| done]. simpl.
      by destruct (find_descendant "Denominator" e). }
  split; [exact Hts |].
  intros s. rewrite Hts. intros Hs.
  apply last_Some in Hs as [l' Hl'].
  assert (s ∈ omap time_signature_candidate (iter root)) as Hin.
  { rewrite Hl'. apply elem_of_app. right. by apply list_elem_of_singleton. }
  apply list_elem_of_omap in Hin as (e & _ & He).
  unfold time_signature_candidate in He.
  destruct (Py.contains "TimeSignature" (tag e)); [| done].
  destruct (find_descendant "Numerator" e) as [n|]; [| done].
  destruct (find_descendant "Denominator" e) as [d|]; [| done].
  simpl in He. injection He as <-.
  apply contains_app_r, contains_of_prefix. simpl. apply prefix_empty.
Qed.

(** X22: the arrangement length of the timing bucket is the parsed
    [Value] of the last element whose local name mentions
    [ArrangementLength] and whose [Value] parses as a number; a value
    that does not parse leaves the earlier one in place. The project
    bucket never fills its own [arrangement_length], nor its [name]. *)
Theorem arrangement_length_spec (float_of_string : string → option float)
    (root : Element) :
  timing_arrangement_length (_extract_timing_info float_of_string root) =
    last (omap (arrangement_length_candidate float_of_string) (iter root))
  ∧ arrangement_length (_extract_project_info float_of_string root) = None
  ∧ project_name (_extract_project_info float_of_string root) = None.
Proof.
  split; [| done]. unfold _extract_timing_info.
  rewrite (loop_slot_last_wins (timing_info_step float_of_string)
             timing_arrangement_length
             (arrangement_length_candidate float_of_string)).
  - by destruct (last _).
  - intros t e. unfold arrangement_length_candidate. simpl.
    destruct (Py.contains "ArrangementLength" (local_name (tag e))); [| done].
    destruct (get e "Value") as [v|]; [| done]. simpl.
    destruct (Py.truthy v); [| done]. by destruct (float_of_string v).
Qed.

(** ** The backup bucket and namespaces *)

Section RawTags.

Variable lower : string → string.

Lemma backup_count_by_tag (root : Element) :
  backup_count (_extract_backup_info lower root) =
  length (List.filter (is_backup_element lower) (iter root)).
Proof.
  unfold _extract_backup_info.
  rewrite (loop_counter (backup_info_step lower) backup_count
             (is_backup_element lower)); [done |].
  intros b e. unfold backup_info_step, is_backup_element.
  destruct (Py.contains "backup" (lower (tag e))); simpl; lia.
Qed.

(** X23: the backup bucket matches on the whole tag, namespace
    included: it counts the elements whose lower-cased tag mentions
    [backup]. So when the tags of a document are all qualified with a
    namespace, and every qualified tag, lower-cased, mentions [backup]
    (as it does when the namespace itself mentions it), every element
    of the document is counted as a backup reference. *)
Theorem backup_bucket_sees_namespace (uri : string) (root : Element) :
  Forall (λ e, Py.contains "backup" (lower (qualify uri (tag e))) = true)
         (iter root) →
  backup_count (_extract_backup_info lower root) =
    length (List.filter (is_backup_element lower) (iter root))
  ∧ backup_count (_extract_backup_info lower (map_tags (qualify uri) root)) =
      length (iter root).
Proof.
  intros Huri. rewrite !backup_count_by_tag, iter_map_tags.
  split; [done |].
  induction Huri as [|e l He _ IH]; [done |].
  cbn [map List.filter]. unfold is_backup_element at 1.
  rewrite tag_map_tags, He. simpl. by rewrite IH.
Qed.

(** ** The file types *)

(** Counting one more file of a type adds one to the sum of the
    counts. *)
Lemma count_total_bump (m : gmap string nat) (k : string) :
  count_total (<[ k := default 0 (m !! k) + 1 ]> m) = S (count_total m).
Proof.
  unfold count_total.
  destruct (m !! k) as [v|] eqn:Hv; simpl.
  - rewrite <- insert_delete_eq.
    rewrite map_fold_insert_L;
      [| intros; apply count_total_comm | apply lookup_delete_eq].
    rewrite (map_fold_delete_L _ _ _ _ m
               (λ _ _ z1 z2 y _ _ _, count_total_comm z1 z2 y) Hv).
    lia.
  - rewrite map_fold_insert_L;
      [| intros; apply count_total_comm | exact Hv].
    lia.
Qed.

Lemma falsy_empty (s : string) : Py.truthy s = false → s = "".
Proof. by destruct s. Qed.

(** X24: in the file-references bucket, [file_types] counts the listed
    paths by lower-cased extension: the entry of an extension is the
    number of listed paths that have it, an entry is never zero, paths
    without an extension are not counted under the empty key, and the
    entries add up to the number of listed paths that have an
    extension. *)
Theorem file_types_count (path_suffix : string → string) (root : Element) :
  let f := _extract_file_references lower path_suffix root in
  (∀ ext, ext ≠ "" →
          default 0 (file_types f !! ext) =
          length (List.filter (has_extension_of lower path_suffix ext) (all_paths f)))
  ∧ (∀ ext n, file_types f !! ext = Some n → ext ≠ "" ∧ (0 < n)%nat)
  ∧ count_total (file_types f) =
      length (List.filter (has_extension lower path_suffix) (all_paths f)).
Proof.
  set (inv := λ f : file_references,
         (∀ ext, ext ≠ "" →
                 default 0 (file_types f !! ext) =
                 length (List.filter (has_extension_of lower path_suffix ext)
                                     (all_paths f)))
         ∧ (∀ ext n, file_types f !! ext = Some n → ext ≠ "" ∧ (0 < n)%nat)
         ∧ count_total (file_types f) =
             length (List.filter (has_extension lower path_suffix) (all_paths f))).
  assert (Hchild : ∀ f c, inv f → inv (file_ref_child_step lower path_suffix f c)).
  { intros f c (Hper & Hpos & Hsum). unfold inv, file_ref_child_step.
    destruct (_ || _); [| done].
    destruct (Py.or_ (get c "Value") (text c)) as [v|]; [| done].
    destruct (Py.truthy v && Py.truthy (Py.strip v)); [| done].
    cbn [all_paths file_types].
    destruct (Py.truthy (lower (path_suffix v))) eqn:Hext.
    - pose proof (truthy_nonempty _ Hext) as Hne. split; [| split].
      + intros ext Hext'. rewrite List.filter_app, length_app.
        cbn [List.filter]. unfold has_extension_of at 2.
        destruct (String.eqb_spec (lower (path_suffix v)) ext) as [<-|Hd].
        * rewrite lookup_insert_eq. simpl. rewrite (Hper _ Hne). lia.
        * rewrite lookup_insert_ne by exact Hd. simpl.
          rewrite (Hper _ Hext'). lia.
      + intros ext n.
        destruct (decide (lower (path_suffix v) = ext)) as [<-|Hd].
        * rewrite lookup_insert_eq. intros [= <-]. split; [exact Hne | lia].
        * rewrite lookup_insert_ne by exact Hd. apply Hpos.
      + rewrite count_total_bump, Hsum, List.filter_app, length_app.
        cbn [List.filter].
        change (has_extension lower path_suffix v)
          with (Py.truthy (lower (path_suffix v))).
        rewrite Hext.
        simpl. lia.
    - apply falsy_empty in Hext as Hempty. split; [| split].
      + intros ext Hext'. rewrite List.filter_app, length_app.
        cbn [List.filter]. unfold has_extension_of at 2. rewrite Hempty.
        destruct (String.eqb_spec "" ext) as [<-|_]; [done |].
        simpl. rewrite (Hper _ Hext'). lia.
      + exact Hpos.
      + rewrite Hsum, List.filter_app, length_app.
        cbn [List.filter].
        change (has_extension lower path_suffix v)
          with (Py.truthy (lower (path_suffix v))).
        rewrite Hext.
        simpl. lia. }
  apply (loop_invariant (file_references_step lower path_suffix) inv).
  - split; [| split]; [| | done].
    + intros ext _. simpl. by rewrite lookup_empty.
    + intros ext n. simpl. by rewrite lookup_empty.
  - intros f e Hf. unfold file_references_step.
    by apply (loop_invariant (file_ref_child_step lower path_suffix) inv).
Qed.

End RawTags.

(** The demo set has no backup element; with every tag qualified by
    a namespace named after a backup tool, all eighteen elements are
    counted. *)
Lemma backup_bucket_sees_namespace_witness :
  backup_count (_extract_backup_info Demo.lower (Demo.set_document "120")) = 0
  ∧ backup_count
      (_extract_backup_info Demo.lower
         (map_tags (qualify "urn:Backup") (Demo.set_document "120"))) = 18.
Proof.
  destruct (backup_bucket_sees_namespace Demo.lower "urn:Backup"
              (Demo.set_document "120")) as [H1 H2].
  - repeat (constructor; [reflexivity |]). constructor.
  - split; [rewrite H1 | rewrite H2]; reflexivity.
Defined.
